(** * Risk scoring engine of the life-insurance pricing backend

    A shallow embedding of [RiskScoringEngine] (backend_api.py): the twelve
    factor scorers, the aggregation in [score_customer], the price band of
    [_calculate_pricing], the cohort selection and the duration / attrition
    estimate of [_estimate_policy_metrics], and [_calculate_confidence].

    Conventions.
    - A Python [float] is an exact rational ([Q]); decimal literals denote
      the decimal fraction they spell.  Python [int] is [Z]; conversions of
      integers too large for a float, which raise, are not modelled.
    - [round(x, n)] is rounding to [n] decimals, ties to even.
    - An exception is a value of [exn]; a call that can raise returns a
      [result].
    - The historical table is the one [pd.read_csv] returns for a file with
      the generator's columns: numbers, booleans and dates in every row, and
      in the text columns a string or NaN, since the reader takes an empty
      field and texts such as "None" or "NA" for missing values.
    - [pd.Timestamp.today()] is read from an explicit day number [today].
    - The rendered texts ([value], [explanation], [summary]) and the
      [ai_pattern_analysis] payload are display data built from the numbers
      modelled here and are left out. *)

From Stdlib Require Import ZArith QArith Qround Qminmax Qabs Lqa Lia.
From Stdlib Require Import List String Ascii Bool.
Import ListNotations.

Open Scope Q_scope.

(** ** Numbers *)

Module Num.

Definition Qlt_bool (x y : Q) : bool := negb (Qle_bool y x).

(** [round(x, ndigits)]: scale, round half to even, scale back. *)
Definition py_round (x : Q) (ndigits : nat) : Q :=
  let scale := (10 ^ Z.of_nat ndigits)%Z in
  let s := x * inject_Z scale in
  let f := Qfloor s in
  let r := s - inject_Z f in
  let n := if Qlt_bool r (1 # 2) then f
           else if Qlt_bool (1 # 2) r then (f + 1)%Z
           else if Z.even f then f else (f + 1)%Z in
  inject_Z n / inject_Z scale.

(** [x] has at most [ndigits] decimals. *)
Definition decimal (ndigits : nat) (x : Q) : Prop :=
  exists n : Z, x == inject_Z n / inject_Z (10 ^ Z.of_nat ndigits).

Definition Qsum (l : list Q) : Q := fold_left Qplus l 0.

(** [Series.mean()] of a numeric column. *)
Definition mean (l : list Q) : Q := Qsum l / inject_Z (Z.of_nat (List.length l)).

(** [Series.mean()] of a boolean column: the fraction of [True]. *)
Definition mean_bool (l : list bool) : Q :=
  mean (map (fun b : bool => if b then 1 else 0) l).

End Num.
Import Num.

(** ** Text *)

Module Text.

Local Open Scope char_scope.

(** The ASCII characters [str.isspace] accepts. *)
Definition isspace (c : ascii) : bool :=
  let n := nat_of_ascii c in
  ((9 <=? n) && (n <=? 13) || (28 <=? n) && (n <=? 32))%nat.

Definition lower_char (c : ascii) : ascii :=
  let n := nat_of_ascii c in
  if ((65 <=? n) && (n <=? 90))%nat then ascii_of_nat (n + 32) else c.

Fixpoint lower (s : string) : string :=
  match s with
  | EmptyString => EmptyString
  | String c rest => String (lower_char c) (lower rest)
  end.

Fixpoint lstrip (s : string) : string :=
  match s with
  | EmptyString => EmptyString
  | String c rest => if isspace c then lstrip rest else s
  end.

Fixpoint rstrip (s : string) : string :=
  match s with
  | EmptyString => EmptyString
  | String c rest =>
      match rstrip rest with
      | EmptyString => if isspace c then EmptyString else String c EmptyString
      | kept => String c kept
      end
  end.

Definition strip (s : string) : string := rstrip (lstrip s).

(** [s.split(sep)] for a one-character separator. *)
Fixpoint split (sep : ascii) (s : string) : list string :=
  match s with
  | EmptyString => [EmptyString]
  | String c rest =>
      if Ascii.eqb c sep then EmptyString :: split sep rest
      else match split sep rest with
           | [] => [String c EmptyString]
           | piece :: pieces => String c piece :: pieces
           end
  end.

(** [s.count(sep)] for a one-character pattern. *)
Fixpoint count (sep : ascii) (s : string) : nat :=
  match s with
  | EmptyString => 0
  | String c rest => (if Ascii.eqb c sep then 1 else 0) + count sep rest
  end.

Fixpoint contains (needle hay : string) : bool :=
  String.prefix needle hay ||
  match hay with
  | EmptyString => false
  | String _ rest => contains needle rest
  end.

End Text.

(** ** Python values and exceptions *)

(** What a text field of an incoming record may hold: [None], a float NaN
    (an empty CSV cell), or a string. *)
Inductive value : Type :=
| PyNone
| PyNaN
| PyStr (s : string).

Inductive exn : Type :=
| KeyError (key : string)
| AttributeError (message : string).

(** [str(e)]: a [KeyError] prints the repr of its key, written here as the
    key between apostrophes, which is its repr when the key is printable
    ASCII without apostrophe or backslash; an [AttributeError] prints its
    message. *)
Definition exn_message (e : exn) : string :=
  match e with
  | KeyError key => ("'" ++ key ++ "'")%string
  | AttributeError message => message
  end.

Inductive result (A : Type) : Type :=
| Ok (a : A)
| Raise (e : exn).
Arguments Ok {A} a.
Arguments Raise {A} e.

Definition bind {A B : Type} (m : result A) (k : A -> result B) : result B :=
  match m with
  | Ok a => k a
  | Raise e => Raise e
  end.

Definition fmap {A B : Type} (f : A -> B) (m : result A) : result B :=
  bind m (fun a => Ok (f a)).

Definition is_ok {A : Type} (m : result A) : bool :=
  match m with Ok _ => true | Raise _ => false end.

Notation "x <- m ;; k" := (bind m (fun x => k))
  (at level 61, m at next level, right associativity).

(** A dict literal with string keys, and [d[k]]. *)
Definition dict (V : Type) : Type := list (string * V).

Fixpoint dict_get {V : Type} (d : dict V) (k : string) : option V :=
  match d with
  | [] => None
  | (k', v) :: rest => if String.eqb k' k then Some v else dict_get rest k
  end.

Definition getitem {V : Type} (d : dict V) (k : string) : result V :=
  match dict_get d k with
  | Some v => Ok v
  | None => Raise (KeyError k)
  end.

(** ** Data model *)

Local Open Scope string_scope.
Local Open Scope list_scope.

(** The applicant record ([CustomerInput]); [text] is the type of the nine
    text fields, [value] on entry and [string] once normalized. *)
Record CustomerOf (text : Type) : Type := mkCustomer {
  customer_id : string;
  age : Q;
  gender : text;
  occupation : text;
  occupation_class : text;
  height_inches : Q;
  weight_lbs : Q;
  bmi : Q;
  blood_pressure_systolic : Z;
  blood_pressure_diastolic : Z;
  total_cholesterol : Z;
  hdl_cholesterol : Z;
  ldl_cholesterol : Z;
  smoking_status : text;
  alcohol_consumption : text;
  exercise_frequency : text;
  chronic_conditions : text;
  family_history : text;
  dangerous_hobbies : text;
  annual_income : Z;
  coverage_amount_requested : Z;
  credit_score : Z;
  existing_coverage : Z
}.
Arguments mkCustomer {text}.
Arguments customer_id {text}.
Arguments age {text}.
Arguments gender {text}.
Arguments occupation {text}.
Arguments occupation_class {text}.
Arguments height_inches {text}.
Arguments weight_lbs {text}.
Arguments bmi {text}.
Arguments blood_pressure_systolic {text}.
Arguments blood_pressure_diastolic {text}.
Arguments total_cholesterol {text}.
Arguments hdl_cholesterol {text}.
Arguments ldl_cholesterol {text}.
Arguments smoking_status {text}.
Arguments alcohol_consumption {text}.
Arguments exercise_frequency {text}.
Arguments chronic_conditions {text}.
Arguments family_history {text}.
Arguments dangerous_hobbies {text}.
Arguments annual_income {text}.
Arguments coverage_amount_requested {text}.
Arguments credit_score {text}.
Arguments existing_coverage {text}.

Definition RawCustomer : Type := CustomerOf value.
Definition Customer : Type := CustomerOf string.

(** A row of the historical table: the applicant columns the engine reads
    and the outcome columns; [text] is the type of the eight text columns.
    [policy_issue_date] is the column after
    [pd.to_datetime(..., errors='coerce')]: a day number, or [None] for
    [NaT]. *)
Record HistRowOf (text : Type) : Type := mkHistRow {
  h_age : Q;
  h_gender : text;
  h_occupation_class : text;
  h_bmi : Q;
  h_blood_pressure_systolic : Z;
  h_total_cholesterol : Z;
  h_smoking_status : text;
  h_alcohol_consumption : text;
  h_exercise_frequency : text;
  h_chronic_conditions : text;
  h_family_history : text;
  h_dangerous_hobbies : text;
  risk_score_assigned : Q;
  annual_premium_assigned : Q;
  claim_filed : bool;
  policy_accepted : bool;
  policy_active : bool;
  policy_issue_date : option Z
}.
Arguments mkHistRow {text}.
Arguments h_age {text}.
Arguments h_gender {text}.
Arguments h_occupation_class {text}.
Arguments h_bmi {text}.
Arguments h_blood_pressure_systolic {text}.
Arguments h_total_cholesterol {text}.
Arguments h_smoking_status {text}.
Arguments h_alcohol_consumption {text}.
Arguments h_exercise_frequency {text}.
Arguments h_chronic_conditions {text}.
Arguments h_family_history {text}.
Arguments h_dangerous_hobbies {text}.
Arguments risk_score_assigned {text}.
Arguments annual_premium_assigned {text}.
Arguments claim_filed {text}.
Arguments policy_accepted {text}.
Arguments policy_active {text}.
Arguments policy_issue_date {text}.

(** A cell of a text column as [pd.read_csv] returns it: the text of the
    field, or NaN where the reader takes the field for a missing value. *)
Inductive cell : Type :=
| NaN
| Str (s : string).

(** A line of the CSV file, and a row of the table read from it. *)
Definition CsvRow : Type := HistRowOf string.
Definition HistRow : Type := HistRowOf cell.

Definition DataFrame : Type := list HistRow.

(** ** pandas *)

(** The field texts [pd.read_csv] reads as NaN by default; an empty field
    is one of them, and so is the text "None". *)
Definition na_values : list string :=
  [""; "#N/A"; "#N/A N/A"; "#NA"; "-1.#IND"; "-1.#QNAN"; "-NaN"; "-nan";
   "1.#IND"; "1.#QNAN"; "<NA>"; "N/A"; "NA"; "NULL"; "NaN"; "None"; "n/a";
   "nan"; "null"].

Definition read_text (field : string) : cell :=
  if existsb (String.eqb field) na_values then NaN else Str field.

(** [pd.read_csv(path)] on a file with the historical columns: numbers,
    booleans and dates as they are, text fields through [read_text]. *)
Definition read_csv (file : list CsvRow) : DataFrame :=
  map (fun line =>
         mkHistRow (h_age line) (read_text (h_gender line))
           (read_text (h_occupation_class line)) (h_bmi line)
           (h_blood_pressure_systolic line) (h_total_cholesterol line)
           (read_text (h_smoking_status line))
           (read_text (h_alcohol_consumption line))
           (read_text (h_exercise_frequency line))
           (read_text (h_chronic_conditions line))
           (read_text (h_family_history line))
           (read_text (h_dangerous_hobbies line))
           (risk_score_assigned line) (annual_premium_assigned line)
           (claim_filed line) (policy_accepted line) (policy_active line)
           (policy_issue_date line))
    file.

Definition is_nan (c : cell) : bool :=
  match c with NaN => true | Str _ => false end.

(** [column == s] and [column != s] in one row: NaN equals no string. *)
Definition cell_eq (c : cell) (s : string) : bool :=
  match c with
  | NaN => false
  | Str t => String.eqb t s
  end.

Definition cell_ne (c : cell) (s : string) : bool := negb (cell_eq c s).

(** [column.str.count(pat)] for a one-character pattern.  A column of a
    table with rows in which every cell is NaN has dtype float64, and
    [.str] on it raises; otherwise the count is NaN in the rows where the
    cell is. *)
Definition str_accessor_message : string :=
  "Can only use .str accessor with string values!".

Definition str_count (pat : ascii) (column : list cell) : result (list (option nat)) :=
  match column with
  | [] => Ok []
  | _ :: _ =>
      if forallb is_nan column
      then Raise (AttributeError str_accessor_message)
      else Ok (map (fun c => match c with
                             | NaN => None
                             | Str s => Some (Text.count pat s)
                             end) column)
  end.

(** [counts == n] in one row: NaN equals no number. *)
Definition count_eq (count : option nat) (n : nat) : bool :=
  match count with
  | None => false
  | Some k => (k =? n)%nat
  end.

(** [df[mask]]: the rows where the boolean column holds [True]. *)
Fixpoint mask {A : Type} (l : list A) (m : list bool) : list A :=
  match l, m with
  | x :: l', b :: m' => if b then x :: mask l' m' else mask l' m'
  | _, _ => []
  end.

Record ScoringStep : Type := mkStep {
  category : string;
  factor : string;
  risk_contribution : Q;
  weight : Q;
  weighted_score : Q;
  supporting_data : dict Q
}.

(** [PricingResult] without [summary] and [ai_pattern_analysis]. *)
Record PricingResult : Type := mkResult {
  r_customer_id : string;
  final_risk_score : Q;
  annual_premium_low : Q;
  annual_premium_calculated : Q;
  annual_premium_recommended : Q;
  annual_premium_high : Q;
  predicted_policy_duration_years : Q;
  attrition_likelihood : Q;
  scoring_steps : list ScoringStep;
  confidence_level : string
}.

(** ** Normalization *)

Definition _normalize_string_field (v : value) (default : string) : string :=
  match v with
  | PyNone => default
  | PyNaN => default
  | PyStr s =>
      let val := Text.strip s in
      if String.eqb (Text.lower val) "nan" || String.eqb (Text.lower val) ""
      then default else val
  end.

Definition normalize_customer_inputs (customer : RawCustomer) : Customer :=
  let norm v := _normalize_string_field v "None" in
  {| customer_id := customer_id customer;
     age := age customer;
     gender := norm (gender customer);
     occupation := norm (occupation customer);
     occupation_class := norm (occupation_class customer);
     height_inches := height_inches customer;
     weight_lbs := weight_lbs customer;
     bmi := bmi customer;
     blood_pressure_systolic := blood_pressure_systolic customer;
     blood_pressure_diastolic := blood_pressure_diastolic customer;
     total_cholesterol := total_cholesterol customer;
     hdl_cholesterol := hdl_cholesterol customer;
     ldl_cholesterol := ldl_cholesterol customer;
     smoking_status := norm (smoking_status customer);
     alcohol_consumption := norm (alcohol_consumption customer);
     exercise_frequency := norm (exercise_frequency customer);
     chronic_conditions := norm (chronic_conditions customer);
     family_history := norm (family_history customer);
     dangerous_hobbies := norm (dangerous_hobbies customer);
     annual_income := annual_income customer;
     coverage_amount_requested := coverage_amount_requested customer;
     credit_score := credit_score customer;
     existing_coverage := existing_coverage customer |}.

(** ** The engine *)

Record RiskScoringEngine : Type := mkEngine {
  historical_data : option DataFrame
}.

(** [RiskScoringEngine(historical_data_path)]; the path is given by the
    lines of the file it names. *)
Definition __init__ (historical_data_path : option (list CsvRow)) : RiskScoringEngine :=
  match historical_data_path with
  | Some file => {| historical_data := Some (read_csv file) |}
  | None => {| historical_data := None |}
  end.

Definition len {A : Type} (l : list A) : Q := inject_Z (Z.of_nat (List.length l)).

Definition between (lo x hi : Q) : bool := Qle_bool lo x && Qle_bool x hi.

Definition betweenZ (lo x hi : Z) : bool := ((lo <=? x) && (x <=? hi))%Z.

(** The block the scorers repeat: [comparison_data] stays [{}] unless the
    historical table is loaded and the selected cohort is not empty.  The
    two scorers that count entries with [.str] spell their block out. *)
Definition comparison (self : RiskScoringEngine)
    (select : HistRow -> bool) (summary : DataFrame -> dict Q) : dict Q :=
  match historical_data self with
  | None => []
  | Some df =>
      let cohort := filter select df in
      if (0 <? List.length cohort)%nat then summary cohort else []
  end.

Definition avg_risk_score (cohort : DataFrame) : Q :=
  py_round (mean (map risk_score_assigned cohort)) 2.

Definition claim_rate (cohort : DataFrame) : Q :=
  py_round (mean_bool (map claim_filed cohort) * 100) 2.

Definition _score_age (self : RiskScoringEngine) (customer : Customer) : ScoringStep :=
  let age := age customer in
  let weight := 0.20 in
  let risk :=
    if Qlt_bool age 30 then 0.1
    else if Qlt_bool age 40 then 0.15
    else if Qlt_bool age 50 then 0.25
    else if Qlt_bool age 60 then 0.4
    else if Qlt_bool age 70 then 0.6
    else 0.8 in
  let weighted_score := risk * weight in
  let comparison_data :=
    comparison self (fun row => between (age - 5) (h_age row) (age + 5))
      (fun age_cohort =>
         [("cohort_size", len age_cohort);
          ("avg_risk_score", avg_risk_score age_cohort);
          ("claim_rate", claim_rate age_cohort)]) in
  mkStep "Demographics" "Age" risk weight (py_round weighted_score 4) comparison_data.

Definition _score_gender (self : RiskScoringEngine) (customer : Customer) : ScoringStep :=
  let gender := gender customer in
  let weight := 0.05 in
  let risk := if String.eqb gender "Male" then 0.55 else 0.45 in
  let weighted_score := risk * weight in
  let comparison_data :=
    comparison self (fun row => cell_eq (h_gender row) gender)
      (fun gender_data =>
         [("cohort_size", len gender_data);
          ("avg_risk_score", avg_risk_score gender_data);
          ("avg_premium", py_round (mean (map annual_premium_assigned gender_data)) 2)]) in
  mkStep "Demographics" "Gender" risk weight (py_round weighted_score 4) comparison_data.

Definition occupation_risk_map : dict Q :=
  [("Class I (Low Risk)", 0.2);
   ("Class II (Moderate Risk)", 0.4);
   ("Class III (High Risk)", 0.7);
   ("Class IV (Very High Risk)", 0.9)].

Definition _score_occupation (self : RiskScoringEngine) (customer : Customer)
    : result ScoringStep :=
  let occupation_class := occupation_class customer in
  let weight := 0.10 in
  risk <- getitem occupation_risk_map occupation_class ;;
  let weighted_score := risk * weight in
  let comparison_data :=
    comparison self (fun row => cell_eq (h_occupation_class row) occupation_class)
      (fun occ_data =>
         [("cohort_size", len occ_data);
          ("avg_risk_score", avg_risk_score occ_data);
          ("claim_rate", claim_rate occ_data)]) in
  Ok (mkStep "Demographics" "Occupation" risk weight (py_round weighted_score 4)
        comparison_data).

Definition _score_bmi (self : RiskScoringEngine) (customer : Customer) : ScoringStep :=
  let bmi := bmi customer in
  let weight := 0.15 in
  let risk :=
    if Qlt_bool bmi 18.5 then 0.4
    else if Qlt_bool bmi 25 then 0.2
    else if Qlt_bool bmi 30 then 0.4
    else if Qlt_bool bmi 35 then 0.6
    else if Qlt_bool bmi 40 then 0.8
    else 0.95 in
  let weighted_score := risk * weight in
  let comparison_data :=
    comparison self (fun row => between (bmi - 2) (h_bmi row) (bmi + 2))
      (fun bmi_cohort =>
         [("cohort_size", len bmi_cohort);
          ("avg_risk_score", avg_risk_score bmi_cohort);
          ("chronic_condition_rate",
           py_round
             (mean_bool
                (map (fun row => cell_ne (h_chronic_conditions row) "None")
                   bmi_cohort) * 100) 2)]) in
  mkStep "Health Metrics" "Body Mass Index (BMI)" risk weight
    (py_round weighted_score 4) comparison_data.

Definition _score_blood_pressure (self : RiskScoringEngine) (customer : Customer)
    : ScoringStep :=
  let systolic := blood_pressure_systolic customer in
  let weight := 0.10 in
  let risk :=
    if (systolic <? 120)%Z then 0.1
    else if (systolic <? 130)%Z then 0.3
    else if (systolic <? 140)%Z then 0.5
    else if (systolic <? 160)%Z then 0.7
    else 0.9 in
  let weighted_score := risk * weight in
  let comparison_data :=
    comparison self
      (fun row => betweenZ (systolic - 10) (h_blood_pressure_systolic row) (systolic + 10))
      (fun bp_cohort =>
         [("cohort_size", len bp_cohort);
          ("avg_risk_score", avg_risk_score bp_cohort)]) in
  mkStep "Health Metrics" "Blood Pressure" risk weight (py_round weighted_score 4)
    comparison_data.

Definition _score_cholesterol (self : RiskScoringEngine) (customer : Customer)
    : ScoringStep :=
  let total_chol := total_cholesterol customer in
  let weight := 0.08 in
  let risk :=
    if (total_chol <? 200)%Z then 0.2
    else if (total_chol <? 240)%Z then 0.5
    else 0.8 in
  let weighted_score := risk * weight in
  let comparison_data :=
    comparison self
      (fun row => betweenZ (total_chol - 20) (h_total_cholesterol row) (total_chol + 20))
      (fun chol_cohort =>
         [("cohort_size", len chol_cohort);
          ("avg_risk_score", avg_risk_score chol_cohort)]) in
  mkStep "Health Metrics" "Cholesterol" risk weight (py_round weighted_score 4)
    comparison_data.

Definition smoking_risk_map : dict Q :=
  [("Never", 0.1);
   ("Former (>5 years)", 0.3);
   ("Former (<5 years)", 0.5);
   ("Current", 0.95)].

Definition _score_smoking (self : RiskScoringEngine) (customer : Customer)
    : result ScoringStep :=
  let smoking_status := smoking_status customer in
  let weight := 0.15 in
  risk <- getitem smoking_risk_map smoking_status ;;
  let weighted_score := risk * weight in
  let comparison_data :=
    comparison self (fun row => cell_eq (h_smoking_status row) smoking_status)
      (fun smoking_cohort =>
         [("cohort_size", len smoking_cohort);
          ("avg_risk_score", avg_risk_score smoking_cohort);
          ("avg_premium",
           py_round (mean (map annual_premium_assigned smoking_cohort)) 2)]) in
  Ok (mkStep "Lifestyle" "Smoking Status" risk weight (py_round weighted_score 4)
        comparison_data).

Definition alcohol_risk_map : dict Q :=
  [("None", 0.2);
   ("Light (1-2/week)", 0.25);
   ("Moderate (3-7/week)", 0.4);
   ("Heavy (>7/week)", 0.8)].

Definition _score_alcohol (self : RiskScoringEngine) (customer : Customer)
    : result ScoringStep :=
  let alcohol := alcohol_consumption customer in
  let weight := 0.05 in
  risk <- getitem alcohol_risk_map alcohol ;;
  let weighted_score := risk * weight in
  let comparison_data :=
    comparison self (fun row => cell_eq (h_alcohol_consumption row) alcohol)
      (fun alcohol_cohort =>
         [("cohort_size", len alcohol_cohort);
          ("avg_risk_score", avg_risk_score alcohol_cohort)]) in
  Ok (mkStep "Lifestyle" "Alcohol Consumption" risk weight (py_round weighted_score 4)
        comparison_data).

Definition exercise_risk_map : dict Q :=
  [("Sedentary", 0.7);
   ("Light (1-2/week)", 0.5);
   ("Moderate (3-4/week)", 0.3);
   ("Active (5+/week)", 0.15)].

Definition _score_exercise (self : RiskScoringEngine) (customer : Customer)
    : result ScoringStep :=
  let exercise := exercise_frequency customer in
  let weight := 0.04 in
  risk <- getitem exercise_risk_map exercise ;;
  let weighted_score := risk * weight in
  let comparison_data :=
    comparison self (fun row => cell_eq (h_exercise_frequency row) exercise)
      (fun exercise_cohort =>
         [("cohort_size", len exercise_cohort);
          ("avg_risk_score", avg_risk_score exercise_cohort);
          ("avg_bmi", py_round (mean (map h_bmi exercise_cohort)) 1)]) in
  Ok (mkStep "Lifestyle" "Exercise Frequency" risk weight (py_round weighted_score 4)
        comparison_data).

(** [len(conditions.split(';'))] *)
Definition num_items (s : string) : nat := List.length (Text.split ";"%char s).

Definition _score_chronic_conditions (self : RiskScoringEngine) (customer : Customer)
    : result ScoringStep :=
  let conditions := chronic_conditions customer in
  let weight := 0.10 in
  let risk :=
    if String.eqb conditions "None" then 0.1
    else
      let num_conditions := num_items conditions in
      Qmin 0.95 (0.4 + inject_Z (Z.of_nat num_conditions) * 0.2) in
  let weighted_score := risk * weight in
  comparison_data <-
    match historical_data self with
    | None => Ok []
    | Some df =>
        condition_cohort <-
          (if String.eqb conditions "None"
           then Ok (filter (fun row => cell_eq (h_chronic_conditions row) "None") df)
           else
             counts <- str_count ";"%char (map h_chronic_conditions df) ;;
             Ok (mask df (map (fun count =>
                                 count_eq count (Text.count ";"%char conditions))
                            counts))) ;;
        Ok (if (0 <? List.length condition_cohort)%nat
            then [("cohort_size", len condition_cohort);
                  ("avg_risk_score", avg_risk_score condition_cohort);
                  ("claim_rate", claim_rate condition_cohort)]
            else [])
    end ;;
  Ok (mkStep "Medical History" "Chronic Conditions" risk weight
        (py_round weighted_score 4) comparison_data).

Definition _score_family_history (self : RiskScoringEngine) (customer : Customer)
    : result ScoringStep :=
  let family_history := family_history customer in
  let weight := 0.05 in
  let risk :=
    if String.eqb family_history "None" then 0.2
    else
      let num_history := num_items family_history in
      Qmin 0.8 (0.4 + inject_Z (Z.of_nat num_history) * 0.2) in
  let weighted_score := risk * weight in
  comparison_data <-
    match historical_data self with
    | None => Ok []
    | Some df =>
        history_cohort <-
          (if String.eqb family_history "None"
           then Ok (filter (fun row => cell_eq (h_family_history row) "None") df)
           else
             counts <- str_count ";"%char (map h_family_history df) ;;
             Ok (mask df (map (fun count =>
                                 count_eq count (Text.count ";"%char family_history))
                            counts))) ;;
        Ok (if (0 <? List.length history_cohort)%nat
            then [("cohort_size", len history_cohort);
                  ("avg_risk_score", avg_risk_score history_cohort)]
            else [])
    end ;;
  Ok (mkStep "Medical History" "Family History" risk weight
        (py_round weighted_score 4) comparison_data).

Definition _score_hobbies (self : RiskScoringEngine) (customer : Customer) : ScoringStep :=
  let hobby := dangerous_hobbies customer in
  let weight := 0.03 in
  let risk := if String.eqb hobby "None" then 0.1 else 0.9 in
  let weighted_score := risk * weight in
  let comparison_data :=
    comparison self
      (fun row =>
         if String.eqb hobby "None"
         then cell_eq (h_dangerous_hobbies row) "None"
         else cell_ne (h_dangerous_hobbies row) "None")
      (fun hobby_cohort =>
         [("cohort_size", len hobby_cohort);
          ("avg_risk_score", avg_risk_score hobby_cohort)]) in
  mkStep "Lifestyle" "Dangerous Hobbies" risk weight (py_round weighted_score 4)
    comparison_data.

(** ** Pricing *)

Record Pricing : Type := mkPricing {
  low : Q;
  calculated : Q;
  recommended : Q;
  high : Q
}.

Definition base_rate_of (age : Q) : Q :=
  if Qlt_bool age 30 then 0.60
  else if Qlt_bool age 40 then 0.80
  else if Qlt_bool age 50 then 1.50
  else if Qlt_bool age 60 then 3.00
  else 6.00.

Definition _calculate_pricing (customer : Customer) (risk_score : Q) : Pricing :=
  let age := age customer in
  let base_rate := base_rate_of age in
  let risk_multiplier := 0.5 + risk_score * 3 in
  let coverage_thousands := inject_Z (coverage_amount_requested customer) / 1000 in
  let base_annual_premium := base_rate * coverage_thousands * risk_multiplier in
  let low_boundary := base_annual_premium * 0.85 in
  let high_boundary := base_annual_premium * 1.25 in
  let recommended :=
    if Qlt_bool risk_score 0.3
    then low_boundary + (high_boundary - low_boundary) * 0.4
    else if Qlt_bool risk_score 0.6
    then low_boundary + (high_boundary - low_boundary) * 0.6
    else low_boundary + (high_boundary - low_boundary) * 0.75 in
  {| low := low_boundary;
     calculated := recommended;
     recommended := recommended;
     high := high_boundary |}.

(** ** Policy duration and attrition *)

Record PolicyMetrics : Type := mkMetrics {
  predicted_duration_years : Q;
  attrition : Q
}.

Definition fallback (risk_score : Q) : PolicyMetrics :=
  let duration := Qmax 3.0 (Qmin 20.0 (12.0 - risk_score * 6.0)) in
  let attrition := Qmax 0.05 (Qmin 0.6 (0.12 + risk_score * 0.25)) in
  {| predicted_duration_years := duration; attrition := attrition |}.

Definition age_window (age : Q) (half_width : Q) (df : DataFrame) : DataFrame :=
  filter (fun row => between (age - half_width) (h_age row) (age + half_width)) df.

Definition same_occupation_class (customer : Customer) (df : DataFrame) : DataFrame :=
  filter (fun row => cell_eq (h_occupation_class row) (occupation_class customer)) df.

Definition same_smoking_status (customer : Customer) (df : DataFrame) : DataFrame :=
  filter (fun row => cell_eq (h_smoking_status row) (smoking_status customer)) df.

(** The cohort the estimate is drawn from: the two [if len(cohort) < ...]
    re-assignments in sequence. *)
Definition select_cohort (df : DataFrame) (customer : Customer) : DataFrame :=
  let age := age customer in
  let cohort :=
    same_smoking_status customer
      (same_occupation_class customer (age_window age 5 df)) in
  let cohort :=
    if (List.length cohort <? 50)%nat
    then same_smoking_status customer (age_window age 10 df)
    else cohort in
  let cohort :=
    if (List.length cohort <? 30)%nat
    then age_window age 10 df
    else cohort in
  cohort.

(** [tenure_years] after [dropna]: one entry per row with a valid date. *)
Fixpoint tenure_of (today : Z) (rows : DataFrame) : list Q :=
  match rows with
  | [] => []
  | row :: rest =>
      match policy_issue_date row with
      | Some issued => (inject_Z (today - issued) / 365.25) :: tenure_of today rest
      | None => tenure_of today rest
      end
  end.

(** The estimate once the cohort is fixed. *)
Definition cohort_metrics (today : Z) (cohort : DataFrame) (risk_score : Q)
    : PolicyMetrics :=
  let accepted := filter policy_accepted cohort in
  match accepted with
  | [] => fallback risk_score
  | _ =>
      let active_rate := mean_bool (map policy_active accepted) in
      let attrition_likelihood := 1.0 - active_rate in
      let tenure_years := tenure_of today accepted in
      match tenure_years with
      | [] => fallback risk_score
      | _ =>
          let active_mask := map policy_active accepted in
          let active_tenure :=
            if (List.length tenure_years =? List.length accepted)%nat
            then mask tenure_years active_mask
            else tenure_years in
          let avg_tenure :=
            match active_tenure with
            | [] => mean tenure_years
            | _ => mean active_tenure
            end in
          {| predicted_duration_years := Qmax 1.0 (Qmin 30.0 avg_tenure);
             attrition := Qmax 0.0 (Qmin 1.0 attrition_likelihood) |}
      end
  end.

Definition _estimate_policy_metrics (today : Z) (self : RiskScoringEngine)
    (customer : Customer) (risk_score : Q) : PolicyMetrics :=
  match historical_data self with
  | None => fallback risk_score
  | Some [] => fallback risk_score
  | Some df => cohort_metrics today (select_cohort df customer) risk_score
  end.

(** ** Confidence *)

Definition _calculate_confidence (customer : Customer) (steps : list ScoringStep)
    : string :=
  let confidence_score := 1.0 in
  let age := age customer in
  let confidence_score :=
    if Qlt_bool age 25 || Qlt_bool 70 age
    then confidence_score * 0.9 else confidence_score in
  let total_risk := Qsum (map weighted_score steps) in
  let confidence_score :=
    if Qlt_bool 0.7 total_risk
    then confidence_score * 0.85 else confidence_score in
  let confidence_score :=
    if negb (String.eqb (dangerous_hobbies customer) "None")
    then confidence_score * 0.9 else confidence_score in
  let confidence_score :=
    if negb (String.eqb (chronic_conditions customer) "None")
    then
      let num_conditions := num_items (chronic_conditions customer) in
      if (2 <=? num_conditions)%nat
      then confidence_score * 0.92 else confidence_score
    else confidence_score in
  if Qle_bool 0.95 confidence_score then "Very High"
  else if Qle_bool 0.85 confidence_score then "High"
  else if Qle_bool 0.75 confidence_score then "Moderate"
  else "Low".

(** ** Scoring one applicant *)

Definition score_customer (today : Z) (self : RiskScoringEngine)
    (customer : RawCustomer) : result PricingResult :=
  let customer := normalize_customer_inputs customer in
  let scoring_steps : list ScoringStep := [] in
  let total_risk_score := 0.0 in
  let age_step := _score_age self customer in
  let scoring_steps := scoring_steps ++ [age_step] in
  let total_risk_score := total_risk_score + weighted_score age_step in
  let gender_step := _score_gender self customer in
  let scoring_steps := scoring_steps ++ [gender_step] in
  let total_risk_score := total_risk_score + weighted_score gender_step in
  occupation_step <- _score_occupation self customer ;;
  let scoring_steps := scoring_steps ++ [occupation_step] in
  let total_risk_score := total_risk_score + weighted_score occupation_step in
  let bmi_step := _score_bmi self customer in
  let scoring_steps := scoring_steps ++ [bmi_step] in
  let total_risk_score := total_risk_score + weighted_score bmi_step in
  let bp_step := _score_blood_pressure self customer in
  let scoring_steps := scoring_steps ++ [bp_step] in
  let total_risk_score := total_risk_score + weighted_score bp_step in
  let chol_step := _score_cholesterol self customer in
  let scoring_steps := scoring_steps ++ [chol_step] in
  let total_risk_score := total_risk_score + weighted_score chol_step in
  smoking_step <- _score_smoking self customer ;;
  let scoring_steps := scoring_steps ++ [smoking_step] in
  let total_risk_score := total_risk_score + weighted_score smoking_step in
  alcohol_step <- _score_alcohol self customer ;;
  let scoring_steps := scoring_steps ++ [alcohol_step] in
  let total_risk_score := total_risk_score + weighted_score alcohol_step in
  exercise_step <- _score_exercise self customer ;;
  let scoring_steps := scoring_steps ++ [exercise_step] in
  let total_risk_score := total_risk_score + weighted_score exercise_step in
  chronic_step <- _score_chronic_conditions self customer ;;
  let scoring_steps := scoring_steps ++ [chronic_step] in
  let total_risk_score := total_risk_score + weighted_score chronic_step in
  family_step <- _score_family_history self customer ;;
  let scoring_steps := scoring_steps ++ [family_step] in
  let total_risk_score := total_risk_score + weighted_score family_step in
  let hobby_step := _score_hobbies self customer in
  let scoring_steps := scoring_steps ++ [hobby_step] in
  let total_risk_score := total_risk_score + weighted_score hobby_step in
  let pricing := _calculate_pricing customer total_risk_score in
  let confidence := _calculate_confidence customer scoring_steps in
  let policy_metrics := _estimate_policy_metrics today self customer total_risk_score in
  Ok {| r_customer_id := customer_id customer;
        final_risk_score := py_round total_risk_score 4;
        annual_premium_low := py_round (low pricing) 2;
        annual_premium_calculated := py_round (calculated pricing) 2;
        annual_premium_recommended := py_round (recommended pricing) 2;
        annual_premium_high := py_round (high pricing) 2;
        predicted_policy_duration_years :=
          py_round (predicted_duration_years policy_metrics) 1;
        attrition_likelihood := py_round (attrition policy_metrics) 3;
        scoring_steps := scoring_steps;
        confidence_level := confidence |}.

(** ** Views used by the statements *)

(** The risk value [_score_chronic_conditions] computes before it looks at
    the historical table, and the one [_score_family_history] computes. *)
Definition chronic_risk (customer : Customer) : Q :=
  if String.eqb (chronic_conditions customer) "None" then 0.1
  else Qmin 0.95
         (0.4 + inject_Z (Z.of_nat (num_items (chronic_conditions customer))) * 0.2).

Definition family_risk (customer : Customer) : Q :=
  if String.eqb (family_history customer) "None" then 0.2
  else Qmin 0.8
         (0.4 + inject_Z (Z.of_nat (num_items (family_history customer))) * 0.2).

(** A column of a table with rows that holds no text at all. *)
Definition no_text (column : list cell) : bool :=
  match column with
  | [] => false
  | _ :: _ => forallb is_nan column
  end.

(** The error of the two steps that count entries in the table's columns,
    if any: the chronic-conditions step comes first. *)
Definition counting_error (self : RiskScoringEngine) (customer : Customer)
    : option exn :=
  match historical_data self with
  | None => None
  | Some df =>
      if negb (String.eqb (chronic_conditions customer) "None")
         && no_text (map h_chronic_conditions df)
      then Some (AttributeError str_accessor_message)
      else if negb (String.eqb (family_history customer) "None")
              && no_text (map h_family_history df)
      then Some (AttributeError str_accessor_message)
      else None
  end.

(** The running total [score_customer] keeps: [total_risk_score += ...]
    once per step, from [0.0]. *)
Definition running_total (steps : list ScoringStep) : Q :=
  fold_left (fun acc step => acc + weighted_score step) steps 0.0.

(** A step whose stored [weighted_score] is exactly risk times weight, with
    a risk value in [0, 1] and a weight that is not negative. *)
Definition exact_step (step : ScoringStep) : Prop :=
  weighted_score step == risk_contribution step * weight step /\
  0 <= risk_contribution step <= 1 /\
  0 <= weight step /\
  decimal 4 (weighted_score step).

(** The score and the price band of a result. *)
Definition score_and_prices (r : PricingResult) : Q * Q * Q * Q * Q :=
  (final_risk_score r, annual_premium_low r, annual_premium_calculated r,
   annual_premium_recommended r, annual_premium_high r).

(** What a step says about the score, without its [supporting_data]. *)
Definition step_core (step : ScoringStep) : string * string * Q * Q * Q :=
  (category step, factor step, risk_contribution step, weight step,
   weighted_score step).

(** A result without the parts drawn from the historical table: the step
    summaries, the predicted duration and the attrition likelihood. *)
Definition history_free (r : PricingResult)
    : string * (Q * Q * Q * Q * Q) * string * list (string * string * Q * Q * Q) :=
  (r_customer_id r, score_and_prices r, confidence_level r,
   map step_core (scoring_steps r)).

(** Every field of a result but the predicted duration. *)
Definition all_but_duration (r : PricingResult)
    : string * Q * Q * Q * Q * Q * Q * list ScoringStep * string :=
  (r_customer_id r, final_risk_score r, annual_premium_low r,
   annual_premium_calculated r, annual_premium_recommended r,
   annual_premium_high r, attrition_likelihood r, scoring_steps r,
   confidence_level r).

(** [type(e).__name__] *)
Definition exn_name (e : exn) : string :=
  match e with
  | KeyError _ => "KeyError"
  | AttributeError _ => "AttributeError"
  end.

(** The error text mentions [s]. *)
Definition mentions (e : exn) (s : string) : bool :=
  Text.contains s (exn_message e).

Definition with_gender (g : value) (c : RawCustomer) : RawCustomer :=
  mkCustomer (customer_id c) (age c) g (occupation c) (occupation_class c)
    (height_inches c) (weight_lbs c) (bmi c) (blood_pressure_systolic c)
    (blood_pressure_diastolic c) (total_cholesterol c) (hdl_cholesterol c)
    (ldl_cholesterol c) (smoking_status c) (alcohol_consumption c)
    (exercise_frequency c) (chronic_conditions c) (family_history c)
    (dangerous_hobbies c) (annual_income c) (coverage_amount_requested c)
    (credit_score c) (existing_coverage c).

(** ** Sample data *)

Module Sample.

(** A 25-year-old in good health; the text fields left empty arrive as
    NaN, [None] or blank strings. *)
Definition applicant (occupation_class chronic_conditions : string)
    (coverage : Z) : RawCustomer :=
  mkCustomer "CUST-0001" 25 (PyStr "Female") (PyStr "Teacher")
    (PyStr occupation_class) 66 140 22 115 75 180 60 100
    (PyStr "Never") PyNaN (PyStr "Active (5+/week)")
    (PyStr chronic_conditions) (PyStr " nan ") PyNone
    60000 coverage 720 0.

Definition healthy : RawCustomer :=
  applicant "Class I (Low Risk)" "None" 500000.

Definition class_v : RawCustomer :=
  applicant "Class V" "None" 500000.

Definition two_conditions : RawCustomer :=
  applicant "Class I (Low Risk)" "Diabetes;Hypertension" 500000.

Definition negative_cover : RawCustomer :=
  applicant "Class I (Low Risk)" "None" (-500000).

(** A 65-year-old smoker in the highest occupation class, with two chronic
    conditions and a dangerous hobby. *)
Definition high_risk : RawCustomer :=
  mkCustomer "CUST-0002" 65 (PyStr "Male") (PyStr "Logger")
    (PyStr "Class IV (Very High Risk)") 70 258 37 165 98 260 35 180
    (PyStr "Current") (PyStr "Moderate (3-7/week)") (PyStr "Sedentary")
    (PyStr "Diabetes;Hypertension") PyNaN (PyStr "Skydiving")
    85000 300000 640 0.

(** A line of the historical file: a man who never smoked, drinks no
    alcohol and has no chronic condition, family history or hobby. *)
Definition past_line (age : Q) (occupation_class : string) (issued : option Z)
    : CsvRow :=
  mkHistRow age "Male" occupation_class 27 125 210 "Never" "None" "Sedentary"
    "None" "None" "None" 0.3 900 false true true issued.

(** The same line as a row of the table read from the file. *)
Definition past_policy (age : Q) (occupation_class : string) (issued : option Z)
    : HistRow :=
  mkHistRow age (Str "Male") (Str occupation_class) 27 125 210 (Str "Never") NaN
    (Str "Sedentary") NaN NaN NaN 0.3 900 false true true issued.

Definition no_history : RiskScoringEngine := mkEngine None.

(** A policy like [past_policy] that has lapsed. *)
Definition lapsed_policy (age : Q) (occupation_class : string) (issued : option Z)
    : HistRow :=
  mkHistRow age (Str "Male") (Str occupation_class) 27 125 210 (Str "Never") NaN
    (Str "Sedentary") NaN NaN NaN 0.3 900 false true false issued.

(** A row with another chronic-conditions cell. *)
Definition with_conditions (conditions : cell) (row : HistRow) : HistRow :=
  mkHistRow (h_age row) (h_gender row) (h_occupation_class row) (h_bmi row)
    (h_blood_pressure_systolic row) (h_total_cholesterol row)
    (h_smoking_status row) (h_alcohol_consumption row) (h_exercise_frequency row)
    conditions (h_family_history row) (h_dangerous_hobbies row)
    (risk_score_assigned row) (annual_premium_assigned row) (claim_filed row)
    (policy_accepted row) (policy_active row) (policy_issue_date row).

(** One comparable past policy, issued on day 19000. *)
Definition one_policy : RiskScoringEngine :=
  mkEngine (Some [past_policy 27 "Class I (Low Risk)" (Some 19000%Z)]).

(** An active policy issued on day 19000 and a lapsed one issued on day
    18000. *)
Definition two_policies : RiskScoringEngine :=
  mkEngine (Some [past_policy 27 "Class I (Low Risk)" (Some 19000%Z);
                  lapsed_policy 27 "Class I (Low Risk)" (Some 18000%Z)]).

(** Thirty past policies of 33-year-olds in another occupation class: none
    is within five years of [healthy], all are within ten. *)
Definition only_relaxed : RiskScoringEngine :=
  mkEngine (Some (repeat (past_policy 33 "Class II (Moderate Risk)" (Some 19000%Z)) 30)).

End Sample.

(** ** Further views *)

(** A normalized record handed back as an incoming one, as when a caller
    normalizes before calling [score_customer]. *)
Definition as_raw (c : Customer) : RawCustomer :=
  mkCustomer (customer_id c) (age c) (PyStr (gender c)) (PyStr (occupation c))
    (PyStr (occupation_class c)) (height_inches c) (weight_lbs c) (bmi c)
    (blood_pressure_systolic c) (blood_pressure_diastolic c) (total_cholesterol c)
    (hdl_cholesterol c) (ldl_cholesterol c) (PyStr (smoking_status c))
    (PyStr (alcohol_consumption c)) (PyStr (exercise_frequency c))
    (PyStr (chronic_conditions c)) (PyStr (family_history c))
    (PyStr (dangerous_hobbies c)) (annual_income c) (coverage_amount_requested c)
    (credit_score c) (existing_coverage c).

(** ** The pattern insight (ai_pattern_analyzer.py) *)

(** [PatternInsight]; the caller allows for a missing [risk_multiplier] and
    a missing [suggested_price_position].  [insight_claim_rate] is the
    field [claim_rate]. *)
Record PatternInsight : Type := mkInsight {
  pattern_description : string;
  cohort_size : Z;
  insight_claim_rate : Q;
  baseline_claim_rate : Q;
  risk_multiplier : option Q;
  confidence : string;
  key_factors : list string;
  recommendation : string;
  statistical_significance : string;
  suggested_price_position : option Q;
  key_factors_with_sentiment : option (list (string * string))
}.

(** ** The HTTP layer (backend_api.py) *)

Record HTTPException : Type := mkHTTPException {
  status_code : Z;
  detail : string
}.

Inductive response (A : Type) : Type :=
| Reply (body : A)
| Failed (error : HTTPException).
Arguments Reply {A} body.
Arguments Failed {A} error.

Module Api.

(** Step 3 of the endpoint up to the choice of [position]: the insight's
    suggestion clamped to [0, 1], or else a position read off the risk
    multiplier. *)
Definition price_position (pattern_insight : option PatternInsight) : option Q :=
  match pattern_insight with
  | Some insight =>
      let position :=
        match suggested_price_position insight with
        | Some suggested => Some (Qmax 0.0 (Qmin 1.0 suggested))
        | None => None
        end in
      match position with
      | Some position => Some position
      | None =>
          let rm := match risk_multiplier insight with
                    | Some rm => rm
                    | None => 1.0
                    end in
          Some (if Qlt_bool 1.5 rm then 0.75
                else if Qlt_bool 1.2 rm then 0.65
                else if Qlt_bool rm 0.8 then 0.45
                else 0.6)
      end
  | None => None
  end.

Definition set_recommended (r : PricingResult) (price : Q) : PricingResult :=
  {| r_customer_id := r_customer_id r;
     final_risk_score := final_risk_score r;
     annual_premium_low := annual_premium_low r;
     annual_premium_calculated := annual_premium_calculated r;
     annual_premium_recommended := price;
     annual_premium_high := annual_premium_high r;
     predicted_policy_duration_years := predicted_policy_duration_years r;
     attrition_likelihood := attrition_likelihood r;
     scoring_steps := scoring_steps r;
     confidence_level := confidence_level r |}.

Record BatchReply : Type := mkBatchReply {
  total_customers : Z;
  results : list PricingResult
}.

(** The loop of [POST /api/score-batch] over the rows of the uploaded
    table, each already a dict. *)
Fixpoint score_rows (today : Z) (engine : RiskScoringEngine)
    (rows : list RawCustomer) (results : list PricingResult)
    : result (list PricingResult) :=
  match rows with
  | [] => Ok results
  | row :: rest =>
      result <- score_customer today engine row ;;
      score_rows today engine rest (results ++ [result])
  end.

(** [POST /api/score-batch], from the parsed rows on. *)
Definition score_batch (today : Z) (engine : RiskScoringEngine)
    (rows : list RawCustomer) : response BatchReply :=
  match score_rows today engine rows [] with
  | Raise e => Failed {| status_code := 500; detail := exn_message e |}
  | Ok results =>
      Reply {| total_customers := Z.of_nat (List.length results);
               results := results |}
  end.

(** [POST /api/score-customer].  [pattern_insight] is what step 2 left in
    that variable: the analyzer's insight, or [None] when the analyzer is
    off or failed.  The endpoint also stores the insight's display form in
    [ai_pattern_analysis] and renders the summary again; both fields are
    outside [PricingResult] as modelled here. *)
Definition score_customer (today : Z) (engine : RiskScoringEngine)
    (pattern_insight : option PatternInsight) (customer : RawCustomer)
    : response PricingResult :=
  match score_customer today engine customer with
  | Raise e => Failed {| status_code := 500; detail := exn_message e |}
  | Ok result =>
      let low := annual_premium_low result in
      let high := annual_premium_high result in
      let base_recommendation := annual_premium_calculated result in
      let ai_recommended := base_recommendation in
      let position := price_position pattern_insight in
      let ai_recommended :=
        match position with
        | Some position =>
            if Qlt_bool low high then low + (high - low) * position
            else ai_recommended
        | None => ai_recommended
        end in
      Reply (set_recommended result (py_round ai_recommended 2))
  end.

End Api.

(** ** The generator's own scorer (data_generator.py) *)

Module DataGenerator.

Definition _calculate_risk_score (customer : Customer) : result Q :=
  let risk_score := 0.0 in
  let age := age customer in
  let age_risk :=
    if Qlt_bool age 30 then 0.1
    else if Qlt_bool age 40 then 0.15
    else if Qlt_bool age 50 then 0.25
    else if Qlt_bool age 60 then 0.4
    else if Qlt_bool age 70 then 0.6
    else 0.8 in
  let risk_score := risk_score + age_risk * 0.20 in
  let gender_risk := if String.eqb (gender customer) "Male" then 0.55 else 0.45 in
  let risk_score := risk_score + gender_risk * 0.05 in
  occupation_risk <-
    getitem [("Class I (Low Risk)", 0.2);
             ("Class II (Moderate Risk)", 0.4);
             ("Class III (High Risk)", 0.7);
             ("Class IV (Very High Risk)", 0.9)] (occupation_class customer) ;;
  let risk_score := risk_score + occupation_risk * 0.10 in
  let bmi := bmi customer in
  let bmi_risk :=
    if Qlt_bool bmi 18.5 then 0.4
    else if Qlt_bool bmi 25 then 0.2
    else if Qlt_bool bmi 30 then 0.4
    else if Qlt_bool bmi 35 then 0.6
    else if Qlt_bool bmi 40 then 0.8
    else 0.95 in
  let risk_score := risk_score + bmi_risk * 0.15 in
  let systolic := blood_pressure_systolic customer in
  let bp_risk :=
    if (systolic <? 120)%Z then 0.1
    else if (systolic <? 130)%Z then 0.3
    else if (systolic <? 140)%Z then 0.5
    else if (systolic <? 160)%Z then 0.7
    else 0.9 in
  let risk_score := risk_score + bp_risk * 0.10 in
  let total_chol := total_cholesterol customer in
  let chol_risk :=
    if (total_chol <? 200)%Z then 0.2
    else if (total_chol <? 240)%Z then 0.5
    else 0.8 in
  let risk_score := risk_score + chol_risk * 0.08 in
  smoking_risk <-
    getitem [("Never", 0.1);
             ("Former (>5 years)", 0.3);
             ("Former (<5 years)", 0.5);
             ("Current", 0.95)] (smoking_status customer) ;;
  let risk_score := risk_score + smoking_risk * 0.15 in
  alcohol_risk <-
    getitem [("None", 0.2);
             ("Light (1-2/week)", 0.25);
             ("Moderate (3-7/week)", 0.4);
             ("Heavy (>7/week)", 0.8)] (alcohol_consumption customer) ;;
  let risk_score := risk_score + alcohol_risk * 0.05 in
  exercise_risk <-
    getitem [("Sedentary", 0.7);
             ("Light (1-2/week)", 0.5);
             ("Moderate (3-4/week)", 0.3);
             ("Active (5+/week)", 0.15)] (exercise_frequency customer) ;;
  let risk_score := risk_score + exercise_risk * 0.04 in
  let chronic_risk :=
    if String.eqb (chronic_conditions customer) "None" then 0.1
    else
      let num_conditions := num_items (chronic_conditions customer) in
      Qmin 0.95 (0.4 + inject_Z (Z.of_nat num_conditions) * 0.2) in
  let risk_score := risk_score + chronic_risk * 0.10 in
  let family_risk :=
    if String.eqb (family_history customer) "None" then 0.2
    else
      let num_history := num_items (family_history customer) in
      Qmin 0.8 (0.4 + inject_Z (Z.of_nat num_history) * 0.2) in
  let risk_score := risk_score + family_risk * 0.05 in
  let hobby_risk := if String.eqb (dangerous_hobbies customer) "None" then 0.1 else 0.9 in
  let risk_score := risk_score + hobby_risk * 0.03 in
  Ok (Qmin 0.99 (Qmax 0.01 risk_score)).

End DataGenerator.

(** ** The analyzer's cohort helpers (ai_pattern_analyzer.py) *)

Module PatternAnalyzer.

Definition _suggest_price_position_from_multiplier (risk_multiplier : option Q) : Q :=
  match risk_multiplier with
  | None => 0.6
  | Some risk_multiplier =>
      if Qlt_bool 1.5 risk_multiplier then 0.75
      else if Qlt_bool risk_multiplier 0.9 then 0.45
      else 0.6
  end.

(** The analyzer receives the record as the endpoint got it. *)
Definition _find_similar_cohort (historical_data : DataFrame) (customer : Customer)
    : DataFrame :=
  let df := historical_data in
  let age := age customer in
  let df := filter (fun row => between (age - 10) (h_age row) (age + 10)) df in
  let df := filter (fun row => cell_eq (h_gender row) (gender customer)) df in
  let bmi := bmi customer in
  let df :=
    if Qlt_bool bmi 25 then filter (fun row => Qlt_bool (h_bmi row) 27) df
    else if Qlt_bool bmi 30
    then filter (fun row => Qle_bool 23 (h_bmi row) && Qlt_bool (h_bmi row) 32) df
    else filter (fun row => Qle_bool 28 (h_bmi row)) df in
  let df :=
    filter (fun row => cell_eq (h_smoking_status row) (smoking_status customer)) df in
  if (List.length df <? 50)%nat
  then
    let df := historical_data in
    let df := filter (fun row => between (age - 15) (h_age row) (age + 15)) df in
    filter (fun row => cell_eq (h_gender row) (gender customer)) df
  else df.

(** An entry of [patterns]; [pattern_claim_rate] is the key ['claim_rate']. *)
Record SubPattern : Type := mkSubPattern {
  description : string;
  size : nat;
  pattern_claim_rate : Q;
  avg_risk : Q
}.

Definition summarize (description : string) (rows : DataFrame) : SubPattern :=
  {| description := description;
     size := List.length rows;
     pattern_claim_rate := mean_bool (map claim_filed rows);
     avg_risk := mean (map risk_score_assigned rows) |}.

Definition _find_sub_patterns (cohort : DataFrame) (customer : Customer)
    : list SubPattern :=
  let patterns : list SubPattern := [] in
  let smoking_bmi :=
    filter (fun row =>
              cell_eq (h_smoking_status row) (smoking_status customer)
              && Qlt_bool (Qabs (h_bmi row - bmi customer)) 3) cohort in
  let patterns :=
    if (10 <? List.length smoking_bmi)%nat
    then patterns ++ [summarize "Similar smoking status + BMI range" smoking_bmi]
    else patterns in
  let occ_chronic :=
    filter (fun row =>
              cell_eq (h_occupation_class row) (occupation_class customer)
              && cell_eq (h_chronic_conditions row) (chronic_conditions customer))
      cohort in
  let patterns :=
    if (10 <? List.length occ_chronic)%nat
    then patterns
         ++ [summarize "Same occupation class + chronic condition status" occ_chronic]
    else patterns in
  let exercise_bmi :=
    filter (fun row =>
              cell_eq (h_exercise_frequency row) (exercise_frequency customer)
              && Qlt_bool (Qabs (h_bmi row - bmi customer)) 5) cohort in
  let patterns :=
    if (10 <? List.length exercise_bmi)%nat
    then patterns ++ [summarize "Similar exercise level + BMI" exercise_bmi]
    else patterns in
  let age := age customer in
  let triple :=
    filter (fun row =>
              Qlt_bool (Qabs (h_age row - age)) 5
              && cell_eq (h_smoking_status row) (smoking_status customer)
              && (Z.abs (h_total_cholesterol row - total_cholesterol customer) <? 30)%Z)
      cohort in
  let patterns :=
    if (10 <? List.length triple)%nat
    then patterns ++ [summarize "Age + smoking + cholesterol triple match" triple]
    else patterns in
  patterns.

End PatternAnalyzer.

(** ** The response cache (ai_cache.py) *)

Module AICache.

(** The ['value'] object of a cache file: the ten keys [set] writes.
    ['suggested_price_position'] is [None] here when the key is absent, as in
    a file written before the field existed, and [Some None] for a JSON
    null. *)
Record ValueDict : Type := mkValueDict {
  v_pattern_description : string;
  v_cohort_size : Z;
  v_claim_rate : Q;
  v_baseline_claim_rate : Q;
  v_risk_multiplier : option Q;
  v_confidence : string;
  v_key_factors : list string;
  v_recommendation : string;
  v_statistical_significance : string;
  v_suggested_price_position : option (option Q)
}.

Record Data : Type := mkData {
  data_value : ValueDict;
  expires_at : Q;
  cached_at : Q
}.

(** The cache directory: the contents of [key.json] for each key. *)
Definition Files : Type := string -> option Data.

Definition write (key : string) (data : Data) (files : Files) : Files :=
  fun k => if String.eqb k key then Some data else files k.

Definition unlink (key : string) (files : Files) : Files :=
  fun k => if String.eqb k key then None else files k.

(** The insight built from [value_dict] after the backfill of a missing
    position; [None] when building it raises.  The file holds no sentiment
    list, so the insight gets the default, [None]. *)
Definition rebuild (value_dict : ValueDict) : option PatternInsight :=
  let build position :=
    {| pattern_description := v_pattern_description value_dict;
       cohort_size := v_cohort_size value_dict;
       insight_claim_rate := v_claim_rate value_dict;
       baseline_claim_rate := v_baseline_claim_rate value_dict;
       risk_multiplier := v_risk_multiplier value_dict;
       confidence := v_confidence value_dict;
       key_factors := v_key_factors value_dict;
       recommendation := v_recommendation value_dict;
       statistical_significance := v_statistical_significance value_dict;
       suggested_price_position := position;
       key_factors_with_sentiment := None |} in
  match v_suggested_price_position value_dict with
  | Some position => Some (build position)
  | None =>
      match v_risk_multiplier value_dict with
      | None => None
      | Some rm =>
          Some (build (Some (if Qlt_bool 1.5 rm then 0.75
                             else if Qlt_bool rm 0.9 then 0.45
                             else 0.6)))
      end
  end.

Definition get (now : Q) (files : Files) (key : string)
    : option PatternInsight * Files :=
  match files key with
  | None => (None, files)
  | Some data =>
      if Qlt_bool (expires_at data) now
      then (None, unlink key files)
      else (rebuild (data_value data), files)
  end.

Definition set (now : Q) (files : Files) (key : string) (value : PatternInsight)
    (ttl : Z) : Files :=
  let value_dict :=
    {| v_pattern_description := pattern_description value;
       v_cohort_size := cohort_size value;
       v_claim_rate := insight_claim_rate value;
       v_baseline_claim_rate := baseline_claim_rate value;
       v_risk_multiplier := risk_multiplier value;
       v_confidence := confidence value;
       v_key_factors := key_factors value;
       v_recommendation := recommendation value;
       v_statistical_significance := statistical_significance value;
       v_suggested_price_position := Some (suggested_price_position value) |} in
  let data :=
    {| data_value := value_dict;
       expires_at := now + inject_Z ttl;
       cached_at := now |} in
  write key data files.

Definition clear_expired (now : Q) (files : Files) : Files :=
  fun k =>
    match files k with
    | Some data => if Qlt_bool (expires_at data) now then None else Some data
    | None => None
    end.

End AICache.

(** An insight as it comes back from the cache. *)
Definition without_sentiment (insight : PatternInsight) : PatternInsight :=
  {| pattern_description := pattern_description insight;
     cohort_size := cohort_size insight;
     insight_claim_rate := insight_claim_rate insight;
     baseline_claim_rate := baseline_claim_rate insight;
     risk_multiplier := risk_multiplier insight;
     confidence := confidence insight;
     key_factors := key_factors insight;
     recommendation := recommendation insight;
     statistical_significance := statistical_significance insight;
     suggested_price_position := suggested_price_position insight;
     key_factors_with_sentiment := None |}.

(** ** More sample data *)

Module Scenario.

Definition insight : PatternInsight :=
  mkInsight "Current smokers with BMI over 35" 120 0.08 0.05 (Some 1.6) "high"
    ["Smoking"; "BMI"] "Refer to senior underwriter" "n=120, adequate"
    (Some 0.7) (Some [("Smoking", "negative"); ("BMI", "negative")]).

(** An insight without a suggested position, with risk multiplier 1.3. *)
Definition insight_without_position : PatternInsight :=
  mkInsight "Similar demographic and health profile customers" 40 0.065 0.05
    (Some 1.3) "low" ["Age"; "Gender"; "BMI"; "Smoking Status"]
    "Standard underwriting procedures apply" "Based on 40 similar customers"
    None None.

Definition empty_cache : AICache.Files := fun _ => None.

(** The healthy applicant with the occupation class cell left empty. *)
Definition no_occupation_class : RawCustomer :=
  mkCustomer "CUST-0003" 25 (PyStr "Female") (PyStr "Teacher") PyNaN
    66 140 22 115 75 180 60 100 (PyStr "Never") PyNaN (PyStr "Active (5+/week)")
    PyNone PyNone PyNone 60000 500000 720 0.

End Scenario.

(** * Proofs *)

(** ** The model on concrete inputs *)

Example py_round_half_even :
  py_round 2.5 0 == 2 /\ py_round 3.5 0 == 4 /\ py_round (-0.5) 0 == 0 /\
  py_round 0.12346 4 == 0.1235 /\ py_round 308.3025 2 == 308.30.
Proof. repeat split; vm_compute; reflexivity. Qed.

Example normalize_text :
  _normalize_string_field (PyStr "  Male ") "None" = "Male" /\
  _normalize_string_field (PyStr " NaN ") "None" = "None" /\
  _normalize_string_field (PyStr "   ") "None" = "None" /\
  _normalize_string_field PyNaN "None" = "None" /\
  _normalize_string_field PyNone "None" = "None".
Proof. repeat split; reflexivity. Qed.

Example read_text_cells :
  read_text "None" = NaN /\ read_text "" = NaN /\ read_text "NA" = NaN /\
  read_text "Never" = Str "Never" /\ read_text " None" = Str " None".
Proof. repeat split; reflexivity. Qed.

(** Counting entries in a column: NaN where the cell is NaN, and an error
    when the column of a table with rows holds no text. *)
Example str_count_columns :
  str_count ";" [Str "Diabetes;Asthma"; NaN; Str "Asthma"]
  = Ok [Some 1%nat; None; Some 0%nat] /\
  str_count ";" [NaN; NaN] = Raise (AttributeError str_accessor_message) /\
  str_count ";" [] = Ok [].
Proof. repeat split; reflexivity. Qed.

(** The line of the sample file as [pd.read_csv] returns it. *)
Example read_csv_line :
  read_csv [Sample.past_line 27 "Class I (Low Risk)" (Some 19000%Z)]
  = [Sample.past_policy 27 "Class I (Low Risk)" (Some 19000%Z)].
Proof. reflexivity. Qed.

(** The cohort of an applicant with two chronic conditions: the rows whose
    cell has as many semicolons as the applicant's field. *)
Example chronic_cohort_counts_semicolons :
  let row := Sample.past_policy 27 "Class I (Low Risk)" (Some 19000%Z) in
  let table :=
    [Sample.with_conditions (Str "Asthma;COPD") row;
     Sample.with_conditions (Str "Asthma") row; row] in
  match score_customer 20000 (mkEngine (Some table)) Sample.two_conditions with
  | Ok r =>
      match nth_error (scoring_steps r) 9 with
      | Some step => dict_get (supporting_data step) "cohort_size"
      | None => None
      end
  | Raise _ => None
  end = Some 1.
Proof. vm_compute. reflexivity. Qed.

Example split_semicolons :
  Text.split ";" "Diabetes;Hypertension" = ["Diabetes"; "Hypertension"] /\
  Text.split ";" "Asthma" = ["Asthma"] /\
  Text.split ";" "" = [""] /\
  Text.split ";" "a;;b;" = ["a"; ""; "b"; ""].
Proof. repeat split; reflexivity. Qed.

(** The healthy applicant: score 0.1725, priced at 40% of the band. *)
Example healthy_scores :
  match score_customer 20000 Sample.no_history Sample.healthy with
  | Ok r =>
      Qeq_bool (final_risk_score r) 0.1725 &&
      Qeq_bool (annual_premium_low r) 259.46 &&
      Qeq_bool (annual_premium_calculated r) 308.30 &&
      Qeq_bool (annual_premium_high r) 381.56 &&
      Qeq_bool (predicted_policy_duration_years r) 11.0 &&
      Qeq_bool (attrition_likelihood r) 0.163 &&
      String.eqb (confidence_level r) "Very High"
  | Raise _ => false
  end = true.
Proof. vm_compute. reflexivity. Qed.

(** The high-risk applicant: score 0.819, priced at 75% of the band. *)
Example high_risk_scores :
  match score_customer 20000 Sample.no_history Sample.high_risk with
  | Ok r =>
      Qeq_bool (final_risk_score r) 0.819 &&
      Qeq_bool (annual_premium_low r) 4524.21 &&
      Qeq_bool (annual_premium_calculated r) 6120.99 &&
      Qeq_bool (annual_premium_high r) 6653.25 &&
      String.eqb (confidence_level r) "Low"
  | Raise _ => false
  end = true.
Proof. vm_compute. reflexivity. Qed.

(** ** Numbers *)

Lemma Qlt_bool_iff (x y : Q) : Qlt_bool x y = true <-> x < y.
Proof.
  unfold Qlt_bool. rewrite negb_true_iff.
  split; intro H.
  - apply Qnot_le_lt. intro Hle. apply Qle_bool_iff in Hle. congruence.
  - destruct (Qle_bool y x) eqn:E; [|reflexivity].
    apply Qle_bool_iff in E. apply Qle_not_lt in E. contradiction.
Qed.

Lemma Qlt_bool_false (x y : Q) : Qlt_bool x y = false <-> y <= x.
Proof.
  unfold Qlt_bool. rewrite negb_false_iff. apply Qle_bool_iff.
Qed.

Lemma Qlt_bool_compat x x' y y' : x == x' -> y == y' -> Qlt_bool x y = Qlt_bool x' y'.
Proof.
  intros Hx Hy.
  destruct (Qlt_bool x' y') eqn:E.
  - apply Qlt_bool_iff. apply Qlt_bool_iff in E. rewrite Hx, Hy. exact E.
  - apply Qlt_bool_false. apply Qlt_bool_false in E. rewrite Hx, Hy. exact E.
Qed.

Lemma scale_pos (d : nat) : (0 < 10 ^ Z.of_nat d)%Z.
Proof. apply Z.pow_pos_nonneg; lia. Qed.

Lemma scale_nonzero (d : nat) : ~ inject_Z (10 ^ Z.of_nat d) == 0.
Proof.
  intro H. pose proof (scale_pos d) as Hp.
  unfold Qeq in H. simpl in H. lia.
Qed.

Lemma py_round_compat (x y : Q) (d : nat) : x == y -> py_round x d = py_round y d.
Proof.
  intro H. unfold py_round.
  assert (Hs : x * inject_Z (10 ^ Z.of_nat d) == y * inject_Z (10 ^ Z.of_nat d))
    by (rewrite H; reflexivity).
  rewrite (Qfloor_comp _ _ Hs).
  rewrite (Qlt_bool_compat
             (x * inject_Z (10 ^ Z.of_nat d) - inject_Z (Qfloor (y * inject_Z (10 ^ Z.of_nat d))))
             (y * inject_Z (10 ^ Z.of_nat d) - inject_Z (Qfloor (y * inject_Z (10 ^ Z.of_nat d))))
             (1 # 2) (1 # 2)); [|rewrite Hs; reflexivity|reflexivity].
  rewrite (Qlt_bool_compat (1 # 2) (1 # 2)
             (x * inject_Z (10 ^ Z.of_nat d) - inject_Z (Qfloor (y * inject_Z (10 ^ Z.of_nat d))))
             (y * inject_Z (10 ^ Z.of_nat d) - inject_Z (Qfloor (y * inject_Z (10 ^ Z.of_nat d)))));
    [|reflexivity|rewrite Hs; reflexivity].
  reflexivity.
Qed.

Lemma decimal_py_round (x : Q) (d : nat) : decimal d (py_round x d).
Proof. unfold decimal, py_round. eexists. reflexivity. Qed.

Lemma py_round_decimal (x : Q) (d : nat) : decimal d x -> py_round x d == x.
Proof.
  intros [n Hn].
  rewrite (py_round_compat _ _ d Hn) at 1. rewrite Hn.
  unfold py_round.
  assert (Hs : inject_Z n / inject_Z (10 ^ Z.of_nat d) * inject_Z (10 ^ Z.of_nat d)
               == inject_Z n).
  { field. apply scale_nonzero. }
  rewrite (Qfloor_comp _ _ Hs), Qfloor_Z.
  assert (Hr : Qlt_bool (inject_Z n / inject_Z (10 ^ Z.of_nat d) * inject_Z (10 ^ Z.of_nat d)
                         - inject_Z n) (1 # 2) = true).
  { apply Qlt_bool_iff. rewrite Hs. lra. }
  rewrite Hr. reflexivity.
Qed.

Lemma decimal_plus (d : nat) (x y : Q) : decimal d x -> decimal d y -> decimal d (x + y).
Proof.
  intros [n Hn] [m Hm]. exists (n + m)%Z.
  rewrite Hn, Hm, inject_Z_plus. field. apply scale_nonzero.
Qed.

Lemma decimal_zero (d : nat) : decimal d 0.0.
Proof. exists 0%Z. unfold Qdiv. ring. Qed.

(** ** Facts about the scorers *)

Lemma getitem_Ok_In {V : Type} (d : dict V) (k : string) (v : V) :
  getitem d k = Ok v -> In v (map snd d).
Proof.
  unfold getitem. induction d as [|[k' v'] d IH]; simpl.
  - discriminate.
  - destruct (String.eqb k' k).
    + intro H. injection H as ->. now left.
    + intro H. right. apply IH. exact H.
Qed.

(** Rounding a product of table constants to four decimals changes
    nothing. *)
Lemma exact_step_intro (cat fac : string) (risk w : Q) (data : dict Q) (v : Q) :
  risk == v ->
  Qeq_bool (py_round (v * w) 4) (v * w) = true ->
  Qle_bool 0 v && Qle_bool v 1 && Qle_bool 0 w = true ->
  exact_step (mkStep cat fac risk w (py_round (risk * w) 4) data).
Proof.
  intros Hv Hround Hrange. unfold exact_step; cbn [weighted_score risk_contribution weight].
  apply andb_true_iff in Hrange as [Hrange Hw].
  apply andb_true_iff in Hrange as [H0 H1].
  apply Qle_bool_iff in H0, H1, Hw. apply Qeq_bool_iff in Hround.
  split; [|split; [|split]].
  - rewrite (py_round_compat (risk * w) (v * w) 4) by (rewrite Hv; reflexivity).
    rewrite Hround, Hv. reflexivity.
  - rewrite Hv. split; assumption.
  - exact Hw.
  - apply decimal_py_round.
Qed.

Ltac exact_constant :=
  match goal with
  | |- exact_step (mkStep _ _ ?r _ _ _) =>
      apply (exact_step_intro _ _ r _ _ r); [reflexivity | vm_compute; reflexivity ..]
  end.

Ltac table_step :=
  repeat match goal with
         | |- context [if ?b then _ else _] => destruct b
         end;
  exact_constant.

Lemma _score_age_exact self c : exact_step (_score_age self c).
Proof. unfold _score_age; cbv zeta. table_step. Qed.

Lemma _score_gender_exact self c : exact_step (_score_gender self c).
Proof. unfold _score_gender; cbv zeta. table_step. Qed.

Lemma _score_bmi_exact self c : exact_step (_score_bmi self c).
Proof. unfold _score_bmi; cbv zeta. table_step. Qed.

Lemma _score_blood_pressure_exact self c : exact_step (_score_blood_pressure self c).
Proof. unfold _score_blood_pressure; cbv zeta. table_step. Qed.

Lemma _score_cholesterol_exact self c : exact_step (_score_cholesterol self c).
Proof. unfold _score_cholesterol; cbv zeta. table_step. Qed.

Lemma _score_hobbies_exact self c : exact_step (_score_hobbies self c).
Proof. unfold _score_hobbies; cbv zeta. table_step. Qed.

Ltac mapped_step H :=
  apply getitem_Ok_In in H; simpl in H;
  repeat (destruct H as [<- | H]; [exact_constant|]);
  contradiction.

Lemma _score_occupation_exact self c step :
  _score_occupation self c = Ok step -> exact_step step.
Proof.
  unfold _score_occupation; cbv zeta.
  destruct (getitem occupation_risk_map (occupation_class c)) as [risk|] eqn:E;
    cbn [bind]; [|discriminate].
  intro H; injection H as <-. mapped_step E.
Qed.

Lemma _score_smoking_exact self c step :
  _score_smoking self c = Ok step -> exact_step step.
Proof.
  unfold _score_smoking; cbv zeta.
  destruct (getitem smoking_risk_map (smoking_status c)) as [risk|] eqn:E;
    cbn [bind]; [|discriminate].
  intro H; injection H as <-. mapped_step E.
Qed.

Lemma _score_alcohol_exact self c step :
  _score_alcohol self c = Ok step -> exact_step step.
Proof.
  unfold _score_alcohol; cbv zeta.
  destruct (getitem alcohol_risk_map (alcohol_consumption c)) as [risk|] eqn:E;
    cbn [bind]; [|discriminate].
  intro H; injection H as <-. mapped_step E.
Qed.

Lemma _score_exercise_exact self c step :
  _score_exercise self c = Ok step -> exact_step step.
Proof.
  unfold _score_exercise; cbv zeta.
  destruct (getitem exercise_risk_map (exercise_frequency c)) as [risk|] eqn:E;
    cbn [bind]; [|discriminate].
  intro H; injection H as <-. mapped_step E.
Qed.

(** [min(cap, 0.4 + n*0.2)] takes one of four values. *)
Lemma count_risk_cases (cap : Q) (n : nat) :
  cap <= 1 ->
  let risk := Qmin cap (0.4 + inject_Z (Z.of_nat n) * 0.2) in
  (n = 0%nat /\ risk == Qmin cap 0.4) \/ (n = 1%nat /\ risk == Qmin cap 0.6) \/
  (n = 2%nat /\ risk == Qmin cap 0.8) \/ ((3 <= n)%nat /\ risk == cap).
Proof.
  intros Hcap risk. subst risk.
  destruct n as [|[|[|n]]].
  - left. split; [reflexivity|].
    apply Q.min_compat; [reflexivity|]. vm_compute. reflexivity.
  - right; left. split; [reflexivity|].
    apply Q.min_compat; [reflexivity|]. vm_compute. reflexivity.
  - right; right; left. split; [reflexivity|].
    apply Q.min_compat; [reflexivity|]. vm_compute. reflexivity.
  - right; right; right. split; [lia|].
    apply Q.min_l.
    assert (H3 : 3 <= inject_Z (Z.of_nat (S (S (S n))))).
    { change 3 with (inject_Z 3). rewrite <- Zle_Qle. lia. }
    lra.
Qed.

Lemma split_nonempty (sep : ascii) (s : string) : (1 <= List.length (Text.split sep s))%nat.
Proof.
  induction s as [|c rest IH]; simpl.
  - lia.
  - destruct (Ascii.eqb c sep); simpl; [lia|].
    destruct (Text.split sep rest); simpl in *; lia.
Qed.

Lemma num_items_pos (s : string) : (1 <= num_items s)%nat.
Proof. apply split_nonempty. Qed.

Ltac counted_step cap n :=
  destruct (count_risk_cases cap n ltac:(vm_compute; discriminate))
    as [[_ H]|[[_ H]|[[_ H]|[_ H]]]];
  match goal with
  | |- exact_step (mkStep _ _ _ _ _ _) =>
      eapply (exact_step_intro _ _ _ _ _ _ H); vm_compute; reflexivity
  end.

Lemma Ok_inj {A : Type} (a b : A) : Ok a = Ok b -> a = b.
Proof. intro H. injection H as ->. reflexivity. Qed.

Lemma bind_Ok_inv {A B : Type} (m : result A) (k : A -> result B) (b : B) :
  bind m k = Ok b -> exists a, m = Ok a /\ k a = Ok b.
Proof.
  destruct m as [a|e]; cbn [bind]; [|discriminate].
  intro H. exists a. split; [reflexivity | exact H].
Qed.

(** A chronic-conditions step that was built has the risk the record's
    field gives, whatever the cohort summary. *)
Lemma _score_chronic_conditions_inv self c step :
  _score_chronic_conditions self c = Ok step ->
  exists data,
    step = mkStep "Medical History" "Chronic Conditions" (chronic_risk c) 0.10
             (py_round (chronic_risk c * 0.10) 4) data.
Proof.
  unfold _score_chronic_conditions; cbv zeta. intro H.
  apply bind_Ok_inv in H as (data & _ & H). apply Ok_inj in H.
  exists data. symmetry. exact H.
Qed.

Lemma _score_family_history_inv self c step :
  _score_family_history self c = Ok step ->
  exists data,
    step = mkStep "Medical History" "Family History" (family_risk c) 0.05
             (py_round (family_risk c * 0.05) 4) data.
Proof.
  unfold _score_family_history; cbv zeta. intro H.
  apply bind_Ok_inv in H as (data & _ & H). apply Ok_inj in H.
  exists data. symmetry. exact H.
Qed.

Lemma _score_chronic_conditions_exact self c step :
  _score_chronic_conditions self c = Ok step -> exact_step step.
Proof.
  intro H. apply _score_chronic_conditions_inv in H as (data & ->).
  unfold chronic_risk.
  destruct (String.eqb (chronic_conditions c) "None").
  - exact_constant.
  - counted_step 0.95 (num_items (chronic_conditions c)).
Qed.

Lemma _score_family_history_exact self c step :
  _score_family_history self c = Ok step -> exact_step step.
Proof.
  intro H. apply _score_family_history_inv in H as (data & ->).
  unfold family_risk.
  destruct (String.eqb (family_history c) "None").
  - exact_constant.
  - counted_step 0.8 (num_items (family_history c)).
Qed.

(** ** The shape of a successful scoring call *)


Lemma score_customer_inv today self raw r :
  score_customer today self raw = Ok r ->
  let c := normalize_customer_inputs raw in
  exists occ smk alc exe chr fam,
    _score_occupation self c = Ok occ /\
    _score_smoking self c = Ok smk /\
    _score_alcohol self c = Ok alc /\
    _score_exercise self c = Ok exe /\
    _score_chronic_conditions self c = Ok chr /\
    _score_family_history self c = Ok fam /\
    let steps :=
      [_score_age self c; _score_gender self c; occ; _score_bmi self c;
       _score_blood_pressure self c; _score_cholesterol self c; smk; alc; exe;
       chr; fam; _score_hobbies self c] in
    let total := running_total steps in
    let pricing := _calculate_pricing c total in
    let policy_metrics := _estimate_policy_metrics today self c total in
    r = {| r_customer_id := customer_id c;
           final_risk_score := py_round total 4;
           annual_premium_low := py_round (low pricing) 2;
           annual_premium_calculated := py_round (calculated pricing) 2;
           annual_premium_recommended := py_round (recommended pricing) 2;
           annual_premium_high := py_round (high pricing) 2;
           predicted_policy_duration_years :=
             py_round (predicted_duration_years policy_metrics) 1;
           attrition_likelihood := py_round (attrition policy_metrics) 3;
           scoring_steps := steps;
           confidence_level := _calculate_confidence c steps |}.
Proof.
  unfold score_customer; cbv zeta. intro H.
  destruct (_score_occupation self (normalize_customer_inputs raw)) as [occ|] eqn:E3;
    cbn [bind] in H; [|discriminate].
  destruct (_score_smoking self (normalize_customer_inputs raw)) as [smk|] eqn:E7;
    cbn [bind] in H; [|discriminate].
  destruct (_score_alcohol self (normalize_customer_inputs raw)) as [alc|] eqn:E8;
    cbn [bind] in H; [|discriminate].
  destruct (_score_exercise self (normalize_customer_inputs raw)) as [exe|] eqn:E9;
    cbn [bind] in H; [|discriminate].
  destruct (_score_chronic_conditions self (normalize_customer_inputs raw))
    as [chr|] eqn:E10; cbn [bind] in H; [|discriminate].
  destruct (_score_family_history self (normalize_customer_inputs raw))
    as [fam|] eqn:E11; cbn [bind] in H; [|discriminate].
  exists occ, smk, alc, exe, chr, fam.
  split; [reflexivity|]. split; [reflexivity|].
  split; [reflexivity|]. split; [reflexivity|].
  split; [reflexivity|]. split; [reflexivity|].
  cbv zeta. unfold running_total.
  cbv beta iota delta [app fold_left] in H |- *.
  apply Ok_inj in H. rewrite <- H. reflexivity.
Qed.


Lemma running_total_exact (steps : list ScoringStep) :
  Forall exact_step steps ->
  decimal 4 (running_total steps) /\ 0 <= running_total steps /\
  running_total steps == Qsum (map weighted_score steps).
Proof.
  unfold running_total, Qsum.
  assert (G : forall (acc acc' : Q),
             decimal 4 acc -> 0 <= acc -> acc == acc' ->
             Forall exact_step steps ->
             decimal 4 (fold_left (fun a step => a + weighted_score step) steps acc) /\
             0 <= fold_left (fun a step => a + weighted_score step) steps acc /\
             fold_left (fun a step => a + weighted_score step) steps acc
             == fold_left Qplus (map weighted_score steps) acc').
  { induction steps as [|step steps IH]; intros acc acc' Hd H0 He Hall; simpl.
    - auto.
    - inversion Hall as [|? ? [Hw [[Hr0 Hr1] [Hw0 Hdec]]] Hrest]; subst.
      apply IH.
      + apply decimal_plus; assumption.
      + rewrite Hw. nra.
      + rewrite He. reflexivity.
      + assumption. }
  intro Hall. apply G; try assumption.
  - apply decimal_zero.
  - vm_compute. discriminate.
  - vm_compute. reflexivity.
Qed.

Lemma score_customer_steps_exact today self raw r :
  score_customer today self raw = Ok r -> Forall exact_step (scoring_steps r).
Proof.
  intro H. apply score_customer_inv in H.
  destruct H as (occ & smk & alc & exe & chr & fam & H3 & H7 & H8 & H9 & H10 & H11 & ->).
  cbn [scoring_steps].
  apply Forall_cons; [apply _score_age_exact|].
  apply Forall_cons; [apply _score_gender_exact|].
  apply Forall_cons; [exact (_score_occupation_exact _ _ _ H3)|].
  apply Forall_cons; [apply _score_bmi_exact|].
  apply Forall_cons; [apply _score_blood_pressure_exact|].
  apply Forall_cons; [apply _score_cholesterol_exact|].
  apply Forall_cons; [exact (_score_smoking_exact _ _ _ H7)|].
  apply Forall_cons; [exact (_score_alcohol_exact _ _ _ H8)|].
  apply Forall_cons; [exact (_score_exercise_exact _ _ _ H9)|].
  apply Forall_cons; [exact (_score_chronic_conditions_exact _ _ _ H10)|].
  apply Forall_cons; [exact (_score_family_history_exact _ _ _ H11)|].
  apply Forall_cons; [apply _score_hobbies_exact|].
  apply Forall_nil.
Qed.

Lemma mapped_step_weight (d : dict Q) (k cat fac : string) (w : Q)
    (data : dict Q) (step : ScoringStep) :
  (risk <- getitem d k ;; Ok (mkStep cat fac risk w (py_round (risk * w) 4) data))
  = Ok step ->
  weight step = w /\ getitem d k = Ok (risk_contribution step).
Proof.
  destruct (getitem d k) as [risk|]; cbn [bind]; [|discriminate].
  intro H. apply Ok_inj in H. subst step. split; reflexivity.
Qed.

(** The weights the twelve steps carry, in order, and their sum. *)
Lemma score_customer_weights today self raw r :
  score_customer today self raw = Ok r ->
  map weight (scoring_steps r)
  = [0.20; 0.05; 0.10; 0.15; 0.10; 0.08; 0.15; 0.05; 0.04; 0.10; 0.05; 0.03] /\
  Qsum (map weight (scoring_steps r)) == 1.1.
Proof.
  intro H. apply score_customer_inv in H.
  destruct H as (occ & smk & alc & exe & chr & fam & H3 & H7 & H8 & H9 & H10 & H11 & ->).
  apply mapped_step_weight in H3 as [W3 _], H7 as [W7 _], H8 as [W8 _], H9 as [W9 _].
  apply _score_chronic_conditions_inv in H10 as (data10 & ->).
  apply _score_family_history_inv in H11 as (data11 & ->).
  cbn [scoring_steps map]. rewrite W3, W7, W8, W9.
  split; [reflexivity|]. vm_compute. reflexivity.
Qed.

(** C1 (as the code has it). The twelve weights [score_customer] attaches to
    its steps are 0.20, 0.05, 0.10, 0.15, 0.10, 0.08, 0.15, 0.05, 0.04, 0.10,
    0.05 and 0.03; for the sample applicant they add up to 1.10, not to
    1.0. *)
Theorem factor_weights_sum_to_1_10 :
  exists r,
    score_customer 20000 Sample.no_history Sample.healthy = Ok r /\
    map weight (scoring_steps r)
    = [0.20; 0.05; 0.10; 0.15; 0.10; 0.08; 0.15; 0.05; 0.04; 0.10; 0.05; 0.03] /\
    Qsum (map weight (scoring_steps r)) == 1.1 /\
    ~ Qsum (map weight (scoring_steps r)) == 1.0.
Proof.
  destruct (score_customer 20000 Sample.no_history Sample.healthy) as [r|e] eqn:E.
  - exists r. split; [reflexivity|].
    destruct (score_customer_weights _ _ _ _ E) as [Hw Hs].
    split; [exact Hw|]. split; [exact Hs|].
    rewrite Hs. vm_compute. discriminate.
  - vm_compute in E. discriminate.
Qed.

(** C4. The final risk score of every scored applicant is the sum of the
    twelve steps' weighted scores, each of which is its risk value times its
    weight; the reported value is that sum rounded to four decimals, which
    leaves it unchanged. *)
Theorem final_risk_score_is_sum_of_weighted_scores today self raw r :
  score_customer today self raw = Ok r ->
  List.length (scoring_steps r) = 12%nat /\
  Forall (fun step => weighted_score step == risk_contribution step * weight step)
    (scoring_steps r) /\
  final_risk_score r = py_round (running_total (scoring_steps r)) 4 /\
  running_total (scoring_steps r) == Qsum (map weighted_score (scoring_steps r)) /\
  final_risk_score r == Qsum (map weighted_score (scoring_steps r)).
Proof.
  intro H. pose proof (score_customer_steps_exact _ _ _ _ H) as Hexact.
  destruct (running_total_exact _ Hexact) as (Hdec & _ & Hsum).
  apply score_customer_inv in H.
  destruct H as (occ & smk & alc & exe & chr & fam & _ & _ & _ & _ & _ & _ & ->).
  cbn [scoring_steps final_risk_score] in *.
  split; [reflexivity|]. split; [|split; [reflexivity|split; [exact Hsum|]]].
  - eapply Forall_impl; [|exact Hexact]. intros step Hs. apply Hs.
  - rewrite <- Hsum. apply py_round_decimal. exact Hdec.
Qed.

Lemma final_risk_score_is_sum_of_weighted_scores_witness :
  exists r,
    score_customer 20000 Sample.no_history Sample.healthy = Ok r /\
    final_risk_score r == 0.1725 /\
    final_risk_score r == Qsum (map weighted_score (scoring_steps r)).
Proof.
  eexists. split; [vm_compute; reflexivity|].
  split; [vm_compute; reflexivity|].
  apply (final_risk_score_is_sum_of_weighted_scores 20000 Sample.no_history
           Sample.healthy).
  vm_compute. reflexivity.
Defined.

(** ** Failing and succeeding calls *)

Lemma str_count_cases (pat : ascii) (column : list cell) :
  if no_text column
  then str_count pat column = Raise (AttributeError str_accessor_message)
  else exists counts, str_count pat column = Ok counts.
Proof.
  unfold no_text, str_count. destruct column as [|x column].
  - eexists. reflexivity.
  - destruct (forallb is_nan (x :: column)); [reflexivity | eexists; reflexivity].
Qed.

Lemma no_text_false (column : list cell) :
  (exists c, In c column /\ is_nan c = false) -> no_text column = false.
Proof.
  intros (c & Hin & Hc). unfold no_text.
  destruct column as [|x column]; [reflexivity|].
  destruct (forallb is_nan (x :: column)) eqn:E; [|reflexivity].
  rewrite forallb_forall in E. rewrite (E c Hin) in Hc. discriminate Hc.
Qed.

(** The chronic-conditions step fails only when it counts entries in a
    column without text. *)
Lemma _score_chronic_conditions_cases self c :
  match historical_data self with
  | Some df =>
      if negb (String.eqb (chronic_conditions c) "None")
         && no_text (map h_chronic_conditions df)
      then _score_chronic_conditions self c
           = Raise (AttributeError str_accessor_message)
      else exists step, _score_chronic_conditions self c = Ok step
  | None => exists step, _score_chronic_conditions self c = Ok step
  end.
Proof.
  unfold _score_chronic_conditions; cbv zeta.
  destruct (historical_data self) as [df|]; [|eexists; reflexivity].
  destruct (String.eqb (chronic_conditions c) "None"); cbn [negb andb bind].
  - eexists. reflexivity.
  - pose proof (str_count_cases ";" (map h_chronic_conditions df)) as H.
    destruct (no_text (map h_chronic_conditions df)).
    + rewrite H. reflexivity.
    + destruct H as [counts ->]. cbn [bind]. eexists. reflexivity.
Qed.

Lemma _score_family_history_cases self c :
  match historical_data self with
  | Some df =>
      if negb (String.eqb (family_history c) "None")
         && no_text (map h_family_history df)
      then _score_family_history self c
           = Raise (AttributeError str_accessor_message)
      else exists step, _score_family_history self c = Ok step
  | None => exists step, _score_family_history self c = Ok step
  end.
Proof.
  unfold _score_family_history; cbv zeta.
  destruct (historical_data self) as [df|]; [|eexists; reflexivity].
  destruct (String.eqb (family_history c) "None"); cbn [negb andb bind].
  - eexists. reflexivity.
  - pose proof (str_count_cases ";" (map h_family_history df)) as H.
    destruct (no_text (map h_family_history df)).
    + rewrite H. reflexivity.
    + destruct H as [counts ->]. cbn [bind]. eexists. reflexivity.
Qed.

Lemma score_customer_cases today self raw :
  let c := normalize_customer_inputs raw in
  match dict_get occupation_risk_map (occupation_class c),
        dict_get smoking_risk_map (smoking_status c),
        dict_get alcohol_risk_map (alcohol_consumption c),
        dict_get exercise_risk_map (exercise_frequency c) with
  | None, _, _, _ =>
      score_customer today self raw = Raise (KeyError (occupation_class c))
  | Some _, None, _, _ =>
      score_customer today self raw = Raise (KeyError (smoking_status c))
  | Some _, Some _, None, _ =>
      score_customer today self raw = Raise (KeyError (alcohol_consumption c))
  | Some _, Some _, Some _, None =>
      score_customer today self raw = Raise (KeyError (exercise_frequency c))
  | Some _, Some _, Some _, Some _ =>
      match counting_error self c with
      | Some e => score_customer today self raw = Raise e
      | None => exists r, score_customer today self raw = Ok r
      end
  end.
Proof.
  cbv zeta.
  pose proof (_score_chronic_conditions_cases self (normalize_customer_inputs raw)) as H10.
  pose proof (_score_family_history_cases self (normalize_customer_inputs raw)) as H11.
  unfold counting_error.
  unfold score_customer, _score_occupation, _score_smoking, _score_alcohol,
    _score_exercise, getitem; cbv zeta.
  destruct (dict_get occupation_risk_map _); cbn [bind]; [|reflexivity].
  destruct (dict_get smoking_risk_map _); cbn [bind]; [|reflexivity].
  destruct (dict_get alcohol_risk_map _); cbn [bind]; [|reflexivity].
  destruct (dict_get exercise_risk_map _); cbn [bind]; [|reflexivity].
  destruct (historical_data self) as [df|].
  - destruct (negb (String.eqb (chronic_conditions (normalize_customer_inputs raw)) "None")
              && no_text (map h_chronic_conditions df)).
    + rewrite H10. reflexivity.
    + destruct H10 as [chr ->]. cbn [bind].
      destruct (negb (String.eqb (family_history (normalize_customer_inputs raw)) "None")
                && no_text (map h_family_history df)).
      * rewrite H11. reflexivity.
      * destruct H11 as [fam ->]. cbn [bind]. eexists. reflexivity.
  - destruct H10 as [chr ->]. destruct H11 as [fam ->]. cbn [bind].
    eexists. reflexivity.
Qed.

Lemma prefix_app (s t : string) : String.prefix s (s ++ t)%string = true.
Proof.
  induction s as [|c s IH]; simpl.
  - destruct t; reflexivity.
  - destruct (ascii_dec c c) as [_|Hc]; [exact IH | contradiction].
Qed.

Lemma contains_prefix (needle hay : string) :
  String.prefix needle hay = true -> Text.contains needle hay = true.
Proof. intro H. destruct hay; cbn [Text.contains]; rewrite H; reflexivity. Qed.

Lemma KeyError_mentions_key (key : string) : mentions (KeyError key) key = true.
Proof.
  unfold mentions, exn_message.
  change ("'" ++ key ++ "'")%string with (String "'"%char (key ++ "'")%string).
  cbn [Text.contains].
  rewrite (contains_prefix key (key ++ "'")%string (prefix_app key "'")).
  apply orb_true_r.
Qed.

(** C2 (the claim as stated fails). Scoring the sample applicant with
    occupation class "Class V" raises [KeyError('Class V')]: the call does
    fail and substitutes no default, but the error is not an
    [InvalidCategory] and its text does not mention the field
    [occupation_class]. *)
Lemma class_v_error_omits_field :
  score_customer 20000 Sample.no_history Sample.class_v = Raise (KeyError "Class V") /\
  exn_name (KeyError "Class V") <> "InvalidCategory" /\
  mentions (KeyError "Class V") "Class V" = true /\
  mentions (KeyError "Class V") "occupation_class" = false /\
  ~ (exists e,
       score_customer 20000 Sample.no_history Sample.class_v = Raise e /\
       mentions e "occupation_class" = true /\
       mentions e "Class V" = true).
Proof.
  assert (E : score_customer 20000 Sample.no_history Sample.class_v
              = Raise (KeyError "Class V")) by (vm_compute; reflexivity).
  split; [exact E|]. split; [discriminate|].
  split; [reflexivity|]. split; [reflexivity|].
  intros (e & He & Hfield & _). rewrite E in He.
  apply (f_equal (fun m => match m with Raise e' => e' | Ok _ => e end)) in He.
  cbn in He. subst e. discriminate Hfield.
Qed.

(** C2 (amended). Whenever the normalized occupation class, smoking status,
    alcohol consumption or exercise frequency is not a key of its risk map,
    the scoring call fails with a [KeyError] whose key is the offending value
    of the first such field in that order; the error text contains that
    value, and no result (hence no default risk) is returned. *)
Theorem unmapped_category_raises_KeyError today self raw :
  let c := normalize_customer_inputs raw in
  let occ := dict_get occupation_risk_map (occupation_class c) in
  let smk := dict_get smoking_risk_map (smoking_status c) in
  let alc := dict_get alcohol_risk_map (alcohol_consumption c) in
  let exe := dict_get exercise_risk_map (exercise_frequency c) in
  (occ = None ->
   score_customer today self raw = Raise (KeyError (occupation_class c))) /\
  (occ <> None -> smk = None ->
   score_customer today self raw = Raise (KeyError (smoking_status c))) /\
  (occ <> None -> smk <> None -> alc = None ->
   score_customer today self raw = Raise (KeyError (alcohol_consumption c))) /\
  (occ <> None -> smk <> None -> alc <> None -> exe = None ->
   score_customer today self raw = Raise (KeyError (exercise_frequency c))) /\
  (occ = None \/ smk = None \/ alc = None \/ exe = None ->
   exists key,
     score_customer today self raw = Raise (KeyError key) /\
     is_ok (score_customer today self raw) = false /\
     mentions (KeyError key) key = true).
Proof.
  pose proof (score_customer_cases today self raw) as H. cbv zeta in H |- *.
  destruct (dict_get occupation_risk_map _) as [o|];
    [destruct (dict_get smoking_risk_map _) as [s|];
     [destruct (dict_get alcohol_risk_map _) as [a|];
      [destruct (dict_get exercise_risk_map _) as [x|]|]|]|].
  all: repeat split; try congruence.
  - intros [?|[?|[?|?]]]; discriminate.
  - intros _. eexists. rewrite H. repeat split. apply KeyError_mentions_key.
  - intros _. eexists. rewrite H. repeat split. apply KeyError_mentions_key.
  - intros _. eexists. rewrite H. repeat split. apply KeyError_mentions_key.
  - intros _. eexists. rewrite H. repeat split. apply KeyError_mentions_key.
Qed.

Lemma unmapped_category_raises_KeyError_witness :
  dict_get occupation_risk_map
    (occupation_class (normalize_customer_inputs Sample.class_v)) = None /\
  score_customer 20000 Sample.no_history Sample.class_v = Raise (KeyError "Class V").
Proof.
  split; [reflexivity|].
  apply (proj1 (unmapped_category_raises_KeyError 20000 Sample.no_history
                  Sample.class_v)).
  reflexivity.
Defined.

(** Splitting at semicolons undoes joining with semicolons. *)
Lemma split_entry (sep : ascii) (entry : string) :
  ~ In sep (list_ascii_of_string entry) -> Text.split sep entry = [entry].
Proof.
  induction entry as [|ch entry IH]; intro Hfree; cbn [Text.split].
  - reflexivity.
  - cbn [list_ascii_of_string In] in Hfree.
    destruct (Ascii.eqb_spec ch sep) as [E|_]; [exfalso; apply Hfree; left; exact E|].
    rewrite IH by (intro H; apply Hfree; right; exact H). reflexivity.
Qed.

Lemma split_entry_app (sep : ascii) (entry rest : string) :
  ~ In sep (list_ascii_of_string entry) ->
  Text.split sep (entry ++ String sep rest) = entry :: Text.split sep rest.
Proof.
  induction entry as [|ch entry IH]; intro Hfree; cbn [append Text.split].
  - rewrite Ascii.eqb_refl. reflexivity.
  - cbn [list_ascii_of_string In] in Hfree.
    destruct (Ascii.eqb_spec ch sep) as [E|_]; [exfalso; apply Hfree; left; exact E|].
    rewrite IH by (intro H; apply Hfree; right; exact H). reflexivity.
Qed.

Lemma split_concat (sep : ascii) (entries : list string) :
  entries <> [] ->
  Forall (fun entry => ~ In sep (list_ascii_of_string entry)) entries ->
  Text.split sep (String.concat (String sep EmptyString) entries) = entries.
Proof.
  induction entries as [|entry entries IH]; intros Hne Hfree; [contradiction|].
  inversion Hfree as [|? ? Hentry Hrest]; subst.
  destruct entries as [|next entries].
  - cbn [String.concat]. apply split_entry. exact Hentry.
  - change (String.concat (String sep EmptyString) (entry :: next :: entries))
      with (entry ++ String sep (String.concat (String sep EmptyString) (next :: entries)))%string.
    rewrite split_entry_app by exact Hentry.
    rewrite IH; [reflexivity | discriminate | exact Hrest].
Qed.

(** Every string is a join of entries without semicolons, at least one. *)
Lemma concat_split (sep : ascii) (s : string) :
  String.concat (String sep EmptyString) (Text.split sep s) = s /\
  Forall (fun entry => ~ In sep (list_ascii_of_string entry)) (Text.split sep s).
Proof.
  induction s as [|ch s [IHc IHf]]; cbn [Text.split].
  - split; [reflexivity|]. constructor; [|constructor]. intros [].
  - pose proof (split_nonempty sep s) as Hlen.
    destruct (Ascii.eqb_spec ch sep) as [E|NE].
    + subst ch. split.
      * destruct (Text.split sep s) as [|piece pieces]; [cbn in Hlen; lia|].
        change (String.concat (String sep EmptyString) (EmptyString :: piece :: pieces))
          with (String sep (String.concat (String sep EmptyString) (piece :: pieces))).
        rewrite IHc. reflexivity.
      * constructor; [intros []|exact IHf].
    + destruct (Text.split sep s) as [|piece pieces]; [cbn in Hlen; lia|].
      apply Forall_cons_iff in IHf as [Hpiece Hpieces]. split.
      * destruct pieces as [|next pieces].
        -- cbn [String.concat] in IHc |- *. rewrite IHc. reflexivity.
        -- change (String.concat (String sep EmptyString) (String ch piece :: next :: pieces))
             with (String ch (String.concat (String sep EmptyString) (piece :: next :: pieces))).
           rewrite IHc. reflexivity.
      * constructor; [|exact Hpieces].
        cbn [list_ascii_of_string In]. intros [H|H]; [apply NE; exact H | apply Hpiece; exact H].
Qed.

(** C7. The chronic-conditions step has weight 0.10 and a weighted score of
    risk times 0.10.  Its risk is 0.1 when the field is "None"; when the
    field is the join of n >= 1 entries with semicolons between them, none
    of them containing a semicolon, the risk is min(0.95, 0.4 + n*0.2), which
    is 0.8 for two entries; every field value is such a join.  The step is
    the tenth of every scored applicant.  It is always built when no
    historical table is loaded, and with a table unless the applicant has
    conditions and the table has rows but no text in its chronic-conditions
    column. *)
Theorem chronic_conditions_risk self c :
  (historical_data self = None ->
   exists step, _score_chronic_conditions self c = Ok step) /\
  (forall df,
     historical_data self = Some df ->
     chronic_conditions c = "None" \/ df = [] \/
     (exists row text, In row df /\ h_chronic_conditions row = Str text) ->
     exists step, _score_chronic_conditions self c = Ok step) /\
  (forall conditions : string,
   exists entries,
     entries <> [] /\
     Forall (fun entry => ~ In ";"%char (list_ascii_of_string entry)) entries /\
     conditions = String.concat ";" entries) /\
  (forall step,
     _score_chronic_conditions self c = Ok step ->
     weight step = 0.10 /\
     weighted_score step == risk_contribution step * 0.10 /\
     (chronic_conditions c = "None" -> risk_contribution step = 0.1) /\
     (forall entries,
        entries <> [] ->
        Forall (fun entry => ~ In ";"%char (list_ascii_of_string entry)) entries ->
        chronic_conditions c = String.concat ";" entries ->
        chronic_conditions c <> "None" ->
        risk_contribution step
        = Qmin 0.95 (0.4 + inject_Z (Z.of_nat (List.length entries)) * 0.2)) /\
     (forall first second,
        ~ In ";"%char (list_ascii_of_string first) ->
        ~ In ";"%char (list_ascii_of_string second) ->
        chronic_conditions c = (first ++ ";" ++ second)%string ->
        risk_contribution step == 0.8) /\
     (forall today raw r,
        c = normalize_customer_inputs raw ->
        score_customer today self raw = Ok r ->
        nth_error (scoring_steps r) 9 = Some step)).
Proof.
  split; [|split; [|split]].
  - intro Hnone.
    pose proof (_score_chronic_conditions_cases self c) as H. rewrite Hnone in H.
    exact H.
  - intros df Hdf Hcase.
    pose proof (_score_chronic_conditions_cases self c) as H. rewrite Hdf in H.
    assert (E : negb (String.eqb (chronic_conditions c) "None")
                && no_text (map h_chronic_conditions df) = false).
    { destruct Hcase as [Hnone | [Hempty | (row & text & Hin & Htext)]].
      - rewrite Hnone. reflexivity.
      - rewrite Hempty. apply andb_false_r.
      - apply andb_false_iff. right. apply no_text_false.
        exists (Str text). split; [|reflexivity].
        rewrite <- Htext. apply in_map. exact Hin. }
    rewrite E in H. exact H.
  - intro conditions. exists (Text.split ";" conditions).
    destruct (concat_split ";" conditions) as [Hc Hf].
    split; [|split; [exact Hf | symmetry; exact Hc]].
    pose proof (split_nonempty ";" conditions) as Hlen.
    intro E. rewrite E in Hlen. cbn in Hlen. lia.
  - intros step Hstep.
    pose proof (_score_chronic_conditions_exact _ _ _ Hstep) as [Hexact _].
    pose proof Hstep as Hinv.
    apply _score_chronic_conditions_inv in Hinv as (data & Hinv).
    assert (Hentries : forall entries,
               entries <> [] ->
               Forall (fun entry => ~ In ";"%char (list_ascii_of_string entry)) entries ->
               chronic_conditions c = String.concat ";" entries ->
               chronic_conditions c <> "None" ->
               risk_contribution step
               = Qmin 0.95 (0.4 + inject_Z (Z.of_nat (List.length entries)) * 0.2)).
    { intros entries Hne Hfree Hjoin Hsome. rewrite Hinv. cbn [risk_contribution].
      unfold chronic_risk, num_items.
      destruct (String.eqb_spec (chronic_conditions c) "None") as [E|_];
        [contradiction|].
      rewrite Hjoin, (split_concat ";" entries Hne Hfree). reflexivity. }
    split; [rewrite Hinv; reflexivity|].
    split; [rewrite Hexact, Hinv; reflexivity|].
    split; [|split; [exact Hentries|split]].
    + intro E. rewrite Hinv. cbn [risk_contribution]. unfold chronic_risk.
      rewrite E. reflexivity.
    + intros first second Hfirst Hsecond Hjoin.
      rewrite (Hentries [first; second]).
      * vm_compute. reflexivity.
      * discriminate.
      * constructor; [exact Hfirst|constructor; [exact Hsecond|constructor]].
      * exact Hjoin.
      * intro E. rewrite E in Hjoin.
        apply (f_equal (Text.split ";")) in Hjoin.
        change (first ++ ";" ++ second)%string
          with (String.concat ";" [first; second]) in Hjoin.
        rewrite (split_concat ";" [first; second]) in Hjoin.
        -- discriminate Hjoin.
        -- discriminate.
        -- constructor; [exact Hfirst|constructor; [exact Hsecond|constructor]].
    + intros today raw r -> H. apply score_customer_inv in H.
      destruct H as (occ & smk & alc & exe & chr & fam & _ & _ & _ & _ & H10 & _ & ->).
      cbn [scoring_steps nth_error]. rewrite Hstep in H10. apply Ok_inj in H10.
      subst chr. reflexivity.
Qed.

Lemma chronic_conditions_risk_witness :
  exists step,
    _score_chronic_conditions Sample.no_history
      (normalize_customer_inputs Sample.two_conditions) = Ok step /\
    risk_contribution step == 0.8.
Proof.
  destruct (chronic_conditions_risk Sample.no_history
              (normalize_customer_inputs Sample.two_conditions))
    as (Hbuilt & _ & _ & Hstep).
  destruct (Hbuilt eq_refl) as [step Hok].
  exists step. split; [exact Hok|].
  destruct (Hstep step Hok) as (_ & _ & _ & _ & Htwo & _).
  apply (Htwo "Diabetes" "Hypertension").
  - cbn. intuition discriminate.
  - cbn. intuition discriminate.
  - reflexivity.
Defined.

(** C10. The gender step never fails: its risk is 0.55 when the gender is
    exactly "Male" and 0.45 for every other string, with weight 0.05; it is
    the second step of every scored applicant, and whether a scoring call
    succeeds does not depend on the gender field. *)
Theorem gender_never_rejected self c :
  let step := _score_gender self c in
  weight step = 0.05 /\
  risk_contribution step = (if String.eqb (gender c) "Male" then 0.55 else 0.45) /\
  (gender c = "Male" -> risk_contribution step = 0.55) /\
  (gender c <> "Male" -> risk_contribution step = 0.45) /\
  (forall today raw r,
     c = normalize_customer_inputs raw ->
     score_customer today self raw = Ok r ->
     nth_error (scoring_steps r) 1 = Some step) /\
  (forall today raw g,
     is_ok (score_customer today self (with_gender g raw))
     = is_ok (score_customer today self raw)).
Proof.
  cbv zeta. split; [reflexivity|]. split; [reflexivity|].
  assert (Hstep : forall today raw r,
             c = normalize_customer_inputs raw ->
             score_customer today self raw = Ok r ->
             nth_error (scoring_steps r) 1 = Some (_score_gender self c)).
  { intros today raw r -> H. apply score_customer_inv in H.
    destruct H as (occ & smk & alc & exe & chr & fam & _ & _ & _ & _ & _ & _ & ->). reflexivity. }
  unfold _score_gender at 1 2; cbv zeta; cbn [risk_contribution].
  destruct (String.eqb_spec (gender c) "Male") as [E|E].
  1: split; [reflexivity|]; split; [contradiction|]; split; [exact Hstep|].
  2: split; [contradiction|]; split; [reflexivity|]; split; [exact Hstep|].
  all: clear Hstep; intros today raw g;
    pose proof (score_customer_cases today self raw) as H1;
    pose proof (score_customer_cases today self (with_gender g raw)) as H2;
    cbv zeta in H1, H2;
    change (occupation_class (normalize_customer_inputs (with_gender g raw)))
      with (occupation_class (normalize_customer_inputs raw)) in H2;
    change (smoking_status (normalize_customer_inputs (with_gender g raw)))
      with (smoking_status (normalize_customer_inputs raw)) in H2;
    change (alcohol_consumption (normalize_customer_inputs (with_gender g raw)))
      with (alcohol_consumption (normalize_customer_inputs raw)) in H2;
    change (exercise_frequency (normalize_customer_inputs (with_gender g raw)))
      with (exercise_frequency (normalize_customer_inputs raw)) in H2;
    change (counting_error self (normalize_customer_inputs (with_gender g raw)))
      with (counting_error self (normalize_customer_inputs raw)) in H2;
    destruct (dict_get occupation_risk_map _);
    [destruct (dict_get smoking_risk_map _);
     [destruct (dict_get alcohol_risk_map _);
      [destruct (dict_get exercise_risk_map _);
       [destruct (counting_error self _);
        [|destruct H1 as [r1 H1]; destruct H2 as [r2 H2]]|]|]|]|];
    rewrite H1, H2; reflexivity.
Qed.

Lemma gender_never_rejected_witness :
  risk_contribution
    (_score_gender Sample.no_history
       (normalize_customer_inputs (with_gender (PyStr "Mael") Sample.healthy))) = 0.45.
Proof.
  apply (gender_never_rejected Sample.no_history
           (normalize_customer_inputs (with_gender (PyStr "Mael") Sample.healthy))).
  discriminate.
Defined.

(** ** The price band *)

Lemma base_rate_of_pos (age : Q) : 0 < base_rate_of age.
Proof.
  unfold base_rate_of.
  repeat match goal with
         | |- context [if ?b then _ else _] => destruct b
         end; vm_compute; reflexivity.
Qed.

Lemma base_premium_sign (age : Q) (coverage : Z) (risk_score : Q) :
  0 <= risk_score ->
  let base := base_rate_of age * (inject_Z coverage / 1000) * (0.5 + risk_score * 3) in
  ((0 <= coverage)%Z -> 0 <= base) /\
  ((0 < coverage)%Z -> 0 < base) /\
  ((coverage < 0)%Z -> base < 0).
Proof.
  intros Hr base. subst base.
  pose proof (base_rate_of_pos age) as Hb.
  set (b := base_rate_of age) in *.
  assert (Hm : 0 < 0.5 + risk_score * 3) by lra.
  set (m := 0.5 + risk_score * 3) in *.
  assert (Ek : inject_Z coverage / 1000 == inject_Z coverage * (1 # 1000)) by field.
  split; [|split]; intro Hc.
  - assert (Hk : 0 <= inject_Z coverage / 1000).
    { assert (0 <= inject_Z coverage)
        by (change 0 with (inject_Z 0); rewrite <- Zle_Qle; exact Hc).
      rewrite Ek. lra. }
    apply Qmult_le_0_compat; [apply Qmult_le_0_compat|]; lra.
  - assert (Hk : 0 < inject_Z coverage / 1000).
    { assert (0 < inject_Z coverage)
        by (change 0 with (inject_Z 0); rewrite <- Zlt_Qlt; exact Hc).
      rewrite Ek. lra. }
    apply Qmult_lt_0_compat; [apply Qmult_lt_0_compat|]; assumption.
  - assert (Hk : 0 < - (inject_Z coverage / 1000)).
    { assert (inject_Z coverage < 0)
        by (change 0 with (inject_Z 0); rewrite <- Zlt_Qlt; exact Hc).
      rewrite Ek. lra. }
    assert (H : 0 < b * - (inject_Z coverage / 1000) * m)
      by (apply Qmult_lt_0_compat; [apply Qmult_lt_0_compat|]; assumption).
    assert (E : b * - (inject_Z coverage / 1000) * m
                == - (b * (inject_Z coverage / 1000) * m)) by ring.
    rewrite E in H. lra.
Qed.

Lemma _calculate_pricing_band (c : Customer) (risk_score : Q) :
  let base := base_rate_of (age c) * (inject_Z (coverage_amount_requested c) / 1000)
              * (0.5 + risk_score * 3) in
  let p := _calculate_pricing c risk_score in
  low p = base * 0.85 /\ high p = base * 1.25 /\
  calculated p = recommended p /\
  (0 <= base -> low p <= recommended p <= high p) /\
  (0 < base -> low p < high p) /\
  (base < 0 -> high p < recommended p < low p).
Proof.
  cbv zeta. unfold _calculate_pricing; cbv zeta; cbn [low high recommended calculated].
  set (base := base_rate_of (age c) * (inject_Z (coverage_amount_requested c) / 1000)
               * (0.5 + risk_score * 3)).
  split; [reflexivity|]. split; [reflexivity|]. split; [reflexivity|].
  destruct (Qlt_bool risk_score 0.3); [|destruct (Qlt_bool risk_score 0.6)];
    (split; [intro; split; lra | split; [intro; lra | intro; split; lra]]).
Qed.

(** C3 (the claim as stated fails). An applicant may request a negative
    coverage amount; for the sample applicant with coverage -500000 the band
    is inverted: high < recommended < low, before and after rounding. *)
Lemma negative_coverage_inverts_band :
  exists r,
    score_customer 20000 Sample.no_history Sample.negative_cover = Ok r /\
    (let p := _calculate_pricing (normalize_customer_inputs Sample.negative_cover)
                (running_total (scoring_steps r)) in
     ~ (low p <= recommended p <= high p)) /\
    ~ (annual_premium_low r <= annual_premium_recommended r
       <= annual_premium_high r).
Proof.
  eexists. split; [vm_compute; reflexivity|].
  split.
  - cbv zeta. intros [H _]. vm_compute in H. apply H. reflexivity.
  - intros [H _]. vm_compute in H. apply H. reflexivity.
Qed.

(** C3 (amended). For every scored applicant the prices are derived from
    base_premium = base_rate * (coverage/1000) * (0.5 + risk_score*3), with
    the base rate 0.60 / 0.80 / 1.50 / 3.00 / 6.00 for ages below 30 / 40 /
    50 / 60 / otherwise, as low = base_premium*0.85 and
    high = base_premium*1.25; low <= recommended <= high holds whenever the
    requested coverage is not negative, and low < high whenever it is
    positive. *)
Theorem price_band_ordered today self raw r :
  score_customer today self raw = Ok r ->
  let c := normalize_customer_inputs raw in
  let risk_score := running_total (scoring_steps r) in
  let base_rate :=
    if Qlt_bool (age c) 30 then 0.60
    else if Qlt_bool (age c) 40 then 0.80
    else if Qlt_bool (age c) 50 then 1.50
    else if Qlt_bool (age c) 60 then 3.00
    else 6.00 in
  let base_premium :=
    base_rate * (inject_Z (coverage_amount_requested raw) / 1000)
    * (0.5 + risk_score * 3) in
  let p := _calculate_pricing c risk_score in
  annual_premium_low r = py_round (low p) 2 /\
  annual_premium_calculated r = py_round (calculated p) 2 /\
  annual_premium_recommended r = py_round (recommended p) 2 /\
  annual_premium_high r = py_round (high p) 2 /\
  low p = base_premium * 0.85 /\
  high p = base_premium * 1.25 /\
  ((0 <= coverage_amount_requested raw)%Z -> low p <= recommended p <= high p) /\
  ((0 < coverage_amount_requested raw)%Z -> low p < high p).
Proof.
  intro H. pose proof (score_customer_steps_exact _ _ _ _ H) as Hexact.
  destruct (running_total_exact _ Hexact) as (_ & Htotal & _).
  apply score_customer_inv in H.
  destruct H as (occ & smk & alc & exe & chr & fam & _ & _ & _ & _ & _ & _ & ->).
  cbv zeta.
  cbn [scoring_steps annual_premium_low annual_premium_calculated
         annual_premium_recommended annual_premium_high] in *.
  set (total := running_total _) in *.
  destruct (_calculate_pricing_band (normalize_customer_inputs raw) total)
    as (Hlow & Hhigh & _ & Hband & Hstrict & _).
  destruct (base_premium_sign (age (normalize_customer_inputs raw))
              (coverage_amount_requested raw) total Htotal) as (H0 & H1 & _).
  do 4 (split; [reflexivity|]).
  split; [exact Hlow|]. split; [exact Hhigh|].
  split; intro Hc.
  - apply Hband. apply H0. exact Hc.
  - apply Hstrict. apply H1. exact Hc.
Qed.

Lemma price_band_ordered_witness :
  exists r,
    score_customer 20000 Sample.no_history Sample.healthy = Ok r /\
    (0 < coverage_amount_requested Sample.healthy)%Z /\
    (let p := _calculate_pricing (normalize_customer_inputs Sample.healthy)
                (running_total (scoring_steps r)) in
     low p < high p).
Proof.
  eexists. split; [vm_compute; reflexivity|]. split; [reflexivity|].
  apply (price_band_ordered 20000 Sample.no_history Sample.healthy).
  - vm_compute. reflexivity.
  - reflexivity.
Defined.

(** ** The duration and attrition estimate *)

Lemma _estimate_policy_metrics_Some today self df c risk_score :
  historical_data self = Some df ->
  _estimate_policy_metrics today self c risk_score
  = cohort_metrics today (select_cohort df c) risk_score.
Proof.
  unfold _estimate_policy_metrics. intros ->.
  destruct df as [|row rest]; reflexivity.
Qed.

Lemma tenure_of_nil_iff today rows :
  tenure_of today rows = [] <-> Forall (fun row => policy_issue_date row = None) rows.
Proof.
  induction rows as [|row rows IH]; simpl.
  - split; [constructor|reflexivity].
  - destruct (policy_issue_date row) eqn:E.
    + split; [discriminate|]. intro H. inversion H; congruence.
    + rewrite IH. split; intro H; [constructor; assumption|inversion H; assumption].
Qed.

Lemma clamp_bounds (lo hi x lo' hi' : Q) :
  lo <= hi -> lo' <= lo -> hi <= hi' -> lo' <= Qmax lo (Qmin hi x) <= hi'.
Proof.
  intros H Hlo Hhi. split.
  - apply Qle_trans with lo; [exact Hlo | apply Q.le_max_l].
  - apply Qle_trans with hi; [|exact Hhi].
    apply Q.max_lub; [exact H | apply Q.le_min_l].
Qed.

Lemma select_cohort_cases df c :
  let primary :=
    same_smoking_status c (same_occupation_class c (age_window (age c) 5 df)) in
  let relaxed := same_smoking_status c (age_window (age c) 10 df) in
  let widest := age_window (age c) 10 df in
  select_cohort df c =
  if (List.length primary <? 50)%nat
  then if (List.length relaxed <? 30)%nat then widest else relaxed
  else primary.
Proof.
  cbv zeta. unfold select_cohort; cbv zeta.
  destruct (List.length (same_smoking_status c
              (same_occupation_class c (age_window (age c) 5 df))) <? 50)%nat eqn:E.
  - reflexivity.
  - apply Nat.ltb_ge in E.
    destruct (Nat.ltb_spec (List.length (same_smoking_status c
              (same_occupation_class c (age_window (age c) 5 df)))) 30);
      [lia|reflexivity].
Qed.

Lemma between_iff (lo x hi : Q) : between lo x hi = true <-> lo <= x <= hi.
Proof.
  unfold between. rewrite andb_true_iff, !Qle_bool_iff. reflexivity.
Qed.

Lemma cell_eq_iff (c : cell) (s : string) : cell_eq c s = true <-> c = Str s.
Proof.
  destruct c as [|t]; cbn [cell_eq].
  - split; discriminate.
  - rewrite String.eqb_eq. split; [intros ->; reflexivity | intro H; injection H as ->; reflexivity].
Qed.

(** C5. The primary cohort holds the rows within five years of the
    applicant's age with the same occupation class and smoking status.  When
    it has fewer than 50 rows the estimate is computed from the rows within
    ten years with the same smoking status, whatever their occupation class,
    and when those are fewer than 30, from all rows within ten years. *)
Theorem cohort_relaxation today df c risk_score :
  let primary :=
    same_smoking_status c (same_occupation_class c (age_window (age c) 5 df)) in
  let relaxed := same_smoking_status c (age_window (age c) 10 df) in
  let widest := age_window (age c) 10 df in
  let estimate := _estimate_policy_metrics today (mkEngine (Some df)) c risk_score in
  (forall row, In row primary <->
     In row df /\ age c - 5 <= h_age row <= age c + 5 /\
     h_occupation_class row = Str (occupation_class c) /\
     h_smoking_status row = Str (smoking_status c)) /\
  (forall row, In row relaxed <->
     In row df /\ age c - 10 <= h_age row <= age c + 10 /\
     h_smoking_status row = Str (smoking_status c)) /\
  (forall row, In row widest <->
     In row df /\ age c - 10 <= h_age row <= age c + 10) /\
  ((List.length primary < 50)%nat -> (30 <= List.length relaxed)%nat ->
   estimate = cohort_metrics today relaxed risk_score) /\
  ((List.length primary < 50)%nat -> (List.length relaxed < 30)%nat ->
   estimate = cohort_metrics today widest risk_score) /\
  ((50 <= List.length primary)%nat ->
   estimate = cohort_metrics today primary risk_score).
Proof.
  cbv zeta.
  split; [|split; [|split]].
  - intro row. unfold same_smoking_status, same_occupation_class, age_window.
    rewrite !filter_In, between_iff, !cell_eq_iff. tauto.
  - intro row. unfold same_smoking_status, age_window.
    rewrite !filter_In, between_iff, !cell_eq_iff. tauto.
  - intro row. unfold age_window. rewrite filter_In, between_iff. tauto.
  - rewrite (_estimate_policy_metrics_Some today _ df) by reflexivity.
    pose proof (select_cohort_cases df c) as Hsel; cbv zeta in Hsel; rewrite Hsel.
    split; [|split].
    + intros H50 H30.
      apply Nat.ltb_lt in H50. apply Nat.ltb_ge in H30. rewrite H50, H30. reflexivity.
    + intros H50 H30.
      apply Nat.ltb_lt in H50, H30. rewrite H50, H30. reflexivity.
    + intros H50. apply Nat.ltb_ge in H50. rewrite H50. reflexivity.
Qed.

Lemma cohort_relaxation_witness :
  let c := normalize_customer_inputs Sample.healthy in
  let df := repeat (Sample.past_policy 33 "Class II (Moderate Risk)" (Some 19000%Z)) 30 in
  let primary :=
    same_smoking_status c (same_occupation_class c (age_window (age c) 5 df)) in
  let relaxed := same_smoking_status c (age_window (age c) 10 df) in
  primary = [] /\ List.length relaxed = 30%nat /\
  _estimate_policy_metrics 20000 Sample.only_relaxed c 0.1725
  = cohort_metrics 20000 relaxed 0.1725 /\
  ~ predicted_duration_years (_estimate_policy_metrics 20000 Sample.only_relaxed c 0.1725)
    == predicted_duration_years (cohort_metrics 20000 primary 0.1725).
Proof.
  cbv zeta. split; [reflexivity|]. split; [reflexivity|]. split.
  - destruct (cohort_relaxation 20000
                (repeat (Sample.past_policy 33 "Class II (Moderate Risk)"
                           (Some 19000%Z)) 30)
                (normalize_customer_inputs Sample.healthy) 0.1725)
      as (_ & _ & _ & H & _ & _).
    apply H.
    + apply Nat.ltb_lt. vm_compute. reflexivity.
    + apply Nat.leb_le. vm_compute. reflexivity.
  - vm_compute. discriminate.
Defined.

Lemma tenure_of_flat_map today rows :
  tenure_of today rows
  = flat_map (fun row => match policy_issue_date row with
                         | Some issued => [inject_Z (today - issued) / 365.25]
                         | None => []
                         end) rows.
Proof.
  induction rows as [|row rows IH]; cbn [tenure_of flat_map]; [reflexivity|].
  destruct (policy_issue_date row); rewrite IH; reflexivity.
Qed.

Lemma tenure_of_length today rows :
  (List.length (tenure_of today rows) <= List.length rows)%nat.
Proof.
  induction rows as [|row rows IH]; cbn [tenure_of List.length]; [lia|].
  destruct (policy_issue_date row); cbn [List.length]; lia.
Qed.

(** No entry of [tenure_years] is dropped exactly when every row has a
    valid issue date. *)
Lemma tenure_of_complete today rows :
  List.length (tenure_of today rows) = List.length rows <->
  Forall (fun row => policy_issue_date row <> None) rows.
Proof.
  induction rows as [|row rows IH]; cbn [tenure_of List.length].
  - split; [constructor|reflexivity].
  - pose proof (tenure_of_length today rows) as Hlen.
    destruct (policy_issue_date row) as [issued|] eqn:E; cbn [List.length].
    + split.
      * intro H. constructor; [congruence|]. apply IH. lia.
      * intro H. apply Forall_cons_iff in H as [_ H]. apply IH in H. lia.
    + split; [lia|]. intro H. apply Forall_cons_iff in H as [H _]. congruence.
Qed.

(** With every date valid, masking the tenures by [policy_active] gives the
    tenures of the active policies. *)
Lemma mask_tenure_of today rows :
  Forall (fun row => policy_issue_date row <> None) rows ->
  mask (tenure_of today rows) (map policy_active rows)
  = tenure_of today (filter policy_active rows).
Proof.
  induction rows as [|row rows IH]; intro H; [reflexivity|].
  apply Forall_cons_iff in H as [Hrow Hrows].
  cbn [tenure_of map filter].
  destruct (policy_issue_date row) as [issued|] eqn:E; [|congruence].
  cbn [mask]. destruct (policy_active row).
  - cbn [tenure_of]. rewrite E, IH by exact Hrows. reflexivity.
  - apply IH. exact Hrows.
Qed.

Lemma fold_left_Qplus (l : list Q) (acc : Q) :
  fold_left Qplus l acc == acc + fold_right Qplus 0 l.
Proof.
  revert acc. induction l as [|x l IH]; intro acc; cbn [fold_left fold_right].
  - ring.
  - rewrite IH. ring.
Qed.

(** [mean] is the sum over the count. *)
Lemma mean_average (l : list Q) :
  mean l == fold_right Qplus 0 l / inject_Z (Z.of_nat (List.length l)).
Proof.
  unfold mean, Qsum. rewrite fold_left_Qplus.
  assert (E : 0 + fold_right Qplus 0 l == fold_right Qplus 0 l) by ring.
  rewrite E. reflexivity.
Qed.

Lemma clamp_compat (lo hi x y : Q) :
  x == y -> Qmax lo (Qmin hi x) == Qmax lo (Qmin hi y).
Proof.
  intro H. apply Q.max_compat; [reflexivity|].
  apply Q.min_compat; [reflexivity | exact H].
Qed.

(** C6. With no historical table, an empty one, no accepted policy in the
    final cohort or no valid issue date among the accepted policies, the
    estimate is the closed form: duration clamp(12 - 6*risk, 3, 20) and
    attrition clamp(0.12 + 0.25*risk, 0.05, 0.6).  Otherwise the attrition is
    1 - mean(policy_active) over the accepted policies, clamped to [0, 1],
    and the duration is an average tenure clamped to [1, 30], the tenure of
    a policy being the days since its issue date over 365.25: the average
    over the active accepted policies when every accepted policy has a valid
    date and one of them is active, and over the accepted policies with a
    valid date otherwise.  An average is the sum over the count. *)
Theorem policy_metrics_fallback_and_clamps today self c risk_score :
  let estimate := _estimate_policy_metrics today self c risk_score in
  let closed_form :=
    {| predicted_duration_years := Qmax 3.0 (Qmin 20.0 (12.0 - risk_score * 6.0));
       attrition := Qmax 0.05 (Qmin 0.6 (0.12 + risk_score * 0.25)) |} in
  let average (l : list Q) : Q :=
    fold_right Qplus 0 l / inject_Z (Z.of_nat (List.length l)) in
  let years (rows : DataFrame) : list Q :=
    flat_map (fun row => match policy_issue_date row with
                         | Some issued => [inject_Z (today - issued) / 365.25]
                         | None => []
                         end) rows in
  (historical_data self = None \/ historical_data self = Some [] ->
   estimate = closed_form) /\
  (forall df,
     historical_data self = Some df ->
     let accepted := filter policy_accepted (select_cohort df c) in
     let active := filter policy_active accepted in
     (accepted = [] -> estimate = closed_form) /\
     (Forall (fun row => policy_issue_date row = None) accepted ->
      estimate = closed_form) /\
     (accepted <> [] ->
      ~ Forall (fun row => policy_issue_date row = None) accepted ->
      (Forall (fun row => policy_issue_date row <> None) accepted ->
       active <> [] ->
       predicted_duration_years estimate
       == Qmax 1.0 (Qmin 30.0 (average (years active)))) /\
      (~ Forall (fun row => policy_issue_date row <> None) accepted \/ active = [] ->
       predicted_duration_years estimate
       == Qmax 1.0 (Qmin 30.0 (average (years accepted)))) /\
      attrition estimate
      == Qmax 0.0
           (Qmin 1.0
              (1.0 - average (map (fun row => if policy_active row then 1 else 0)
                                accepted))) /\
      1 <= predicted_duration_years estimate <= 30 /\
      0 <= attrition estimate <= 1)).
Proof.
  cbv zeta. split.
  - unfold _estimate_policy_metrics. intros [-> | ->]; reflexivity.
  - intros df Hdf. rewrite (_estimate_policy_metrics_Some today self df) by exact Hdf.
    unfold cohort_metrics; cbv zeta.
    destruct (filter policy_accepted (select_cohort df c)) as [|row rows] eqn:Eacc.
    + split; [reflexivity|]. split; [reflexivity|]. intros H; contradiction.
    + rewrite <- Eacc. set (accepted := filter policy_accepted (select_cohort df c)) in *.
      split; [intro H; rewrite H in Eacc; discriminate|].
      destruct (tenure_of today accepted) as [|t ts] eqn:Eten.
      * split; [reflexivity|]. intros _ H. exfalso. apply H.
        apply (tenure_of_nil_iff today). exact Eten.
      * split.
        { intro H. apply (tenure_of_nil_iff today) in H. congruence. }
        intros _ _. rewrite <- Eten.
        rewrite <- !tenure_of_flat_map.
        cbn [predicted_duration_years attrition].
        split; [|split; [|split; [|split; apply clamp_bounds; vm_compute; discriminate]]].
        -- intros Hdated Hactive.
           destruct (Nat.eqb_spec (List.length (tenure_of today accepted))
                       (List.length accepted)) as [_|Hlen];
             [|exfalso; apply Hlen; apply (tenure_of_complete today); exact Hdated].
           rewrite (mask_tenure_of today accepted Hdated).
           destruct (tenure_of today (filter policy_active accepted)) as [|a rest] eqn:Ea.
           ++ exfalso. apply tenure_of_nil_iff in Ea.
              destruct (filter policy_active accepted) as [|first others] eqn:Ef;
                [contradiction|].
              apply Forall_cons_iff in Ea as [Hnone _].
              assert (Hin : In first accepted).
              { apply (proj1 (filter_In policy_active first accepted)).
                rewrite Ef. left. reflexivity. }
              rewrite Forall_forall in Hdated. exact (Hdated first Hin Hnone).
           ++ apply clamp_compat. apply mean_average.
        -- intros [Hmissing | Hlapsed].
           ++ destruct (Nat.eqb_spec (List.length (tenure_of today accepted))
                          (List.length accepted)) as [Hlen|_].
              ** exfalso. apply Hmissing. apply (tenure_of_complete today). exact Hlen.
              ** rewrite Eten. rewrite <- Eten. apply clamp_compat. apply mean_average.
           ++ destruct (Nat.eqb_spec (List.length (tenure_of today accepted))
                          (List.length accepted)) as [Hlen|_].
              ** apply (tenure_of_complete today) in Hlen.
                 rewrite (mask_tenure_of today accepted Hlen), Hlapsed.
                 cbn [tenure_of]. apply clamp_compat. apply mean_average.
              ** rewrite Eten. rewrite <- Eten. apply clamp_compat. apply mean_average.
        -- apply clamp_compat. unfold mean_bool.
           rewrite mean_average, map_map. reflexivity.
Qed.

Lemma policy_metrics_fallback_and_clamps_witness :
  let c := normalize_customer_inputs Sample.healthy in
  historical_data Sample.no_history = None /\
  _estimate_policy_metrics 20000 Sample.no_history c 0.1725 = fallback 0.1725 /\
  predicted_duration_years (_estimate_policy_metrics 20000 Sample.two_policies c 0.1725)
  == inject_Z (20000 - 19000) / 365.25 /\
  ~ predicted_duration_years (_estimate_policy_metrics 20000 Sample.two_policies c 0.1725)
    == (inject_Z (20000 - 19000) / 365.25 + inject_Z (20000 - 18000) / 365.25) / 2.
Proof.
  cbv zeta. split; [reflexivity|]. split; [|split].
  - apply (proj1 (policy_metrics_fallback_and_clamps 20000 Sample.no_history
                    (normalize_customer_inputs Sample.healthy) 0.1725)).
    left. reflexivity.
  - destruct (proj2 (policy_metrics_fallback_and_clamps 20000 Sample.two_policies
                       (normalize_customer_inputs Sample.healthy) 0.1725)
                [Sample.past_policy 27 "Class I (Low Risk)" (Some 19000%Z);
                 Sample.lapsed_policy 27 "Class I (Low Risk)" (Some 18000%Z)] eq_refl)
      as (_ & _ & H).
    destruct H as (Hactive & _).
    + vm_compute. discriminate.
    + vm_compute. intro HF. inversion HF. discriminate.
    + rewrite Hactive.
      * vm_compute. reflexivity.
      * vm_compute. repeat constructor; discriminate.
      * vm_compute. discriminate.
  - vm_compute. discriminate.
Defined.

(** ** What the historical table and the date can change *)

Lemma running_total_weighted (steps : list ScoringStep) :
  running_total steps = fold_left Qplus (map weighted_score steps) 0.0.
Proof.
  unfold running_total. generalize 0.0.
  induction steps as [|step steps IH]; intro acc; simpl; [reflexivity|apply IH].
Qed.

Lemma weighted_of_core (steps : list ScoringStep) :
  map weighted_score steps = map snd (map step_core steps).
Proof. rewrite map_map. reflexivity. Qed.

Lemma mapped_step_core (self : RiskScoringEngine) (d : dict Q) (k cat fac : string)
    (w : Q) (data : dict Q) (step : ScoringStep) :
  (risk <- getitem d k ;; Ok (mkStep cat fac risk w (py_round (risk * w) 4) data))
  = Ok step ->
  exists risk,
    getitem d k = Ok risk /\
    step_core step = (cat, fac, risk, w, py_round (risk * w) 4).
Proof.
  destruct (getitem d k) as [risk|]; cbn [bind]; [|discriminate].
  intro H. apply Ok_inj in H. subst step. exists risk. split; reflexivity.
Qed.

Lemma mapped_step_core_eq (self1 self2 : RiskScoringEngine) (d : dict Q)
    (k cat fac : string) (w : Q) (data1 data2 : dict Q) (step1 step2 : ScoringStep) :
  (risk <- getitem d k ;; Ok (mkStep cat fac risk w (py_round (risk * w) 4) data1))
  = Ok step1 ->
  (risk <- getitem d k ;; Ok (mkStep cat fac risk w (py_round (risk * w) 4) data2))
  = Ok step2 ->
  step_core step1 = step_core step2.
Proof.
  intros H1 H2.
  apply (mapped_step_core self1) in H1 as (risk1 & G1 & ->).
  apply (mapped_step_core self2) in H2 as (risk2 & G2 & ->).
  rewrite G1 in G2. apply Ok_inj in G2. subst. reflexivity.
Qed.

Lemma _calculate_confidence_core c steps1 steps2 :
  map step_core steps1 = map step_core steps2 ->
  _calculate_confidence c steps1 = _calculate_confidence c steps2.
Proof.
  intro H. unfold _calculate_confidence.
  rewrite (weighted_of_core steps1), (weighted_of_core steps2), H. reflexivity.
Qed.

Lemma history_free_engine today self1 self2 raw r1 r2 :
  score_customer today self1 raw = Ok r1 ->
  score_customer today self2 raw = Ok r2 ->
  history_free r1 = history_free r2.
Proof.
  intros H1 H2.
  apply score_customer_inv in H1, H2.
  destruct H1 as (occ1 & smk1 & alc1 & exe1 & chr1 & fam1
                  & O1 & S1 & A1 & E1 & C1 & F1 & ->).
  destruct H2 as (occ2 & smk2 & alc2 & exe2 & chr2 & fam2
                  & O2 & S2 & A2 & E2 & C2 & F2 & ->).
  cbv zeta.
  pose proof (mapped_step_core_eq self1 self2 _ _ _ _ _ _ _ _ _ O1 O2) as HO.
  pose proof (mapped_step_core_eq self1 self2 _ _ _ _ _ _ _ _ _ S1 S2) as HS.
  pose proof (mapped_step_core_eq self1 self2 _ _ _ _ _ _ _ _ _ A1 A2) as HA.
  pose proof (mapped_step_core_eq self1 self2 _ _ _ _ _ _ _ _ _ E1 E2) as HE.
  apply _score_chronic_conditions_inv in C1 as (d1 & ->), C2 as (d2 & ->).
  apply _score_family_history_inv in F1 as (f1 & ->), F2 as (f2 & ->).
  set (c := normalize_customer_inputs raw) in *.
  set (chr1 := mkStep "Medical History" "Chronic Conditions" _ _ _ d1).
  set (chr2 := mkStep "Medical History" "Chronic Conditions" _ _ _ d2).
  set (fam1 := mkStep "Medical History" "Family History" _ _ _ f1).
  set (fam2 := mkStep "Medical History" "Family History" _ _ _ f2).
  assert (HC : step_core chr1 = step_core chr2) by reflexivity.
  assert (HF : step_core fam1 = step_core fam2) by reflexivity.
  clearbody chr1 chr2 fam1 fam2.
  set (steps1 := [_score_age self1 c; _score_gender self1 c; occ1; _score_bmi self1 c;
                  _score_blood_pressure self1 c; _score_cholesterol self1 c; smk1;
                  alc1; exe1; chr1; fam1; _score_hobbies self1 c]).
  set (steps2 := [_score_age self2 c; _score_gender self2 c; occ2; _score_bmi self2 c;
                  _score_blood_pressure self2 c; _score_cholesterol self2 c; smk2;
                  alc2; exe2; chr2; fam2; _score_hobbies self2 c]).
  assert (Hcore : map step_core steps1 = map step_core steps2).
  { subst steps1 steps2. cbn [map]. rewrite HO, HS, HA, HE, HC, HF. reflexivity. }
  assert (Htotal : running_total steps1 = running_total steps2).
  { rewrite !running_total_weighted, !weighted_of_core, Hcore. reflexivity. }
  unfold history_free, score_and_prices.
  cbn [r_customer_id final_risk_score annual_premium_low annual_premium_calculated
         annual_premium_recommended annual_premium_high confidence_level
         scoring_steps].
  rewrite Htotal, Hcore, (_calculate_confidence_core c steps1 steps2 Hcore).
  reflexivity.
Qed.

(** Without a historical table a call fails only on one of the four
    lookups, and a table never turns that failure into anything else. *)
Lemma no_history_outcome today self raw :
  historical_data self = None ->
  (exists r, score_customer today self raw = Ok r) \/
  (exists key,
     score_customer today self raw = Raise (KeyError key) /\
     forall other, score_customer today other raw = Raise (KeyError key)).
Proof.
  intro Hnone.
  pose proof (score_customer_cases today self raw) as H. cbv zeta in H.
  assert (Hany : forall other,
             match dict_get occupation_risk_map
                     (occupation_class (normalize_customer_inputs raw)),
                   dict_get smoking_risk_map
                     (smoking_status (normalize_customer_inputs raw)),
                   dict_get alcohol_risk_map
                     (alcohol_consumption (normalize_customer_inputs raw)),
                   dict_get exercise_risk_map
                     (exercise_frequency (normalize_customer_inputs raw)) with
             | Some _, Some _, Some _, Some _ => True
             | None, _, _, _ =>
                 score_customer today other raw
                 = Raise (KeyError (occupation_class (normalize_customer_inputs raw)))
             | Some _, None, _, _ =>
                 score_customer today other raw
                 = Raise (KeyError (smoking_status (normalize_customer_inputs raw)))
             | Some _, Some _, None, _ =>
                 score_customer today other raw
                 = Raise (KeyError (alcohol_consumption (normalize_customer_inputs raw)))
             | Some _, Some _, Some _, None =>
                 score_customer today other raw
                 = Raise (KeyError (exercise_frequency (normalize_customer_inputs raw)))
             end).
  { intro other.
    pose proof (score_customer_cases today other raw) as H'. cbv zeta in H'.
    destruct (dict_get occupation_risk_map _);
      [destruct (dict_get smoking_risk_map _);
       [destruct (dict_get alcohol_risk_map _);
        [destruct (dict_get exercise_risk_map _)|]|]|]; try exact H'; exact I. }
  unfold counting_error in H. rewrite Hnone in H.
  destruct (dict_get occupation_risk_map _);
    [destruct (dict_get smoking_risk_map _);
     [destruct (dict_get alcohol_risk_map _);
      [destruct (dict_get exercise_risk_map _)|]|]|].
  1: left; exact H.
  all: right; eexists; split; [exact H | exact Hany].
Qed.

(** C8 (as the code has it). A historical table can decide whether there
    is a score at all.  The file read here has one line, whose
    chronic-conditions field reads "None"; the column of the loaded table
    then holds no text, counting its entries raises [AttributeError], and the
    applicant with two chronic conditions, who scores 0.2425 and is priced
    from 313.01 to 460.31 without a table, gets neither score nor price with
    it. *)
Theorem history_can_fail_the_call :
  let with_table :=
    __init__ (Some [Sample.past_line 27 "Class I (Low Risk)" (Some 19000%Z)]) in
  let without := __init__ None in
  historical_data with_table
  = Some [Sample.past_policy 27 "Class I (Low Risk)" (Some 19000%Z)] /\
  score_customer 20000 with_table Sample.two_conditions
  = Raise (AttributeError str_accessor_message) /\
  exists r,
    score_customer 20000 without Sample.two_conditions = Ok r /\
    final_risk_score r == 0.2425 /\
    annual_premium_low r == 313.01 /\
    annual_premium_high r == 460.31 /\
    fmap score_and_prices (score_customer 20000 with_table Sample.two_conditions)
    <> fmap score_and_prices (score_customer 20000 without Sample.two_conditions).
Proof.
  cbv zeta.
  assert (E : score_customer 20000
                (__init__ (Some [Sample.past_line 27 "Class I (Low Risk)"
                                   (Some 19000%Z)]))
                Sample.two_conditions
              = Raise (AttributeError str_accessor_message))
    by (vm_compute; reflexivity).
  split; [reflexivity|]. split; [exact E|].
  eexists. split; [vm_compute; reflexivity|].
  split; [vm_compute; reflexivity|].
  split; [vm_compute; reflexivity|].
  split; [vm_compute; reflexivity|].
  rewrite E. intro H. vm_compute in H. discriminate H.
Qed.

(** The historical table does change a result: with one past policy loaded
    the sample applicant's steps carry cohort summaries and the duration
    comes from the cohort, while score and prices stay the same. *)
Example history_changes_only_the_rest :
  exists r1 r2,
    score_customer 20000 Sample.no_history Sample.healthy = Ok r1 /\
    score_customer 20000 Sample.one_policy Sample.healthy = Ok r2 /\
    scoring_steps r1 <> scoring_steps r2 /\
    ~ predicted_policy_duration_years r1 == predicted_policy_duration_years r2 /\
    score_and_prices r1 = score_and_prices r2.
Proof.
  eexists. eexists.
  split; [vm_compute; reflexivity|]. split; [vm_compute; reflexivity|].
  split; [|split].
  - intro H. apply (f_equal (map supporting_data)) in H.
    vm_compute in H. discriminate H.
  - vm_compute. discriminate.
  - vm_compute. reflexivity.
Qed.

Lemma cohort_metrics_attrition today1 today2 cohort risk_score :
  attrition (cohort_metrics today1 cohort risk_score)
  = attrition (cohort_metrics today2 cohort risk_score).
Proof.
  unfold cohort_metrics; cbv zeta.
  destruct (filter policy_accepted cohort) as [|row rows] eqn:Eacc; [reflexivity|].
  rewrite <- Eacc. set (accepted := filter policy_accepted cohort) in *.
  destruct (tenure_of today1 accepted) as [|t1 ts1] eqn:E1;
    destruct (tenure_of today2 accepted) as [|t2 ts2] eqn:E2; try reflexivity.
  - apply tenure_of_nil_iff in E1. apply (tenure_of_nil_iff today2) in E1. congruence.
  - apply tenure_of_nil_iff in E2. apply (tenure_of_nil_iff today1) in E2. congruence.
Qed.

Lemma _estimate_policy_metrics_attrition today1 today2 self c risk_score :
  attrition (_estimate_policy_metrics today1 self c risk_score)
  = attrition (_estimate_policy_metrics today2 self c risk_score).
Proof.
  unfold _estimate_policy_metrics.
  destruct (historical_data self) as [[|row rows]|]; try reflexivity.
  apply cohort_metrics_attrition.
Qed.

Lemma _estimate_policy_metrics_no_history today1 today2 self c risk_score :
  historical_data self = None \/ historical_data self = Some [] ->
  _estimate_policy_metrics today1 self c risk_score
  = _estimate_policy_metrics today2 self c risk_score.
Proof.
  unfold _estimate_policy_metrics. intros [-> | ->]; reflexivity.
Qed.

(** C9 (the claim as stated fails). The same applicant scored against the
    same one-row historical table on day 20000 and on day 20400 gets two
    different predicted durations: the estimate reads the current date. *)
Lemma duration_depends_on_date :
  exists r1 r2,
    score_customer 20000 Sample.one_policy Sample.healthy = Ok r1 /\
    score_customer 20400 Sample.one_policy Sample.healthy = Ok r2 /\
    predicted_policy_duration_years r1 == 2.7 /\
    predicted_policy_duration_years r2 == 3.8 /\
    r1 <> r2.
Proof.
  eexists. eexists.
  split; [vm_compute; reflexivity|]. split; [vm_compute; reflexivity|].
  split; [vm_compute; reflexivity|]. split; [vm_compute; reflexivity|].
  intro H. apply (f_equal predicted_policy_duration_years) in H.
  vm_compute in H. discriminate H.
Qed.

(** C9 (amended). The result of scoring is a function of the applicant
    record, the historical table and the current date.  Two calls that differ
    only in the date succeed or fail alike and agree on every field except
    the predicted policy duration; with no historical table, or an empty
    one, they agree on that field too. *)
Theorem scoring_depends_on_date_only_in_duration today1 today2 self raw :
  fmap all_but_duration (score_customer today1 self raw)
  = fmap all_but_duration (score_customer today2 self raw) /\
  (historical_data self = None \/ historical_data self = Some [] ->
   score_customer today1 self raw = score_customer today2 self raw).
Proof.
  pose proof (score_customer_cases today1 self raw) as H1.
  pose proof (score_customer_cases today2 self raw) as H2.
  cbv zeta in H1, H2.
  destruct (dict_get occupation_risk_map _);
    [destruct (dict_get smoking_risk_map _);
     [destruct (dict_get alcohol_risk_map _);
      [destruct (dict_get exercise_risk_map _)|]|]|].
  2-5: rewrite H1, H2; split; reflexivity.
  destruct (counting_error self _); [rewrite H1, H2; split; reflexivity|].
  destruct H1 as [r1 H1]; destruct H2 as [r2 H2].
  rewrite H1, H2. cbn [fmap bind].
  apply score_customer_inv in H1, H2.
  destruct H1 as (occ1 & smk1 & alc1 & exe1 & chr1 & fam1
                  & O1 & S1 & A1 & E1 & C1 & F1 & ->).
  destruct H2 as (occ2 & smk2 & alc2 & exe2 & chr2 & fam2
                  & O2 & S2 & A2 & E2 & C2 & F2 & ->).
  rewrite O1 in O2; apply Ok_inj in O2; subst occ2.
  rewrite S1 in S2; apply Ok_inj in S2; subst smk2.
  rewrite A1 in A2; apply Ok_inj in A2; subst alc2.
  rewrite E1 in E2; apply Ok_inj in E2; subst exe2.
  rewrite C1 in C2; apply Ok_inj in C2; subst chr2.
  rewrite F1 in F2; apply Ok_inj in F2; subst fam2.
  cbv zeta. split.
  - unfold all_but_duration.
    cbn [r_customer_id final_risk_score annual_premium_low annual_premium_calculated
           annual_premium_recommended annual_premium_high attrition_likelihood
           scoring_steps confidence_level].
    rewrite (_estimate_policy_metrics_attrition today1 today2). reflexivity.
  - intro Hh.
    rewrite (_estimate_policy_metrics_no_history today1 today2 self _ _ Hh).
    reflexivity.
Qed.

Lemma scoring_depends_on_date_only_in_duration_witness :
  historical_data Sample.no_history = None /\
  score_customer 20000 Sample.no_history Sample.healthy
  = score_customer 20400 Sample.no_history Sample.healthy.
Proof.
  split; [reflexivity|].
  apply (scoring_depends_on_date_only_in_duration 20000 20400 Sample.no_history
           Sample.healthy).
  left. reflexivity.
Defined.

(** * Further properties *)

(** ** Rounding *)

Lemma py_round_near (x : Q) (d : nat) :
  exists n : Z,
    py_round x d = inject_Z n / inject_Z (10 ^ Z.of_nat d) /\
    inject_Z n - (1 # 2) <= x * inject_Z (10 ^ Z.of_nat d) <= inject_Z n + (1 # 2).
Proof.
  unfold py_round; cbv zeta.
  set (s := x * inject_Z (10 ^ Z.of_nat d)).
  pose proof (Qfloor_le s) as Hlo. pose proof (Qlt_floor s) as Hhi.
  rewrite inject_Z_plus in Hhi. change (inject_Z 1) with 1 in Hhi.
  destruct (Qlt_bool (s - inject_Z (Qfloor s)) (1 # 2)) eqn:E1.
  - exists (Qfloor s). split; [reflexivity|].
    apply Qlt_bool_iff in E1. split; lra.
  - apply Qlt_bool_false in E1.
    destruct (Qlt_bool (1 # 2) (s - inject_Z (Qfloor s))) eqn:E2.
    + exists (Qfloor s + 1)%Z. split; [reflexivity|].
      rewrite inject_Z_plus. change (inject_Z 1) with 1. split; lra.
    + apply Qlt_bool_false in E2.
      destruct (Z.even (Qfloor s)).
      * exists (Qfloor s). split; [reflexivity|]. split; lra.
      * exists (Qfloor s + 1)%Z. split; [reflexivity|].
        rewrite inject_Z_plus. change (inject_Z 1) with 1. split; lra.
Qed.

Lemma Qdiv_scale_le (n m : Z) (d : nat) :
  (n <= m)%Z ->
  inject_Z n / inject_Z (10 ^ Z.of_nat d) <= inject_Z m / inject_Z (10 ^ Z.of_nat d).
Proof.
  intro H. pose proof (scale_pos d) as Hp.
  unfold Qdiv. apply Qmult_le_compat_r.
  - rewrite <- Zle_Qle. exact H.
  - apply Qinv_le_0_compat. change 0 with (inject_Z 0). rewrite <- Zle_Qle. lia.
Qed.

(** Rounding keeps the order. *)
Lemma py_round_le (x y : Q) (d : nat) : x <= y -> py_round x d <= py_round y d.
Proof.
  intro Hxy.
  destruct (Qeq_dec x y) as [E|NE].
  - rewrite (py_round_compat x y d E). apply Qle_refl.
  - assert (Hlt : x < y).
    { destruct (Qlt_le_dec x y) as [H|H]; [exact H|].
      exfalso. apply NE. apply Qle_antisym; assumption. }
    destruct (py_round_near x d) as (n & -> & Hn1 & Hn2).
    destruct (py_round_near y d) as (m & -> & Hm1 & Hm2).
    apply Qdiv_scale_le.
    pose proof (scale_pos d) as Hp.
    assert (Hs : x * inject_Z (10 ^ Z.of_nat d) < y * inject_Z (10 ^ Z.of_nat d)).
    { apply Qmult_lt_compat_r; [|exact Hlt].
      change 0 with (inject_Z 0). rewrite <- Zlt_Qlt. exact Hp. }
    assert (Hnm : inject_Z n < inject_Z m + 1) by lra.
    change 1 with (inject_Z 1) in Hnm. rewrite <- inject_Z_plus, <- Zlt_Qlt in Hnm.
    lia.
Qed.

(** ** Ranges of the factor scores *)

Lemma step_range_intro (cat fac : string) (risk w : Q) (data : dict Q)
    (v rlo rhi wlo whi : Q) :
  risk == v ->
  Qle_bool rlo v && Qle_bool v rhi
  && Qle_bool wlo (py_round (v * w) 4) && Qle_bool (py_round (v * w) 4) whi = true ->
  let step := mkStep cat fac risk w (py_round (risk * w) 4) data in
  rlo <= risk_contribution step <= rhi /\ wlo <= weighted_score step <= whi.
Proof.
  intros Hv H. cbv zeta; cbn [risk_contribution weighted_score].
  rewrite !andb_true_iff, !Qle_bool_iff in H. destruct H as [[[H1 H2] H3] H4].
  rewrite (py_round_compat (risk * w) (v * w) 4) by (rewrite Hv; reflexivity).
  rewrite Hv. repeat split; assumption.
Qed.

Ltac range_constant :=
  match goal with
  | |- _ <= risk_contribution (mkStep _ _ ?r _ _ _) <= _ /\ _ =>
      apply (step_range_intro _ _ r _ _ r); [reflexivity | vm_compute; reflexivity]
  end.

Ltac range_table :=
  repeat match goal with
         | |- context [if ?b then _ else _] => destruct b
         end;
  range_constant.

Ltac range_mapped H :=
  apply getitem_Ok_In in H; simpl in H;
  repeat (destruct H as [<- | H]; [range_constant|]);
  contradiction.

Ltac range_counted cap n :=
  destruct (count_risk_cases cap n ltac:(vm_compute; discriminate))
    as [[_ H]|[[_ H]|[[_ H]|[_ H]]]];
  match goal with
  | |- _ <= risk_contribution (mkStep _ _ _ _ _ _) <= _ /\ _ =>
      eapply (step_range_intro _ _ _ _ _ _ _ _ _ _ H); vm_compute; reflexivity
  end.

Lemma _score_age_range self c :
  0.1 <= risk_contribution (_score_age self c) <= 0.8 /\
  0.02 <= weighted_score (_score_age self c) <= 0.16.
Proof. unfold _score_age; cbv zeta. range_table. Qed.

Lemma _score_gender_range self c :
  0.45 <= risk_contribution (_score_gender self c) <= 0.55 /\
  0.0225 <= weighted_score (_score_gender self c) <= 0.0275.
Proof. unfold _score_gender; cbv zeta. range_table. Qed.

Lemma _score_occupation_range self c step :
  _score_occupation self c = Ok step ->
  0.2 <= risk_contribution step <= 0.9 /\ 0.02 <= weighted_score step <= 0.09.
Proof.
  unfold _score_occupation; cbv zeta.
  destruct (getitem occupation_risk_map (occupation_class c)) as [risk|] eqn:E;
    cbn [bind]; [|discriminate].
  intro H; apply Ok_inj in H; subst step. range_mapped E.
Qed.

Lemma _score_bmi_range self c :
  0.2 <= risk_contribution (_score_bmi self c) <= 0.95 /\
  0.03 <= weighted_score (_score_bmi self c) <= 0.1425.
Proof. unfold _score_bmi; cbv zeta. range_table. Qed.

Lemma _score_blood_pressure_range self c :
  0.1 <= risk_contribution (_score_blood_pressure self c) <= 0.9 /\
  0.01 <= weighted_score (_score_blood_pressure self c) <= 0.09.
Proof. unfold _score_blood_pressure; cbv zeta. range_table. Qed.

Lemma _score_cholesterol_range self c :
  0.2 <= risk_contribution (_score_cholesterol self c) <= 0.8 /\
  0.016 <= weighted_score (_score_cholesterol self c) <= 0.064.
Proof. unfold _score_cholesterol; cbv zeta. range_table. Qed.

Lemma _score_smoking_range self c step :
  _score_smoking self c = Ok step ->
  0.1 <= risk_contribution step <= 0.95 /\ 0.015 <= weighted_score step <= 0.1425.
Proof.
  unfold _score_smoking; cbv zeta.
  destruct (getitem smoking_risk_map (smoking_status c)) as [risk|] eqn:E;
    cbn [bind]; [|discriminate].
  intro H; apply Ok_inj in H; subst step. range_mapped E.
Qed.

Lemma _score_alcohol_range self c step :
  _score_alcohol self c = Ok step ->
  0.2 <= risk_contribution step <= 0.8 /\ 0.01 <= weighted_score step <= 0.04.
Proof.
  unfold _score_alcohol; cbv zeta.
  destruct (getitem alcohol_risk_map (alcohol_consumption c)) as [risk|] eqn:E;
    cbn [bind]; [|discriminate].
  intro H; apply Ok_inj in H; subst step. range_mapped E.
Qed.

Lemma _score_exercise_range self c step :
  _score_exercise self c = Ok step ->
  0.15 <= risk_contribution step <= 0.7 /\ 0.006 <= weighted_score step <= 0.028.
Proof.
  unfold _score_exercise; cbv zeta.
  destruct (getitem exercise_risk_map (exercise_frequency c)) as [risk|] eqn:E;
    cbn [bind]; [|discriminate].
  intro H; apply Ok_inj in H; subst step. range_mapped E.
Qed.

Lemma _score_chronic_conditions_range self c step :
  _score_chronic_conditions self c = Ok step ->
  0.1 <= risk_contribution step <= 0.95 /\ 0.01 <= weighted_score step <= 0.095.
Proof.
  intro H. apply _score_chronic_conditions_inv in H as (data & ->).
  unfold chronic_risk.
  destruct (String.eqb (chronic_conditions c) "None").
  - range_constant.
  - range_counted 0.95 (num_items (chronic_conditions c)).
Qed.

Lemma _score_family_history_range self c step :
  _score_family_history self c = Ok step ->
  0.2 <= risk_contribution step <= 0.8 /\ 0.01 <= weighted_score step <= 0.04.
Proof.
  intro H. apply _score_family_history_inv in H as (data & ->).
  unfold family_risk.
  destruct (String.eqb (family_history c) "None").
  - range_constant.
  - range_counted 0.8 (num_items (family_history c)).
Qed.

Lemma _score_hobbies_range self c :
  0.1 <= risk_contribution (_score_hobbies self c) <= 0.9 /\
  0.003 <= weighted_score (_score_hobbies self c) <= 0.027.
Proof. unfold _score_hobbies; cbv zeta. range_table. Qed.

Lemma running_total_range today self raw r :
  score_customer today self raw = Ok r ->
  0.1725 <= running_total (scoring_steps r) <= 0.9465.
Proof.
  intro H. apply score_customer_inv in H.
  destruct H as (occ & smk & alc & exe & chr & fam & H3 & H7 & H8 & H9 & H10 & H11 & ->).
  cbn [scoring_steps]. unfold running_total. cbv beta iota delta [fold_left].
  set (c := normalize_customer_inputs raw).
  pose proof (proj2 (_score_age_range self c)) as B1.
  pose proof (proj2 (_score_gender_range self c)) as B2.
  pose proof (proj2 (_score_occupation_range self c occ H3)) as B3.
  pose proof (proj2 (_score_bmi_range self c)) as B4.
  pose proof (proj2 (_score_blood_pressure_range self c)) as B5.
  pose proof (proj2 (_score_cholesterol_range self c)) as B6.
  pose proof (proj2 (_score_smoking_range self c smk H7)) as B7.
  pose proof (proj2 (_score_alcohol_range self c alc H8)) as B8.
  pose proof (proj2 (_score_exercise_range self c exe H9)) as B9.
  pose proof (proj2 (_score_chronic_conditions_range self c chr H10)) as B10.
  pose proof (proj2 (_score_family_history_range self c fam H11)) as B11.
  pose proof (proj2 (_score_hobbies_range self c)) as B12.
  split; lra.
Qed.

Lemma final_risk_score_total today self raw r :
  score_customer today self raw = Ok r ->
  final_risk_score r == running_total (scoring_steps r).
Proof.
  intro H. pose proof (score_customer_steps_exact _ _ _ _ H) as Hexact.
  destruct (running_total_exact _ Hexact) as (Hdec & _ & _).
  apply score_customer_inv in H.
  destruct H as (occ & smk & alc & exe & chr & fam & _ & _ & _ & _ & _ & _ & ->).
  cbn [scoring_steps final_risk_score] in *.
  apply py_round_decimal. exact Hdec.
Qed.

Lemma final_risk_score_rounded today self raw r :
  score_customer today self raw = Ok r ->
  final_risk_score r = py_round (running_total (scoring_steps r)) 4.
Proof.
  intro H. apply score_customer_inv in H.
  destruct H as (occ & smk & alc & exe & chr & fam & _ & _ & _ & _ & _ & _ & ->).
  reflexivity.
Qed.

(** X1. The final risk score of a scored applicant lies between 0.1725 and
    0.9465: it is never 0 and never reaches 1. *)
Theorem final_risk_score_range today self raw r :
  score_customer today self raw = Ok r ->
  0.1725 <= final_risk_score r <= 0.9465.
Proof.
  intro H. rewrite (final_risk_score_total _ _ _ _ H).
  exact (running_total_range _ _ _ _ H).
Qed.

(** X2. Every step of a scored applicant has a risk value between 0.1 and
    0.95, and contributes a positive weighted score smaller than its
    weight. *)
Theorem step_risk_range today self raw r :
  score_customer today self raw = Ok r ->
  Forall (fun step =>
            0.1 <= risk_contribution step <= 0.95 /\
            0 < weighted_score step < weight step)
    (scoring_steps r).
Proof.
  intro H. apply score_customer_inv in H.
  destruct H as (occ & smk & alc & exe & chr & fam & H3 & H7 & H8 & H9 & H10 & H11 & ->).
  cbn [scoring_steps].
  set (c := normalize_customer_inputs raw) in *.
  assert (W1 : weight (_score_age self c) = 0.20) by reflexivity.
  assert (W2 : weight (_score_gender self c) = 0.05) by reflexivity.
  pose proof (proj1 (mapped_step_weight _ _ _ _ _ _ _ H3)) as W3.
  assert (W4 : weight (_score_bmi self c) = 0.15) by reflexivity.
  assert (W5 : weight (_score_blood_pressure self c) = 0.10) by reflexivity.
  assert (W6 : weight (_score_cholesterol self c) = 0.08) by reflexivity.
  pose proof (proj1 (mapped_step_weight _ _ _ _ _ _ _ H7)) as W7.
  pose proof (proj1 (mapped_step_weight _ _ _ _ _ _ _ H8)) as W8.
  pose proof (proj1 (mapped_step_weight _ _ _ _ _ _ _ H9)) as W9.
  assert (W10 : weight chr = 0.10)
    by (destruct (_score_chronic_conditions_inv _ _ _ H10) as (d10 & ->); reflexivity).
  assert (W11 : weight fam = 0.05)
    by (destruct (_score_family_history_inv _ _ _ H11) as (d11 & ->); reflexivity).
  assert (W12 : weight (_score_hobbies self c) = 0.03) by reflexivity.
  pose proof (_score_age_range self c) as B1.
  pose proof (_score_gender_range self c) as B2.
  pose proof (_score_occupation_range self c occ H3) as B3.
  pose proof (_score_bmi_range self c) as B4.
  pose proof (_score_blood_pressure_range self c) as B5.
  pose proof (_score_cholesterol_range self c) as B6.
  pose proof (_score_smoking_range self c smk H7) as B7.
  pose proof (_score_alcohol_range self c alc H8) as B8.
  pose proof (_score_exercise_range self c exe H9) as B9.
  pose proof (_score_chronic_conditions_range self c chr H10) as B10.
  pose proof (_score_family_history_range self c fam H11) as B11.
  pose proof (_score_hobbies_range self c) as B12.
  repeat (apply Forall_cons;
          [match goal with
           | |- _ /\ _ < _ < weight ?s =>
               match goal with W : weight s = _ |- _ => rewrite W end
           end; lra|]).
  apply Forall_nil.
Qed.

(** ** More on prices *)

Lemma base_premium_mono (age : Q) (coverage : Z) (r1 r2 : Q) :
  (0 <= coverage)%Z -> r1 <= r2 ->
  base_rate_of age * (inject_Z coverage / 1000) * (0.5 + r1 * 3)
  <= base_rate_of age * (inject_Z coverage / 1000) * (0.5 + r2 * 3).
Proof.
  intros Hc Hr.
  pose proof (base_rate_of_pos age) as Hb.
  assert (Hk : 0 <= inject_Z coverage / 1000).
  { assert (Ek : inject_Z coverage / 1000 == inject_Z coverage * (1 # 1000)) by field.
    assert (0 <= inject_Z coverage)
      by (change 0 with (inject_Z 0); rewrite <- Zle_Qle; exact Hc).
    rewrite Ek. lra. }
  assert (Hbk : 0 <= base_rate_of age * (inject_Z coverage / 1000))
    by (apply Qmult_le_0_compat; [apply Qlt_le_weak; exact Hb | exact Hk]).
  set (bk := base_rate_of age * (inject_Z coverage / 1000)) in *.
  rewrite (Qmult_comm bk (0.5 + r1 * 3)), (Qmult_comm bk (0.5 + r2 * 3)).
  apply Qmult_le_compat_r; [lra | exact Hbk].
Qed.

(** X3. With a coverage amount that is not negative, a higher risk score
    never lowers a price: the low boundary, the recommended price and the
    high boundary are all monotone in the risk score. *)
Theorem pricing_monotone_in_risk (c : Customer) (r1 r2 : Q) :
  (0 <= coverage_amount_requested c)%Z ->
  0 <= r1 -> r1 <= r2 ->
  let p1 := _calculate_pricing c r1 in
  let p2 := _calculate_pricing c r2 in
  low p1 <= low p2 /\ recommended p1 <= recommended p2 /\ high p1 <= high p2.
Proof.
  intros Hc H0 Hr. cbv zeta.
  pose proof (base_premium_mono (age c) _ r1 r2 Hc Hr) as Hmono.
  destruct (base_premium_sign (age c) (coverage_amount_requested c) r1 H0)
    as (Hpos & _ & _).
  specialize (Hpos Hc).
  unfold _calculate_pricing; cbv zeta; cbn [low high recommended].
  set (x1 := base_rate_of (age c) * (inject_Z (coverage_amount_requested c) / 1000)
             * (0.5 + r1 * 3)) in *.
  set (x2 := base_rate_of (age c) * (inject_Z (coverage_amount_requested c) / 1000)
             * (0.5 + r2 * 3)) in *.
  destruct (Qlt_bool r1 0.3) eqn:A1; [|destruct (Qlt_bool r1 0.6) eqn:B1];
    (destruct (Qlt_bool r2 0.3) eqn:A2; [|destruct (Qlt_bool r2 0.6) eqn:B2]);
    repeat match goal with
           | H : Qlt_bool _ _ = true |- _ => apply Qlt_bool_iff in H
           | H : Qlt_bool _ _ = false |- _ => apply Qlt_bool_false in H
           end;
    repeat split; lra.
Qed.

Lemma pricing_monotone_in_risk_witness :
  let c := normalize_customer_inputs Sample.healthy in
  recommended (_calculate_pricing c 0.2) <= recommended (_calculate_pricing c 0.7).
Proof.
  apply (pricing_monotone_in_risk (normalize_customer_inputs Sample.healthy) 0.2 0.7).
  - vm_compute. discriminate.
  - vm_compute. discriminate.
  - vm_compute. discriminate.
Defined.

Lemma reported_band_ordered today self raw r :
  score_customer today self raw = Ok r ->
  (0 <= coverage_amount_requested raw)%Z ->
  0 <= low (_calculate_pricing (normalize_customer_inputs raw)
              (running_total (scoring_steps r))) /\
  annual_premium_low r <= annual_premium_calculated r /\
  annual_premium_calculated r <= annual_premium_high r.
Proof.
  intros H Hc. pose proof (running_total_range _ _ _ _ H) as [Htotal _].
  apply score_customer_inv in H.
  destruct H as (occ & smk & alc & exe & chr & fam & _ & _ & _ & _ & _ & _ & ->).
  cbn [scoring_steps annual_premium_low annual_premium_calculated
         annual_premium_high] in *.
  set (total := running_total _) in *.
  assert (Ht : 0 <= total) by lra.
  destruct (_calculate_pricing_band (normalize_customer_inputs raw) total)
    as (Hlow & _ & Hcalc & Hband & _ & _).
  destruct (base_premium_sign (age (normalize_customer_inputs raw))
              (coverage_amount_requested raw) total Ht) as (Hbase & _ & _).
  specialize (Hbase Hc). specialize (Hband Hbase). destruct Hband as [Hb1 Hb2].
  set (base := base_rate_of (age (normalize_customer_inputs raw))
               * (inject_Z (coverage_amount_requested raw) / 1000)
               * (0.5 + total * 3)) in Hbase.
  change (low (_calculate_pricing (normalize_customer_inputs raw) total)
          = base * 0.85) in Hlow.
  rewrite Hcalc.
  split; [rewrite Hlow; lra|].
  split; apply py_round_le; assumption.
Qed.

(** X4. The prices a result reports, rounded to cents, are ordered whenever
    the requested coverage is not negative: 0 <= low <= calculated <= high,
    and the engine's recommended price is the calculated one. *)
Theorem reported_prices_ordered today self raw r :
  score_customer today self raw = Ok r ->
  (0 <= coverage_amount_requested raw)%Z ->
  0 <= annual_premium_low r /\
  annual_premium_low r <= annual_premium_calculated r /\
  annual_premium_calculated r <= annual_premium_high r /\
  annual_premium_recommended r = annual_premium_calculated r.
Proof.
  intros H Hc.
  destruct (reported_band_ordered _ _ _ _ H Hc) as (Hlow & Hlc & Hch).
  apply score_customer_inv in H.
  destruct H as (occ & smk & alc & exe & chr & fam & _ & _ & _ & _ & _ & _ & H).
  split; [|split; [exact Hlc|split; [exact Hch|]]].
  - rewrite H in Hlow |- *. cbn [scoring_steps annual_premium_low] in Hlow |- *.
    assert (Hz : py_round 0 2 == 0) by (vm_compute; reflexivity).
    rewrite <- Hz. apply py_round_le. exact Hlow.
  - rewrite H.
    cbn [annual_premium_recommended annual_premium_calculated].
    apply (f_equal (fun x => py_round x 2)).
    symmetry. apply (_calculate_pricing_band (normalize_customer_inputs raw)).
Qed.

Lemma reported_prices_ordered_witness :
  exists r,
    score_customer 20000 Sample.no_history Sample.high_risk = Ok r /\
    annual_premium_low r <= annual_premium_calculated r /\
    annual_premium_calculated r <= annual_premium_high r.
Proof.
  eexists. split; [vm_compute; reflexivity|].
  pose proof (reported_prices_ordered 20000 Sample.no_history Sample.high_risk) as H.
  edestruct H as (_ & H1 & H2 & _).
  - vm_compute. reflexivity.
  - vm_compute. discriminate.
  - split; [exact H1 | exact H2].
Defined.

(** ** Confidence *)

(** X5. The confidence label only counts how many of the four reductions
    apply (age under 25 or over 70, total risk above 0.7, a dangerous hobby,
    two or more chronic conditions): none gives "Very High", one "High", two
    "Moderate", three or four "Low". *)
Theorem confidence_counts_reductions (c : Customer) (steps : list ScoringStep) :
  let aged := Qlt_bool (age c) 25 || Qlt_bool 70 (age c) in
  let extreme := Qlt_bool 0.7 (Qsum (map weighted_score steps)) in
  let hobby := negb (String.eqb (dangerous_hobbies c) "None") in
  let chronic :=
    negb (String.eqb (chronic_conditions c) "None")
    && (2 <=? num_items (chronic_conditions c))%nat in
  _calculate_confidence c steps =
  match (Nat.b2n aged + Nat.b2n extreme + Nat.b2n hobby + Nat.b2n chronic)%nat with
  | 0%nat => "Very High"
  | 1%nat => "High"
  | 2%nat => "Moderate"
  | _ => "Low"
  end.
Proof.
  cbv zeta. unfold _calculate_confidence; cbv zeta.
  destruct (Qlt_bool (age c) 25 || Qlt_bool 70 (age c));
    destruct (Qlt_bool 0.7 (Qsum (map weighted_score steps)));
    destruct (String.eqb (dangerous_hobbies c) "None");
    destruct (String.eqb (chronic_conditions c) "None");
    destruct (2 <=? num_items (chronic_conditions c))%nat;
    vm_compute; reflexivity.
Qed.

(** ** More on the duration and attrition estimate *)

(** X6. Whatever the historical table, the applicant and the risk score, the
    estimated duration lies in [1, 30] years and the estimated attrition in
    [0, 1]. *)
Theorem policy_metrics_within_bounds today self c risk_score :
  let estimate := _estimate_policy_metrics today self c risk_score in
  1 <= predicted_duration_years estimate <= 30 /\
  0 <= attrition estimate <= 1.
Proof.
  cbv zeta.
  assert (Hfb : 1 <= predicted_duration_years (fallback risk_score) <= 30 /\
                0 <= attrition (fallback risk_score) <= 1).
  { unfold fallback; cbv zeta; cbn [predicted_duration_years attrition].
    split; apply clamp_bounds; vm_compute; discriminate. }
  unfold _estimate_policy_metrics.
  destruct (historical_data self) as [[|row rows]|]; try exact Hfb.
  unfold cohort_metrics; cbv zeta.
  destruct (filter policy_accepted _) as [|a accepted']; [exact Hfb|].
  destruct (tenure_of today _) as [|t ts]; [exact Hfb|].
  cbn [predicted_duration_years attrition].
  split; apply clamp_bounds; vm_compute; discriminate.
Qed.

Lemma clamp_inside (lo hi x : Q) :
  lo <= x -> x <= hi -> Qmax lo (Qmin hi x) == x.
Proof.
  intros Hlo Hhi. rewrite (Q.min_r hi x Hhi). apply Q.max_r. exact Hlo.
Qed.

(** X7. Without historical data the clamps of the closed form never act on
    a scored applicant: before rounding the duration is 12 - 6*total, strictly
    between 3 and 20, and the attrition is 0.12 + 0.25*total, strictly
    between 0.05 and 0.6, where total is the sum the engine accumulated.  The
    reported duration lies between 6.3 and 11.0 years and the reported
    attrition between 0.163 and 0.357. *)
Theorem no_history_estimate_is_linear today self raw r :
  historical_data self = None \/ historical_data self = Some [] ->
  score_customer today self raw = Ok r ->
  let total := running_total (scoring_steps r) in
  let estimate :=
    _estimate_policy_metrics today self (normalize_customer_inputs raw) total in
  predicted_duration_years estimate == 12 - total * 6 /\
  attrition estimate == 0.12 + total * 0.25 /\
  3 < predicted_duration_years estimate < 20 /\
  0.05 < attrition estimate < 0.6 /\
  6.3 <= predicted_policy_duration_years r <= 11.0 /\
  0.163 <= attrition_likelihood r <= 0.357.
Proof.
  intros Hh H. cbv zeta.
  pose proof (running_total_range _ _ _ _ H) as [Hlo Hhi].
  set (total := running_total (scoring_steps r)) in *.
  assert (E : _estimate_policy_metrics today self (normalize_customer_inputs raw) total
              = fallback total).
  { unfold _estimate_policy_metrics. destruct Hh as [-> | ->]; reflexivity. }
  assert (Ed : predicted_duration_years (fallback total) == 12 - total * 6).
  { unfold fallback; cbv zeta; cbn [predicted_duration_years].
    rewrite clamp_inside; lra. }
  assert (Ea : attrition (fallback total) == 0.12 + total * 0.25).
  { unfold fallback; cbv zeta; cbn [attrition]. rewrite clamp_inside; lra. }
  assert (Rd : predicted_policy_duration_years r
               = py_round (predicted_duration_years (fallback total)) 1).
  { subst total. rewrite <- E. apply score_customer_inv in H.
    destruct H as (occ & smk & alc & exe & chr & fam & _ & _ & _ & _ & _ & _ & ->).
    reflexivity. }
  assert (Ra : attrition_likelihood r = py_round (attrition (fallback total)) 3).
  { subst total. rewrite <- E. apply score_customer_inv in H.
    destruct H as (occ & smk & alc & exe & chr & fam & _ & _ & _ & _ & _ & _ & ->).
    reflexivity. }
  rewrite E.
  split; [exact Ed|]. split; [exact Ea|].
  split; [rewrite Ed; split; lra|]. split; [rewrite Ea; split; lra|].
  rewrite Rd, Ra. split.
  - assert (L : py_round 6.321 1 == 6.3) by (vm_compute; reflexivity).
    assert (U : py_round 10.965 1 == 11.0) by (vm_compute; reflexivity).
    rewrite <- L, <- U.
    split; apply py_round_le; rewrite Ed; lra.
  - assert (L : py_round 0.163125 3 == 0.163) by (vm_compute; reflexivity).
    assert (U : py_round 0.356625 3 == 0.357) by (vm_compute; reflexivity).
    rewrite <- L, <- U.
    split; apply py_round_le; rewrite Ea; lra.
Qed.

Lemma no_history_estimate_is_linear_witness :
  exists r,
    score_customer 20000 Sample.no_history Sample.high_risk = Ok r /\
    6.3 <= predicted_policy_duration_years r <= 11.0 /\
    0.163 <= attrition_likelihood r <= 0.357.
Proof.
  destruct (score_customer 20000 Sample.no_history Sample.high_risk) as [r|e] eqn:E;
    [|vm_compute in E; discriminate E].
  exists r. split; [reflexivity|].
  destruct (no_history_estimate_is_linear 20000 Sample.no_history Sample.high_risk r)
    as (_ & _ & _ & _ & Hd & Ha).
  - left. reflexivity.
  - exact E.
  - split; [exact Hd | exact Ha].
Defined.

Lemma Qsum_indicator (l : list bool) (acc : Q) :
  fold_left Qplus (map (fun b : bool => if b then 1 else 0) l) acc
  == acc + len (filter (fun b => b) l).
Proof.
  revert acc. induction l as [|b l IH]; intro acc; simpl.
  - unfold len; simpl. ring.
  - rewrite IH. destruct b; simpl.
    + unfold len. cbn [List.length]. rewrite Nat2Z.inj_succ, <- Z.add_1_r, inject_Z_plus.
      change (inject_Z 1) with 1. ring.
    + ring.
Qed.

Lemma len_pos {A : Type} (l : list A) : l <> [] -> 0 < len l.
Proof.
  intro H. destruct l as [|a l]; [contradiction|].
  unfold len. change 0 with (inject_Z 0). rewrite <- Zlt_Qlt. cbn [List.length]. lia.
Qed.

Lemma len_split (l : list bool) :
  len l == len (filter (fun b => b) l) + len (filter negb l).
Proof.
  unfold len. rewrite <- inject_Z_plus, <- Nat2Z.inj_add.
  apply inject_Z_injective. f_equal.
  induction l as [|[|] l IH]; simpl; lia.
Qed.

Lemma mean_bool_complement (l : list bool) :
  l <> [] ->
  1 - mean_bool l == len (filter negb l) / len l /\ 0 <= 1 - mean_bool l <= 1.
Proof.
  intro Hl. pose proof (len_pos l Hl) as Hpos. pose proof (len_split l) as Hsplit.
  unfold mean_bool, mean, Qsum. rewrite Qsum_indicator, length_map.
  fold (len l).
  assert (Ht : 0 <= len (filter (fun b => b) l))
    by (unfold len; change 0 with (inject_Z 0); rewrite <- Zle_Qle; lia).
  assert (Hf : 0 <= len (filter negb l))
    by (unfold len; change 0 with (inject_Z 0); rewrite <- Zle_Qle; lia).
  assert (E : 1 - (0 + len (filter (fun b => b) l)) / len l
              == len (filter negb l) / len l).
  { assert (Hn : len (filter negb l) == len l - len (filter (fun b => b) l)) by lra.
    rewrite Hn. field. intro Hz. rewrite Hz in Hpos. discriminate Hpos. }
  split; [exact E|]. rewrite E. split.
  - apply Qle_shift_div_l; [exact Hpos|]. lra.
  - apply Qle_shift_div_r; [exact Hpos|]. lra.
Qed.

(** X8. When the final cohort has accepted policies with at least one valid
    issue date, the attrition estimate is exactly the share of accepted
    policies that are no longer active; the clamp to [0, 1] never acts. *)
Theorem attrition_is_lapsed_share today cohort risk_score :
  let accepted := filter policy_accepted cohort in
  accepted <> [] ->
  tenure_of today accepted <> [] ->
  attrition (cohort_metrics today cohort risk_score)
  == len (filter (fun row => negb (policy_active row)) accepted) / len accepted.
Proof.
  cbv zeta. intros Hacc Hten.
  unfold cohort_metrics; cbv zeta.
  set (accepted := filter policy_accepted cohort) in *.
  destruct accepted as [|a rest] eqn:Eacc; [contradiction|].
  destruct (tenure_of today (a :: rest)) as [|t ts]; [contradiction|].
  cbn [attrition].
  assert (Hne : map policy_active (a :: rest) <> []) by discriminate.
  destruct (mean_bool_complement _ Hne) as [E [H0 H1]].
  assert (E1 : 1.0 - mean_bool (map policy_active (a :: rest))
               == 1 - mean_bool (map policy_active (a :: rest))) by ring.
  rewrite clamp_inside by lra.
  rewrite E1, E.
  unfold len. rewrite length_map.
  assert (El : List.length (filter negb (map policy_active (a :: rest)))
               = List.length (filter (fun row => negb (policy_active row)) (a :: rest))).
  { generalize (a :: rest). clear. intro l.
    induction l as [|row rows IH]; simpl; [reflexivity|].
    destruct (policy_active row); simpl; lia. }
  rewrite El. reflexivity.
Qed.

Lemma attrition_is_lapsed_share_witness :
  let cohort := [Sample.past_policy 27 "Class I (Low Risk)" (Some 19000%Z)] in
  attrition (cohort_metrics 20000 cohort 0.1725) == 0 / 1.
Proof.
  cbv zeta.
  apply (attrition_is_lapsed_share 20000
           [Sample.past_policy 27 "Class I (Low Risk)" (Some 19000%Z)] 0.1725).
  - discriminate.
  - discriminate.
Defined.

(** ** The cohort behind the estimate *)

Lemma filter_incl_length {A : Type} (f : A -> bool) (l : list A) :
  (List.length (filter f l) <= List.length l)%nat.
Proof.
  induction l as [|a l IH]; simpl; [lia|]. destruct (f a); simpl; lia.
Qed.

(** X9. Every row of the cohort the estimate is drawn from is a row of the
    historical table within ten years of the applicant's age, whichever of
    the three filters was kept. *)
Theorem select_cohort_within_ten_years df c row :
  In row (select_cohort df c) ->
  In row df /\ age c - 10 <= h_age row <= age c + 10.
Proof.
  pose proof (select_cohort_cases df c) as Hsel; cbv zeta in Hsel. rewrite Hsel.
  unfold same_smoking_status, same_occupation_class, age_window.
  destruct (_ <? 50)%nat; [destruct (_ <? 30)%nat|];
    rewrite ?filter_In, between_iff; intro H.
  - tauto.
  - tauto.
  - destruct H as [[[Hin Hage] _] _]. split; [exact Hin|].
    destruct Hage as [H1 H2]. split; lra.
Qed.

Lemma select_cohort_within_ten_years_witness :
  let df := [Sample.past_policy 27 "Class I (Low Risk)" (Some 19000%Z)] in
  let c := normalize_customer_inputs Sample.healthy in
  In (Sample.past_policy 27 "Class I (Low Risk)" (Some 19000%Z)) df /\
  age c - 10 <= 27 <= age c + 10.
Proof.
  cbv zeta.
  apply (select_cohort_within_ten_years
           [Sample.past_policy 27 "Class I (Low Risk)" (Some 19000%Z)]
           (normalize_customer_inputs Sample.healthy)
           (Sample.past_policy 27 "Class I (Low Risk)" (Some 19000%Z))).
  vm_compute. left. reflexivity.
Defined.

(** X10. The estimate is drawn from fewer than 30 rows only when the whole
    ten-year age window has fewer than 30 rows, and then the cohort is that
    window; a primary cohort of 50 rows or more is always kept. *)
Theorem small_cohort_is_whole_window df c :
  ((List.length (select_cohort df c) < 30)%nat ->
   select_cohort df c = age_window (age c) 10 df) /\
  ((50 <= List.length
           (same_smoking_status c (same_occupation_class c (age_window (age c) 5 df))))%nat ->
   select_cohort df c
   = same_smoking_status c (same_occupation_class c (age_window (age c) 5 df))).
Proof.
  pose proof (select_cohort_cases df c) as Hsel; cbv zeta in Hsel. rewrite Hsel.
  split.
  - destruct (Nat.ltb_spec
                (List.length (same_smoking_status c
                   (same_occupation_class c (age_window (age c) 5 df)))) 50);
      [destruct (Nat.ltb_spec
                   (List.length (same_smoking_status c (age_window (age c) 10 df))) 30)|];
      intro Hlen; [reflexivity | lia | lia].
  - intro H. apply Nat.ltb_ge in H. rewrite H. reflexivity.
Qed.

Lemma small_cohort_is_whole_window_witness :
  let df := [Sample.past_policy 27 "Class I (Low Risk)" (Some 19000%Z)] in
  let c := normalize_customer_inputs Sample.healthy in
  select_cohort df c = age_window (age c) 10 df.
Proof.
  cbv zeta.
  apply (proj1 (small_cohort_is_whole_window
                  [Sample.past_policy 27 "Class I (Low Risk)" (Some 19000%Z)]
                  (normalize_customer_inputs Sample.healthy))).
  apply Nat.ltb_lt. vm_compute. reflexivity.
Defined.

(** ** Cohort summaries *)

Lemma read_text_None (field : string) : cell_eq (read_text field) "None" = false.
Proof.
  unfold read_text.
  destruct (existsb (String.eqb field) na_values) eqn:E; [reflexivity|].
  cbn [cell_eq]. destruct (String.eqb_spec field "None") as [->|_]; [|reflexivity].
  vm_compute in E. discriminate E.
Qed.

(** No text cell of a table read from a file holds "None". *)
Lemma read_csv_None (file : list CsvRow) (row : HistRow) :
  In row (read_csv file) ->
  cell_eq (h_gender row) "None" = false /\
  cell_eq (h_alcohol_consumption row) "None" = false /\
  cell_eq (h_chronic_conditions row) "None" = false /\
  cell_eq (h_family_history row) "None" = false /\
  cell_eq (h_dangerous_hobbies row) "None" = false.
Proof.
  unfold read_csv. intro H. apply in_map_iff in H as (line & <- & _).
  cbn [h_gender h_alcohol_consumption h_chronic_conditions h_family_history
         h_dangerous_hobbies].
  repeat split; apply read_text_None.
Qed.

Lemma filter_none {A : Type} (f : A -> bool) (l : list A) :
  (forall x, In x l -> f x = false) -> filter f l = [].
Proof.
  induction l as [|a l IH]; intro H; [reflexivity|].
  cbn [filter]. rewrite (H a) by (left; reflexivity).
  apply IH. intros x Hx. apply H. right. exact Hx.
Qed.

Lemma filter_all {A : Type} (f : A -> bool) (l : list A) :
  (forall x, In x l -> f x = true) -> filter f l = l.
Proof.
  induction l as [|a l IH]; intro H; [reflexivity|].
  cbn [filter]. rewrite (H a) by (left; reflexivity).
  rewrite IH; [reflexivity|]. intros x Hx. apply H. right. exact Hx.
Qed.

Lemma comparison_no_match (self : RiskScoringEngine) (df : DataFrame)
    (select : HistRow -> bool) (summary : DataFrame -> dict Q) :
  historical_data self = Some df ->
  (forall row, In row df -> select row = false) ->
  comparison self select summary = [].
Proof.
  intros Hdf Hnone. unfold comparison. rewrite Hdf.
  rewrite (filter_none select df Hnone). reflexivity.
Qed.

Lemma comparison_cases (self : RiskScoringEngine) (select : HistRow -> bool)
    (summary : DataFrame -> dict Q) :
  comparison self select summary = [] \/
  exists df cohort,
    historical_data self = Some df /\ cohort = filter select df /\ cohort <> [] /\
    comparison self select summary = summary cohort.
Proof.
  unfold comparison. destruct (historical_data self) as [df|]; [|left; reflexivity].
  cbv zeta. destruct (filter select df) as [|row rows] eqn:E.
  - left. reflexivity.
  - right. exists df, (row :: rows). repeat split; try (symmetry; assumption).
    discriminate.
Qed.

Lemma mean_bool_all (l : list bool) :
  l <> [] -> Forall (fun b => b = true) l -> mean_bool l == 1.
Proof.
  intros Hne Hall.
  destruct (mean_bool_complement l Hne) as [E _].
  assert (Hf : filter negb l = []).
  { apply filter_none. rewrite Forall_forall in Hall.
    intros b Hb. rewrite (Hall b Hb). reflexivity. }
  rewrite Hf in E.
  assert (Hz : len (@nil bool) / len l == 0) by (unfold len; cbn; unfold Qdiv; ring).
  rewrite Hz in E. lra.
Qed.

(** X11. In a table read from a file no text cell holds "None": the reader
    takes that text, like an empty field, for a missing value, and a missing
    value equals no string.  So the gender, alcohol, chronic-conditions,
    family-history and hobby steps of an applicant whose field is "None"
    never carry a cohort summary; the hobby step of an applicant with a
    dangerous hobby compares with every row of the table; and the
    chronic-condition rate the BMI step reports is always 100. *)
Theorem loaded_table_never_matches_None today file raw r :
  let c := normalize_customer_inputs raw in
  score_customer today (__init__ (Some file)) raw = Ok r ->
  (forall step, nth_error (scoring_steps r) 1 = Some step ->
     gender c = "None" -> supporting_data step = []) /\
  (forall step, nth_error (scoring_steps r) 7 = Some step ->
     alcohol_consumption c = "None" -> supporting_data step = []) /\
  (forall step, nth_error (scoring_steps r) 9 = Some step ->
     chronic_conditions c = "None" -> supporting_data step = []) /\
  (forall step, nth_error (scoring_steps r) 10 = Some step ->
     family_history c = "None" -> supporting_data step = []) /\
  (forall step, nth_error (scoring_steps r) 11 = Some step ->
     dangerous_hobbies c = "None" -> supporting_data step = []) /\
  (forall step, nth_error (scoring_steps r) 11 = Some step ->
     dangerous_hobbies c <> "None" -> file <> [] ->
     dict_get (supporting_data step) "cohort_size" = Some (len file)) /\
  (forall step rate, nth_error (scoring_steps r) 3 = Some step ->
     dict_get (supporting_data step) "chronic_condition_rate" = Some rate ->
     rate == 100).
Proof.
  cbv zeta. intro H. apply score_customer_inv in H.
  destruct H as (occ & smk & alc & exe & chr & fam & H3 & H7 & H8 & H9 & H10 & H11 & ->).
  cbn [scoring_steps nth_error].
  set (self := __init__ (Some file)) in *.
  set (c := normalize_customer_inputs raw) in *.
  assert (Hdf : historical_data self = Some (read_csv file)) by reflexivity.
  pose proof (read_csv_None file) as Hcell.
  split; [|split; [|split; [|split; [|split; [|split]]]]].
  - intros step Hs E. apply (f_equal (fun o => match o with Some x => x | None => step end)) in Hs.
    subst step. unfold _score_gender; cbv zeta; cbn [supporting_data].
    apply (comparison_no_match self _ _ _ Hdf). intros row Hrow.
    rewrite E. apply (Hcell row Hrow).
  - intros step Hs E. apply (f_equal (fun o => match o with Some x => x | None => step end)) in Hs.
    subst step. revert H8. unfold _score_alcohol; cbv zeta.
    destruct (getitem alcohol_risk_map (alcohol_consumption c)) as [risk|];
      cbn [bind]; [|discriminate].
    intro H8. apply Ok_inj in H8. subst alc. cbn [supporting_data].
    apply (comparison_no_match self _ _ _ Hdf). intros row Hrow.
    rewrite E. apply (Hcell row Hrow).
  - intros step Hs E. apply (f_equal (fun o => match o with Some x => x | None => step end)) in Hs.
    subst step. revert H10. unfold _score_chronic_conditions; cbv zeta.
    rewrite Hdf, E. cbn [String.eqb Ascii.eqb Bool.eqb bind].
    rewrite filter_none by (intros row Hrow; apply (Hcell row Hrow)).
    cbn [List.length Nat.ltb Nat.leb]. intro H10. apply Ok_inj in H10. subst chr.
    reflexivity.
  - intros step Hs E. apply (f_equal (fun o => match o with Some x => x | None => step end)) in Hs.
    subst step. revert H11. unfold _score_family_history; cbv zeta.
    rewrite Hdf, E. cbn [String.eqb Ascii.eqb Bool.eqb bind].
    rewrite filter_none by (intros row Hrow; apply (Hcell row Hrow)).
    cbn [List.length Nat.ltb Nat.leb]. intro H11. apply Ok_inj in H11. subst fam.
    reflexivity.
  - intros step Hs E. apply (f_equal (fun o => match o with Some x => x | None => step end)) in Hs.
    subst step. unfold _score_hobbies; cbv zeta; cbn [supporting_data].
    apply (comparison_no_match self _ _ _ Hdf). intros row Hrow.
    rewrite E. cbn [String.eqb Ascii.eqb Bool.eqb]. apply (Hcell row Hrow).
  - intros step Hs E Hfile.
    apply (f_equal (fun o => match o with Some x => x | None => step end)) in Hs.
    subst step. unfold _score_hobbies; cbv zeta; cbn [supporting_data].
    unfold comparison. rewrite Hdf.
    destruct (String.eqb_spec (dangerous_hobbies c) "None") as [|_]; [contradiction|].
    rewrite filter_all
      by (intros row Hrow; unfold cell_ne;
          rewrite (proj2 (proj2 (proj2 (proj2 (Hcell row Hrow))))); reflexivity).
    unfold read_csv. rewrite length_map.
    destruct file as [|line file]; [contradiction|].
    cbn [List.length Nat.ltb Nat.leb dict_get String.eqb Ascii.eqb Bool.eqb].
    unfold len. cbn [map List.length]. rewrite length_map. reflexivity.
  - intros step rate Hs.
    apply (f_equal (fun o => match o with Some x => x | None => step end)) in Hs.
    subst step. unfold _score_bmi; cbv zeta; cbn [supporting_data].
    destruct (comparison_cases self
                (fun row => between (bmi c - 2) (h_bmi row) (bmi c + 2))
                (fun bmi_cohort =>
                   [("cohort_size", len bmi_cohort);
                    ("avg_risk_score", avg_risk_score bmi_cohort);
                    ("chronic_condition_rate",
                     py_round
                       (mean_bool
                          (map (fun row => cell_ne (h_chronic_conditions row) "None")
                             bmi_cohort) * 100) 2)]))
      as [E | (df & cohort & Hdf' & Hcohort & Hne & E)]; rewrite E.
    + discriminate.
    + cbn [dict_get String.eqb Ascii.eqb Bool.eqb]. intro Hrate.
      injection Hrate as <-.
      rewrite Hdf in Hdf'. injection Hdf' as <-.
      assert (Hall : mean_bool (map (fun row => cell_ne (h_chronic_conditions row) "None")
                                  cohort) == 1).
      { apply mean_bool_all.
        - destruct cohort; [contradiction | discriminate].
        - apply Forall_forall. intros b Hb. apply in_map_iff in Hb as (row & <- & Hrow).
          subst cohort. apply filter_In in Hrow as [Hrow _].
          unfold cell_ne. rewrite (proj1 (proj2 (proj2 (Hcell row Hrow)))). reflexivity. }
      rewrite (py_round_compat _ 100 2) by (rewrite Hall; ring).
      vm_compute. reflexivity.
Qed.

Lemma loaded_table_never_matches_None_witness :
  exists r step,
    score_customer 20000
      (__init__ (Some [Sample.past_line 27 "Class I (Low Risk)" (Some 19000%Z)]))
      Sample.healthy = Ok r /\
    nth_error (scoring_steps r) 9 = Some step /\
    supporting_data step = [].
Proof.
  destruct (score_customer 20000
              (__init__ (Some [Sample.past_line 27 "Class I (Low Risk)" (Some 19000%Z)]))
              Sample.healthy) as [r|e] eqn:E; [|vm_compute in E; discriminate E].
  pose proof (loaded_table_never_matches_None 20000
                [Sample.past_line 27 "Class I (Low Risk)" (Some 19000%Z)]
                Sample.healthy r E) as (_ & _ & Hchronic & _).
  destruct (nth_error (scoring_steps r) 9) as [step|] eqn:Es.
  - exists r, step. split; [reflexivity|]. split; [exact Es|].
    apply Hchronic; reflexivity.
  - exfalso. apply (f_equal (fmap (fun r => nth_error (scoring_steps r) 9))) in E.
    cbn [fmap bind] in E. rewrite Es in E. vm_compute in E. discriminate E.
Defined.

(** ** Normalization *)

Lemma rstrip_idem (s : string) : Text.rstrip (Text.rstrip s) = Text.rstrip s.
Proof.
  induction s as [|c rest IH]; [reflexivity|].
  cbn [Text.rstrip].
  destruct (Text.rstrip rest) as [|k ks] eqn:E.
  - destruct (Text.isspace c) eqn:Ec; [reflexivity|].
    cbn [Text.rstrip]. rewrite Ec. reflexivity.
  - cbn [Text.rstrip]. cbn [Text.rstrip] in IH. rewrite IH. reflexivity.
Qed.

Lemma rstrip_head (c : ascii) (rest : string) :
  Text.isspace c = false ->
  exists kept, Text.rstrip (String c rest) = String c kept.
Proof.
  intro Hc. cbn [Text.rstrip].
  destruct (Text.rstrip rest) as [|k ks].
  - rewrite Hc. eexists. reflexivity.
  - eexists. reflexivity.
Qed.

Lemma lstrip_cases (s : string) :
  Text.lstrip s = EmptyString \/
  exists c rest, Text.lstrip s = String c rest /\ Text.isspace c = false.
Proof.
  induction s as [|c rest IH]; [left; reflexivity|].
  cbn [Text.lstrip]. destruct (Text.isspace c) eqn:Ec; [exact IH|].
  right. exists c, rest. split; [reflexivity | exact Ec].
Qed.

Lemma strip_idem (s : string) : Text.strip (Text.strip s) = Text.strip s.
Proof.
  unfold Text.strip.
  destruct (lstrip_cases s) as [E | (c & rest & E & Hc)]; rewrite E.
  - reflexivity.
  - destruct (rstrip_head c rest Hc) as [kept Ek].
    rewrite Ek. cbn [Text.lstrip]. rewrite Hc. rewrite <- Ek. apply rstrip_idem.
Qed.

Lemma _normalize_string_field_cases (v : value) :
  _normalize_string_field v "None" = "None" \/
  exists s,
    v = PyStr s /\ _normalize_string_field v "None" = Text.strip s /\
    Text.lower (Text.strip s) <> "nan" /\ Text.strip s <> "".
Proof.
  destruct v as [| |s]; cbn [_normalize_string_field]; try (left; reflexivity).
  cbv zeta.
  destruct (String.eqb_spec (Text.lower (Text.strip s)) "nan") as [E1|E1];
    [left; reflexivity|].
  destruct (String.eqb_spec (Text.lower (Text.strip s)) "") as [E2|E2];
    [left; reflexivity|].
  right. exists s. cbn [orb]. repeat split; try assumption.
  intro H. apply E2. rewrite H. reflexivity.
Qed.

Lemma _normalize_string_field_idem (v : value) :
  _normalize_string_field (PyStr (_normalize_string_field v "None")) "None"
  = _normalize_string_field v "None".
Proof.
  destruct (_normalize_string_field_cases v) as [E | (s & _ & E & Hnan & Hempty)];
    rewrite E; [reflexivity|].
  cbn [_normalize_string_field]. cbv zeta. rewrite strip_idem.
  destruct (String.eqb_spec (Text.lower (Text.strip s)) "nan"); [contradiction|].
  destruct (String.eqb_spec (Text.lower (Text.strip s)) "") as [E2|_];
    [|reflexivity].
  exfalso. apply Hempty. destruct (Text.strip s); [reflexivity | discriminate E2].
Qed.

(** X12. A normalized text field is never empty, never a spelling of "nan"
    and has no surrounding whitespace; normalizing it again changes
    nothing. *)
Theorem normalized_text_is_clean (v : value) :
  let s := _normalize_string_field v "None" in
  s <> "" /\ Text.lower s <> "nan" /\ Text.strip s = s /\
  _normalize_string_field (PyStr s) "None" = s.
Proof.
  cbv zeta. split; [|split; [|split]].
  4: apply _normalize_string_field_idem.
  all: destruct (_normalize_string_field_cases v)
         as [E | (s & _ & E & Hnan & Hempty)]; rewrite E;
       first [discriminate | reflexivity | assumption | apply strip_idem].
Qed.

Lemma normalize_customer_inputs_idem (raw : RawCustomer) :
  normalize_customer_inputs (as_raw (normalize_customer_inputs raw))
  = normalize_customer_inputs raw.
Proof.
  unfold normalize_customer_inputs, as_raw; cbv zeta.
  cbn [customer_id age gender occupation occupation_class height_inches weight_lbs
         bmi blood_pressure_systolic blood_pressure_diastolic total_cholesterol
         hdl_cholesterol ldl_cholesterol smoking_status alcohol_consumption
         exercise_frequency chronic_conditions family_history dangerous_hobbies
         annual_income coverage_amount_requested credit_score existing_coverage].
  rewrite !_normalize_string_field_idem. reflexivity.
Qed.

Lemma score_customer_normalized today self raw1 raw2 :
  normalize_customer_inputs raw1 = normalize_customer_inputs raw2 ->
  score_customer today self raw1 = score_customer today self raw2.
Proof. intro H. unfold score_customer. rewrite H. reflexivity. Qed.

(** X13. Normalizing a record before handing it to [score_customer], which
    normalizes again, gives the same outcome as handing over the record as
    it came. *)
Theorem scoring_a_normalized_record today self raw :
  score_customer today self (as_raw (normalize_customer_inputs raw))
  = score_customer today self raw.
Proof.
  apply score_customer_normalized. apply normalize_customer_inputs_idem.
Qed.

(** ** Missing category fields *)

Lemma missing_normalizes_to_None (v : value) :
  v = PyNone \/ v = PyNaN \/ v = PyStr "" ->
  _normalize_string_field v "None" = "None".
Proof. intros [-> | [-> | ->]]; reflexivity. Qed.

(** X15. A missing occupation class ([None], NaN or an empty string) makes
    the call fail with [KeyError('None')], and a missing smoking status or
    exercise frequency makes it fail too; a missing alcohol consumption is
    accepted as the category "None" with risk 0.2. *)
Theorem missing_category_fields today self raw :
  let missing v := v = PyNone \/ v = PyNaN \/ v = PyStr "" in
  (missing (occupation_class raw) ->
   score_customer today self raw = Raise (KeyError "None")) /\
  (missing (smoking_status raw) \/ missing (exercise_frequency raw) ->
   is_ok (score_customer today self raw) = false) /\
  (missing (alcohol_consumption raw) ->
   forall r, score_customer today self raw = Ok r ->
   exists step,
     nth_error (scoring_steps r) 7 = Some step /\ risk_contribution step = 0.2).
Proof.
  cbv zeta.
  pose proof (score_customer_cases today self raw) as H; cbv zeta in H.
  split; [|split].
  - intro Hm. apply missing_normalizes_to_None in Hm.
    change (occupation_class (normalize_customer_inputs raw))
      with (_normalize_string_field (occupation_class raw) "None") in H.
    rewrite Hm in H. exact H.
  - intro Hm.
    change (smoking_status (normalize_customer_inputs raw))
      with (_normalize_string_field (smoking_status raw) "None") in H.
    change (exercise_frequency (normalize_customer_inputs raw))
      with (_normalize_string_field (exercise_frequency raw) "None") in H.
    destruct Hm as [Hm|Hm]; apply missing_normalizes_to_None in Hm; rewrite Hm in H;
      [change (dict_get smoking_risk_map "None") with (@None Q) in H
      |change (dict_get exercise_risk_map "None") with (@None Q) in H].
    + destruct (dict_get occupation_risk_map _); rewrite H; reflexivity.
    + destruct (dict_get occupation_risk_map _);
        [destruct (dict_get smoking_risk_map _);
         [destruct (dict_get alcohol_risk_map _)|]|]; rewrite H; reflexivity.
  - intros Hm r Hr. apply missing_normalizes_to_None in Hm.
    apply score_customer_inv in Hr.
    destruct Hr as (occ & smk & alc & exe & chr & fam & _ & _ & H8 & _ & _ & _ & ->).
    cbn [scoring_steps nth_error]. exists alc. split; [reflexivity|].
    revert H8. unfold _score_alcohol; cbv zeta.
    change (alcohol_consumption (normalize_customer_inputs raw))
      with (_normalize_string_field (alcohol_consumption raw) "None").
    rewrite Hm. cbn [getitem dict_get alcohol_risk_map String.eqb bind].
    intro H8. apply Ok_inj in H8. subst alc. reflexivity.
Qed.

(** ** The HTTP layer *)

Lemma price_position_range (pattern_insight : option PatternInsight) (position : Q) :
  Api.price_position pattern_insight = Some position -> 0 <= position <= 1.
Proof.
  unfold Api.price_position.
  destruct pattern_insight as [insight|]; [|discriminate].
  cbv zeta. destruct (suggested_price_position insight) as [suggested|].
  - intro H. injection H as <-. apply clamp_bounds; vm_compute; discriminate.
  - repeat match goal with
           | |- context [if ?b then _ else _] => destruct b
           end;
      intro H; injection H as <-; split; vm_compute; discriminate.
Qed.

Lemma reported_prices_decimal today self raw r :
  score_customer today self raw = Ok r ->
  decimal 2 (annual_premium_low r) /\ decimal 2 (annual_premium_calculated r) /\
  decimal 2 (annual_premium_high r).
Proof.
  intro H. apply score_customer_inv in H.
  destruct H as (occ & smk & alc & exe & chr & fam & _ & _ & _ & _ & _ & _ & ->).
  cbn [annual_premium_low annual_premium_calculated annual_premium_high].
  repeat split; apply decimal_py_round.
Qed.

Lemma py_round_between (lo hi x : Q) (d : nat) :
  decimal d lo -> decimal d hi -> lo <= x <= hi -> lo <= py_round x d <= hi.
Proof.
  intros Hlo Hhi [H1 H2]. split.
  - apply Qle_trans with (py_round lo d).
    + rewrite (py_round_decimal lo d Hlo). apply Qle_refl.
    + apply py_round_le. exact H1.
  - apply Qle_trans with (py_round hi d).
    + apply py_round_le. exact H2.
    + rewrite (py_round_decimal hi d Hhi). apply Qle_refl.
Qed.

(** X16. Whatever insight the analyzer returns, the endpoint hands back the
    engine's result with the identifier, the final risk score, the low,
    calculated and high prices, the predicted duration, the attrition
    likelihood, the steps and the confidence level as the engine computed
    them.  Of these numbers it replaces only the recommended price: for a
    coverage amount that is not negative the new price lies within the
    reported band, and with no insight it is the calculated price. *)
Theorem endpoint_recommendation_within_band today engine pattern_insight raw r :
  score_customer today engine raw = Ok r ->
  exists body,
    Api.score_customer today engine pattern_insight raw = Reply body /\
    r_customer_id body = r_customer_id r /\
    final_risk_score body = final_risk_score r /\
    annual_premium_low body = annual_premium_low r /\
    annual_premium_calculated body = annual_premium_calculated r /\
    annual_premium_high body = annual_premium_high r /\
    predicted_policy_duration_years body = predicted_policy_duration_years r /\
    attrition_likelihood body = attrition_likelihood r /\
    scoring_steps body = scoring_steps r /\
    confidence_level body = confidence_level r /\
    ((0 <= coverage_amount_requested raw)%Z ->
     annual_premium_low r <= annual_premium_recommended body <= annual_premium_high r) /\
    (pattern_insight = None ->
     annual_premium_recommended body == annual_premium_calculated r).
Proof.
  intros H.
  destruct (reported_prices_decimal _ _ _ _ H) as (Dl & Dc & Dh).
  unfold Api.score_customer. rewrite H. cbv zeta.
  eexists. split; [reflexivity|].
  unfold Api.set_recommended.
  cbn [r_customer_id final_risk_score annual_premium_low annual_premium_calculated
         annual_premium_recommended annual_premium_high
         predicted_policy_duration_years attrition_likelihood scoring_steps
         confidence_level].
  do 9 (split; [reflexivity|]).
  split.
  - intro Hc.
    destruct (reported_band_ordered _ _ _ _ H Hc) as (_ & Hlc & Hch).
    destruct (Api.price_position pattern_insight) as [position|] eqn:Ep.
    + apply price_position_range in Ep.
      destruct (Qlt_bool (annual_premium_low r) (annual_premium_high r)) eqn:Elh.
      * apply Qlt_bool_iff in Elh. apply py_round_between; try assumption.
        set (l := annual_premium_low r) in *. set (h := annual_premium_high r) in *.
        assert (0 <= (h - l) * position) by (apply Qmult_le_0_compat; lra).
        assert ((h - l) * position <= (h - l) * 1)
          by (rewrite !(Qmult_comm (h - l)); apply Qmult_le_compat_r; lra).
        split; lra.
      * apply py_round_between; try assumption. split; assumption.
    + apply py_round_between; try assumption. split; assumption.
  - intros ->. cbn [Api.price_position]. apply py_round_decimal. exact Dc.
Qed.

(** X17. The endpoint answers with HTTP 500 exactly when the engine raises,
    whatever the insight, and the detail is the text of the exception.  For
    a [KeyError] whose key is made of printable ASCII characters other than
    the apostrophe and the backslash, the detail is the key between
    apostrophes and nothing else: an unmapped occupation class of that kind
    comes back in quotes, without the name of its field.  For an
    [AttributeError] the detail is its message. *)
Theorem endpoint_error_detail today engine pattern_insight raw :
  let c := normalize_customer_inputs raw in
  let plain (key : string) :=
    Forall (fun ch => (32 <= nat_of_ascii ch < 127)%nat /\
                      ch <> "'"%char /\ ch <> "\"%char)
      (list_ascii_of_string key) in
  (forall key,
     plain key ->
     score_customer today engine raw = Raise (KeyError key) ->
     Api.score_customer today engine pattern_insight raw
     = Failed {| status_code := 500; detail := String "'" (key ++ "'") |}) /\
  (plain (occupation_class c) ->
   dict_get occupation_risk_map (occupation_class c) = None ->
   Api.score_customer today engine pattern_insight raw
   = Failed {| status_code := 500;
             detail := String "'" (occupation_class c ++ "'") |}) /\
  (forall message,
     score_customer today engine raw = Raise (AttributeError message) ->
     Api.score_customer today engine pattern_insight raw
     = Failed {| status_code := 500; detail := message |}) /\
  (forall e,
     score_customer today engine raw = Raise e ->
     exists text,
       Api.score_customer today engine pattern_insight raw
       = Failed {| status_code := 500; detail := text |}) /\
  (is_ok (score_customer today engine raw) = true <->
   exists body, Api.score_customer today engine pattern_insight raw = Reply body).
Proof.
  cbv zeta.
  assert (Hkey : forall key,
             score_customer today engine raw = Raise (KeyError key) ->
             Api.score_customer today engine pattern_insight raw
             = Failed {| status_code := 500; detail := String "'" (key ++ "'") |}).
  { intros key H. unfold Api.score_customer. rewrite H. reflexivity. }
  split; [intros key _; apply Hkey|]. split; [|split; [|split]].
  - intros _ Hnone. apply Hkey.
    pose proof (score_customer_cases today engine raw) as H; cbv zeta in H.
    rewrite Hnone in H. exact H.
  - intros message H. unfold Api.score_customer. rewrite H. reflexivity.
  - intros e H. unfold Api.score_customer. rewrite H. eexists. reflexivity.
  - unfold Api.score_customer.
    destruct (score_customer today engine raw) as [r|e]; cbn [is_ok]; split.
    + intros _. eexists. reflexivity.
    + reflexivity.
    + discriminate.
    + intros [body H]. discriminate H.
Qed.

Lemma endpoint_error_detail_witness :
  Api.score_customer 20000 Sample.no_history None Sample.class_v
  = Failed {| status_code := 500; detail := "'Class V'" |}.
Proof.
  apply (proj1 (proj2 (endpoint_error_detail 20000 Sample.no_history None
                         Sample.class_v))).
  - match goal with
    | |- Forall _ ?l => let l' := eval vm_compute in l in change l with l'
    end.
    repeat (constructor; [split; [vm_compute; lia | split; discriminate]|]).
    constructor.
  - reflexivity.
Defined.

Lemma score_rows_Ok today engine rows results acc :
  Forall2 (fun row r => score_customer today engine row = Ok r) rows results ->
  Api.score_rows today engine rows acc = Ok (acc ++ results).
Proof.
  intro H. revert acc. induction H as [|row r rows results Hr _ IH]; intro acc.
  - cbn [Api.score_rows]. rewrite app_nil_r. reflexivity.
  - cbn [Api.score_rows]. rewrite Hr. cbn [bind]. rewrite IH, <- app_assoc. reflexivity.
Qed.

Lemma score_rows_Raise today engine pre bad post e acc :
  Forall (fun row => is_ok (score_customer today engine row) = true) pre ->
  score_customer today engine bad = Raise e ->
  Api.score_rows today engine (pre ++ bad :: post) acc = Raise e.
Proof.
  intros Hpre Hbad. revert acc.
  induction Hpre as [|row pre Hrow _ IH]; intro acc; cbn [app Api.score_rows].
  - rewrite Hbad. reflexivity.
  - destruct (score_customer today engine row) as [r|e']; [|discriminate Hrow].
    cbn [bind]. apply IH.
Qed.

(** X18. A batch is all or nothing: when every row scores, the reply lists
    one result per row, in row order, and counts them; when some row fails,
    the whole batch fails with HTTP 500 carrying the error of the first
    failing row, and no result is returned for the rows that scored. *)
Theorem batch_all_or_nothing today engine rows :
  (forall results,
     Forall2 (fun row r => score_customer today engine row = Ok r) rows results ->
     Api.score_batch today engine rows
     = Reply {| Api.total_customers := Z.of_nat (List.length rows);
                Api.results := results |}) /\
  (forall pre bad post e,
     rows = pre ++ bad :: post ->
     Forall (fun row => is_ok (score_customer today engine row) = true) pre ->
     score_customer today engine bad = Raise e ->
     Api.score_batch today engine rows
     = Failed {| status_code := 500; detail := exn_message e |}).
Proof.
  split.
  - intros results H. unfold Api.score_batch.
    rewrite (score_rows_Ok _ _ _ _ [] H). cbn [app].
    rewrite (Forall2_length H). reflexivity.
  - intros pre bad post e -> Hpre Hbad. unfold Api.score_batch.
    rewrite (score_rows_Raise _ _ _ _ post _ [] Hpre Hbad). reflexivity.
Qed.

Lemma batch_all_or_nothing_witness :
  Api.score_batch 20000 Sample.no_history
    [Sample.healthy; Sample.class_v; Sample.high_risk]
  = Failed {| status_code := 500; detail := "'Class V'" |}.
Proof.
  apply (proj2 (batch_all_or_nothing 20000 Sample.no_history
                  [Sample.healthy; Sample.class_v; Sample.high_risk])
           [Sample.healthy] Sample.class_v [Sample.high_risk] (KeyError "Class V")).
  - reflexivity.
  - constructor; [vm_compute; reflexivity | constructor].
  - vm_compute. reflexivity.
Defined.

(** ** The generator's scorer against the engine *)

Lemma mapped_step_exact (d : dict Q) (k cat fac : string) (w : Q)
    (data : dict Q) (step : ScoringStep) :
  (risk <- getitem d k ;; Ok (mkStep cat fac risk w (py_round (risk * w) 4) data))
  = Ok step ->
  exact_step step ->
  exists risk, getitem d k = Ok risk /\ weighted_score step == risk * w.
Proof.
  intros H [Hw _].
  destruct (mapped_step_weight _ _ _ _ _ _ _ H) as [W G].
  exists (risk_contribution step). split; [exact G|]. rewrite Hw, W. reflexivity.
Qed.

(** An engine without a table and the generator's scorer fail alike, and
    when they succeed the generator's sum is the engine's total. *)
Lemma generator_matches_unloaded_engine today self raw :
  historical_data self = None ->
  match score_customer today self raw,
        DataGenerator._calculate_risk_score (normalize_customer_inputs raw) with
  | Ok r, Ok generated => generated == final_risk_score r
  | Raise e, Raise e' => e = e'
  | _, _ => False
  end.
Proof.
  intro Hnone.
  pose proof (score_customer_cases today self raw) as Hcases; cbv zeta in Hcases.
  unfold counting_error in Hcases. rewrite Hnone in Hcases.
  set (c := normalize_customer_inputs raw) in *.
  revert Hcases.
  unfold DataGenerator._calculate_risk_score; cbv zeta.
  change [("Class I (Low Risk)", 0.2); ("Class II (Moderate Risk)", 0.4);
          ("Class III (High Risk)", 0.7); ("Class IV (Very High Risk)", 0.9)]
    with occupation_risk_map.
  change [("Never", 0.1); ("Former (>5 years)", 0.3); ("Former (<5 years)", 0.5);
          ("Current", 0.95)] with smoking_risk_map.
  change [("None", 0.2); ("Light (1-2/week)", 0.25); ("Moderate (3-7/week)", 0.4);
          ("Heavy (>7/week)", 0.8)] with alcohol_risk_map.
  change [("Sedentary", 0.7); ("Light (1-2/week)", 0.5); ("Moderate (3-4/week)", 0.3);
          ("Active (5+/week)", 0.15)] with exercise_risk_map.
  unfold getitem.
  destruct (dict_get occupation_risk_map (occupation_class c)) as [o|] eqn:D3;
    [|intro Hcases; rewrite Hcases; reflexivity]; cbn [bind].
  destruct (dict_get smoking_risk_map (smoking_status c)) as [s|] eqn:D7;
    [|intro Hcases; rewrite Hcases; reflexivity]; cbn [bind].
  destruct (dict_get alcohol_risk_map (alcohol_consumption c)) as [a|] eqn:D8;
    [|intro Hcases; rewrite Hcases; reflexivity]; cbn [bind].
  destruct (dict_get exercise_risk_map (exercise_frequency c)) as [x|] eqn:D9;
    [|intro Hcases; rewrite Hcases; reflexivity]; cbn [bind].
  intro Hcases.
  destruct Hcases as [r H]. rewrite H.
  pose proof (running_total_range _ _ _ _ H) as Hrange.
  pose proof (final_risk_score_total _ _ _ _ H) as Hfinal.
  rewrite Hfinal. clear Hfinal.
  apply score_customer_inv in H. fold c in H.
  destruct H as (occ & smk & alc & exe & chr & fam & H3 & H7 & H8 & H9 & H10 & H11 & ->).
  cbn [scoring_steps] in *.
  unfold running_total in *. cbv beta iota delta [fold_left] in *.
  pose proof (_score_occupation_exact _ _ _ H3) as X3.
  pose proof (_score_smoking_exact _ _ _ H7) as X7.
  pose proof (_score_alcohol_exact _ _ _ H8) as X8.
  pose proof (_score_exercise_exact _ _ _ H9) as X9.
  destruct (mapped_step_exact _ _ _ _ _ _ _ H3 X3) as (o' & G3 & E3).
  destruct (mapped_step_exact _ _ _ _ _ _ _ H7 X7) as (s' & G7 & E7).
  destruct (mapped_step_exact _ _ _ _ _ _ _ H8 X8) as (a' & G8 & E8).
  destruct (mapped_step_exact _ _ _ _ _ _ _ H9 X9) as (x' & G9 & E9).
  clear X3 X7 X8 X9 H3 H7 H8 H9.
  assert (H10' := H10). assert (H11' := H11).
  pose proof (proj1 (_score_age_exact self c)) as E1.
  pose proof (proj1 (_score_gender_exact self c)) as E2.
  pose proof (proj1 (_score_bmi_exact self c)) as E4.
  pose proof (proj1 (_score_blood_pressure_exact self c)) as E5.
  pose proof (proj1 (_score_cholesterol_exact self c)) as E6.
  pose proof (proj1 (_score_chronic_conditions_exact self c chr H10)) as E10.
  pose proof (proj1 (_score_family_history_exact self c fam H11)) as E11.
  apply _score_chronic_conditions_inv in H10 as (d10 & ->).
  apply _score_family_history_inv in H11 as (d11 & ->).
  pose proof (proj1 (_score_hobbies_exact self c)) as E12.
  unfold getitem in G3, G7, G8, G9. rewrite D3 in G3. rewrite D7 in G7.
  rewrite D8 in G8. rewrite D9 in G9.
  apply Ok_inj in G3, G7, G8, G9. subst o' s' a' x'.
  set (w1 := weighted_score (_score_age self c)) in *.
  set (w2 := weighted_score (_score_gender self c)) in *.
  set (w4 := weighted_score (_score_bmi self c)) in *.
  set (w5 := weighted_score (_score_blood_pressure self c)) in *.
  set (w6 := weighted_score (_score_cholesterol self c)) in *.
  set (w10 := weighted_score (mkStep "Medical History" "Chronic Conditions" _ _ _ d10)) in *.
  set (w11 := weighted_score (mkStep "Medical History" "Family History" _ _ _ d11)) in *.
  set (w12 := weighted_score (_score_hobbies self c)) in *.
  unfold _score_age in E1. unfold _score_gender in E2. unfold _score_bmi in E4.
  unfold _score_blood_pressure in E5. unfold _score_cholesterol in E6.
  unfold chronic_risk in E10. unfold family_risk in E11.
  unfold _score_hobbies in E12.
  cbv zeta in E1, E2, E4, E5, E6, E10, E11, E12.
  cbn [risk_contribution weight] in E1, E2, E4, E5, E6, E10, E11, E12.
  match goal with
  | |- Qmin 0.99 (Qmax 0.01 ?S) == ?T =>
      assert (Esum : S == T) by lra;
      rewrite Esum;
      rewrite (Q.max_r 0.01 T) by lra;
      rewrite (Q.min_r 0.99 T) by lra
  end.
  reflexivity.
Qed.

(** X19. The generator's [_calculate_risk_score] and the engine agree on
    every normalized record.  When the generator raises, the engine raises
    the same [KeyError], with or without a historical table.  When the
    generator returns a score, it lies strictly between 0.01 and 0.99, so
    the generator's clamp does not act; an engine without a table returns a
    result; and the generator's score rounded to four decimals, as the
    engine rounds its own total, is the final risk score of every result an
    engine returns. *)
Theorem generator_score_agrees_with_engine today self raw :
  match DataGenerator._calculate_risk_score (normalize_customer_inputs raw) with
  | Raise e => score_customer today self raw = Raise e
  | Ok generated =>
      0.01 < generated < 0.99 /\
      (historical_data self = None -> exists r, score_customer today self raw = Ok r) /\
      (forall r,
         score_customer today self raw = Ok r ->
         py_round generated 4 = final_risk_score r)
  end.
Proof.
  pose proof (generator_matches_unloaded_engine today (mkEngine None) raw eq_refl) as H0.
  destruct (DataGenerator._calculate_risk_score (normalize_customer_inputs raw))
    as [generated|e].
  - destruct (score_customer today (mkEngine None) raw) as [r0|e0] eqn:E0;
      [|contradiction].
    pose proof (running_total_range _ _ _ _ E0) as [Hlo Hhi].
    pose proof (final_risk_score_total _ _ _ _ E0) as Htotal.
    split; [split; lra|]. split.
    + intro Hnone.
      destruct (no_history_outcome today self raw Hnone) as [Hok | (key & _ & Hany)];
        [exact Hok|].
      rewrite (Hany (mkEngine None)) in E0. discriminate E0.
    + intros r Hr.
      pose proof (history_free_engine _ _ _ _ _ _ Hr E0) as Hfree.
      assert (Hsame : final_risk_score r = final_risk_score r0).
      { unfold history_free, score_and_prices in Hfree. congruence. }
      rewrite Hsame, (final_risk_score_rounded _ _ _ _ E0).
      apply py_round_compat. rewrite H0.
      exact (final_risk_score_total _ _ _ _ E0).
  - destruct (score_customer today (mkEngine None) raw) as [r0|e0] eqn:E0;
      [contradiction|].
    subst e0.
    destruct (no_history_outcome today (mkEngine None) raw eq_refl)
      as [[r Hr] | (key & Hk & Hany)].
    + rewrite Hr in E0. discriminate E0.
    + rewrite Hk in E0. injection E0 as <-. apply Hany.
Qed.

Example generator_scores_high_risk :
  fmap Qred (DataGenerator._calculate_risk_score
               (normalize_customer_inputs Sample.high_risk)) = Ok (819 # 1000).
Proof. vm_compute. reflexivity. Qed.

(** ** The response cache *)

Lemma set_lookup now files key value ttl :
  exists data,
    AICache.set now files key value ttl key = Some data /\
    AICache.expires_at data = now + inject_Z ttl /\
    AICache.rebuild (AICache.data_value data) = Some (without_sentiment value).
Proof.
  unfold AICache.set, AICache.write; cbv beta zeta.
  eexists. rewrite String.eqb_refl. split; [reflexivity|]. split; reflexivity.
Qed.

Lemma unlink_lookup key files : AICache.unlink key files key = None.
Proof. unfold AICache.unlink. rewrite String.eqb_refl. reflexivity. Qed.

(** X20. An insight stored with [set] comes back from [get] until its time
    to live has passed, without its sentiment list, which the cache does not
    keep; the read leaves the cache as it was. *)
Theorem cache_get_after_set now now' files key value ttl :
  now' <= now + inject_Z ttl ->
  AICache.get now' (AICache.set now files key value ttl) key
  = (Some (without_sentiment value), AICache.set now files key value ttl).
Proof.
  intro Hfresh.
  destruct (set_lookup now files key value ttl) as (data & Hdata & Hexp & Hvalue).
  unfold AICache.get. rewrite Hdata, Hexp.
  assert (E : Qlt_bool (now + inject_Z ttl) now' = false)
    by (apply Qlt_bool_false; exact Hfresh).
  rewrite E, Hvalue. reflexivity.
Qed.

Lemma cache_get_after_set_witness :
  AICache.get 1000 (AICache.set 0 Scenario.empty_cache "k" Scenario.insight 3600) "k"
  = (Some (without_sentiment Scenario.insight),
     AICache.set 0 Scenario.empty_cache "k" Scenario.insight 3600).
Proof.
  apply (cache_get_after_set 0 1000 Scenario.empty_cache "k" Scenario.insight 3600).
  vm_compute. discriminate.
Defined.

(** X21. Once the time to live has passed, [get] returns nothing and
    deletes the entry: no later read of that key finds anything, at any
    time, while the other keys are left alone. *)
Theorem cache_get_expired now now' files key value ttl :
  now + inject_Z ttl < now' ->
  let after := AICache.get now' (AICache.set now files key value ttl) key in
  fst after = None /\
  (forall t, AICache.get t (snd after) key = (None, snd after)) /\
  (forall k, k <> key -> snd after k = files k).
Proof.
  intro Hold. cbv zeta.
  assert (Hafter : AICache.get now' (AICache.set now files key value ttl) key
                   = (None, AICache.unlink key (AICache.set now files key value ttl))).
  { destruct (set_lookup now files key value ttl) as (data & Hdata & Hexp & _).
    unfold AICache.get. rewrite Hdata, Hexp.
    assert (E : Qlt_bool (now + inject_Z ttl) now' = true)
      by (apply Qlt_bool_iff; exact Hold).
    rewrite E. reflexivity. }
  rewrite Hafter. cbn [fst snd]. split; [reflexivity|]. split.
  - intro t. unfold AICache.get. rewrite unlink_lookup. reflexivity.
  - intros k Hk. unfold AICache.unlink, AICache.set, AICache.write; cbv beta zeta.
    destruct (String.eqb_spec k key); [contradiction|reflexivity].
Qed.

Lemma cache_get_expired_witness :
  fst (AICache.get 4000
         (AICache.set 0 Scenario.empty_cache "k" Scenario.insight 3600) "k") = None.
Proof.
  apply (cache_get_expired 0 4000 Scenario.empty_cache "k" Scenario.insight 3600).
  vm_compute. reflexivity.
Defined.

(** X22. Storing under one key does not change what [get] returns for any
    other key, and a key that was never stored reads as a miss that leaves
    the cache unchanged. *)
Theorem cache_keys_independent now t files key key' value ttl :
  key' <> key ->
  fst (AICache.get t (AICache.set now files key value ttl) key')
  = fst (AICache.get t files key') /\
  (files key' = None -> AICache.get t files key' = (None, files)).
Proof.
  intro Hk. split.
  - unfold AICache.get, AICache.set, AICache.write; cbv beta zeta.
    destruct (String.eqb_spec key' key); [contradiction|].
    destruct (files key') as [data|]; [|reflexivity].
    destruct (Qlt_bool (AICache.expires_at data) t); reflexivity.
  - intro Hnone. unfold AICache.get. rewrite Hnone. reflexivity.
Qed.

Lemma cache_keys_independent_witness :
  fst (AICache.get 10
         (AICache.set 0 Scenario.empty_cache "a" Scenario.insight 3600) "b")
  = fst (AICache.get 10 Scenario.empty_cache "b").
Proof.
  apply (cache_keys_independent 0 10 Scenario.empty_cache "a" "b" Scenario.insight
           3600).
  discriminate.
Defined.

(** X23. [clear_expired] is invisible to readers: at the time of the sweep
    and at any later time, every key reads the same with or without it, and
    after it no entry that had expired remains. *)
Theorem clear_expired_is_transparent now t files key :
  now <= t ->
  fst (AICache.get t (AICache.clear_expired now files) key)
  = fst (AICache.get t files key) /\
  (forall data,
     AICache.clear_expired now files key = Some data ->
     files key = Some data /\ now <= AICache.expires_at data).
Proof.
  intro Hlater. split.
  - unfold AICache.get, AICache.clear_expired; cbv beta.
    destruct (files key) as [data|]; [|reflexivity].
    destruct (Qlt_bool (AICache.expires_at data) now) eqn:E1.
    + apply Qlt_bool_iff in E1.
      assert (E2 : Qlt_bool (AICache.expires_at data) t = true)
        by (apply Qlt_bool_iff; lra).
      rewrite E2. reflexivity.
    + destruct (Qlt_bool (AICache.expires_at data) t); reflexivity.
  - intros data. unfold AICache.clear_expired; cbv beta.
    destruct (files key) as [d|]; [|discriminate].
    destruct (Qlt_bool (AICache.expires_at d) now) eqn:E; [discriminate|].
    intro H. injection H as <-. split; [reflexivity|].
    apply Qlt_bool_false. exact E.
Qed.

Lemma clear_expired_is_transparent_witness :
  fst (AICache.get 5000
         (AICache.clear_expired 4000
            (AICache.set 0 Scenario.empty_cache "k" Scenario.insight 3600)) "k")
  = fst (AICache.get 5000
           (AICache.set 0 Scenario.empty_cache "k" Scenario.insight 3600) "k").
Proof.
  apply (clear_expired_is_transparent 4000 5000
           (AICache.set 0 Scenario.empty_cache "k" Scenario.insight 3600) "k").
  vm_compute. discriminate.
Defined.

(** ** Price positions *)

(** X24. When an insight carries no suggested position, the endpoint reads
    one off the risk multiplier with its own thresholds: it agrees with the
    analyzer's [_suggest_price_position_from_multiplier] except for
    multipliers in (1.2, 1.5] and in [0.8, 0.9).  The cache's backfill of an
    old entry uses the analyzer's mapping exactly. *)
Theorem price_position_mappings (insight : PatternInsight) (rm : Q) :
  suggested_price_position insight = None ->
  risk_multiplier insight = Some rm ->
  (Api.price_position (Some insight)
   = Some (PatternAnalyzer._suggest_price_position_from_multiplier (Some rm))
   <-> ~ (1.2 < rm <= 1.5) /\ ~ (0.8 <= rm < 0.9)) /\
  (forall value_dict rebuilt,
     AICache.v_suggested_price_position value_dict = None ->
     AICache.v_risk_multiplier value_dict = Some rm ->
     AICache.rebuild value_dict = Some rebuilt ->
     suggested_price_position rebuilt
     = Some (PatternAnalyzer._suggest_price_position_from_multiplier (Some rm))).
Proof.
  intros Hs Hrm. split.
  - unfold Api.price_position; cbv zeta. rewrite Hs, Hrm.
    unfold PatternAnalyzer._suggest_price_position_from_multiplier.
    destruct (Qlt_bool 1.5 rm) eqn:A; [|destruct (Qlt_bool 1.2 rm) eqn:B];
      [| |destruct (Qlt_bool rm 0.8) eqn:C]; destruct (Qlt_bool rm 0.9) eqn:D;
      repeat match goal with
             | H : Qlt_bool _ _ = true |- _ => apply Qlt_bool_iff in H
             | H : Qlt_bool _ _ = false |- _ => apply Qlt_bool_false in H
             end;
      split;
      try (intros _; split; intros [? ?]; lra);
      try (intro H; discriminate H);
      try (intros _; reflexivity);
      try (intros [H1 H2]; exfalso; first [apply H1; split; lra | apply H2; split; lra]).
  - intros value_dict rebuilt Hpos Hmult. unfold AICache.rebuild; cbv zeta.
    rewrite Hpos, Hmult. intro H. injection H as <-. reflexivity.
Qed.

Lemma price_position_mappings_witness :
  Api.price_position (Some Scenario.insight_without_position) = Some 0.65 /\
  Api.price_position (Some Scenario.insight_without_position)
  <> Some (PatternAnalyzer._suggest_price_position_from_multiplier (Some 1.3)).
Proof.
  split; [reflexivity|].
  intro H.
  apply (proj1 (proj1 (price_position_mappings Scenario.insight_without_position 1.3
                         eq_refl eq_refl))) in H.
  destruct H as [H _]. apply H. split; [vm_compute; reflexivity|vm_compute; discriminate].
Defined.

(** ** The analyzer's cohorts *)

(** X25. Every row of the analyzer's similar cohort is a historical row of
    the applicant's gender within fifteen years of the applicant's age, and
    a cohort of fewer than 50 rows is always the relaxed one: all rows of
    that gender within fifteen years. *)
Theorem similar_cohort_shape (historical_data : DataFrame) (customer : Customer) :
  let cohort := PatternAnalyzer._find_similar_cohort historical_data customer in
  (forall row,
     In row cohort ->
     In row historical_data /\ h_gender row = Str (gender customer) /\
     age customer - 15 <= h_age row <= age customer + 15) /\
  ((List.length cohort < 50)%nat ->
   forall row,
     In row cohort <->
     In row historical_data /\ h_gender row = Str (gender customer) /\
     age customer - 15 <= h_age row <= age customer + 15).
Proof.
  cbv zeta. unfold PatternAnalyzer._find_similar_cohort; cbv zeta.
  set (strict := filter _ (if Qlt_bool (bmi customer) 25 then _ else _)).
  assert (Hstrict : forall row,
             In row strict ->
             In row historical_data /\ h_gender row = Str (gender customer) /\
             age customer - 10 <= h_age row <= age customer + 10).
  { intros row H. subst strict. apply filter_In in H as [H _].
    assert (H' : In row (filter (fun row => cell_eq (h_gender row) (gender customer))
                           (filter (fun row => between (age customer - 10) (h_age row)
                                                 (age customer + 10)) historical_data))).
    { destruct (Qlt_bool (bmi customer) 25); [|destruct (Qlt_bool (bmi customer) 30)];
        apply filter_In in H; tauto. }
    rewrite !filter_In, between_iff, cell_eq_iff in H'. tauto. }
  assert (Hrelaxed : forall row,
             In row (filter (fun row => cell_eq (h_gender row) (gender customer))
                       (filter (fun row => between (age customer - 15) (h_age row)
                                             (age customer + 15)) historical_data)) <->
             In row historical_data /\ h_gender row = Str (gender customer) /\
             age customer - 15 <= h_age row <= age customer + 15).
  { intro row. rewrite !filter_In, between_iff, cell_eq_iff. tauto. }
  destruct (Nat.ltb_spec (List.length strict) 50) as [Hlt|Hge]; split.
  - intros row H. apply Hrelaxed. exact H.
  - intros _ row. apply Hrelaxed.
  - intros row H. destruct (Hstrict row H) as (Hin & Hg & [H1 H2]).
    split; [exact Hin|]. split; [exact Hg|]. split; lra.
  - intro Hlen. destruct (proj1 (Nat.lt_nge _ _) Hlen Hge).
Qed.

Lemma similar_cohort_shape_witness :
  let historical_data := [Sample.past_policy 27 "Class I (Low Risk)" (Some 19000%Z)] in
  let customer := normalize_customer_inputs (with_gender (PyStr "Male") Sample.healthy) in
  In (Sample.past_policy 27 "Class I (Low Risk)" (Some 19000%Z))
    (PatternAnalyzer._find_similar_cohort historical_data customer).
Proof.
  cbv zeta.
  apply (proj2 (similar_cohort_shape
                  [Sample.past_policy 27 "Class I (Low Risk)" (Some 19000%Z)]
                  (normalize_customer_inputs (with_gender (PyStr "Male") Sample.healthy)))).
  - apply Nat.ltb_lt. vm_compute. reflexivity.
  - split; [left; reflexivity|]. split; [reflexivity|].
    split; vm_compute; discriminate.
Defined.

Lemma sub_pattern_step (patterns : list PatternAnalyzer.SubPattern)
    (description : string) (rows cohort : DataFrame) (n : nat) :
  (List.length rows <= List.length cohort)%nat ->
  (List.length patterns <= n)%nat ->
  Forall (fun p => (10 < PatternAnalyzer.size p <= List.length cohort)%nat) patterns ->
  let patterns' :=
    if (10 <? List.length rows)%nat
    then patterns ++ [PatternAnalyzer.summarize description rows]
    else patterns in
  (List.length patterns' <= S n)%nat /\
  Forall (fun p => (10 < PatternAnalyzer.size p <= List.length cohort)%nat) patterns'.
Proof.
  intros Hrows Hlen Hall. cbv zeta.
  destruct (Nat.ltb_spec 10 (List.length rows)) as [H|H].
  - split; [rewrite length_app; cbn [List.length]; lia|].
    apply Forall_app. split; [exact Hall|].
    constructor; [|constructor]. cbn [PatternAnalyzer.summarize PatternAnalyzer.size]. lia.
  - split; [lia | exact Hall].
Qed.

(** X26. The analyzer reports at most four sub-patterns, each over more than
    ten and at most all rows of the cohort; a cohort of ten rows or fewer
    yields none. *)
Theorem sub_patterns_need_eleven_rows (cohort : DataFrame) (customer : Customer) :
  let patterns := PatternAnalyzer._find_sub_patterns cohort customer in
  (List.length patterns <= 4)%nat /\
  Forall (fun p => (10 < PatternAnalyzer.size p <= List.length cohort)%nat) patterns /\
  ((List.length cohort <= 10)%nat -> patterns = []).
Proof.
  cbv zeta.
  assert (H : (List.length (PatternAnalyzer._find_sub_patterns cohort customer) <= 4)%nat /\
              Forall (fun p => (10 < PatternAnalyzer.size p <= List.length cohort)%nat)
                (PatternAnalyzer._find_sub_patterns cohort customer)).
  { unfold PatternAnalyzer._find_sub_patterns; cbv zeta.
    pose proof (sub_pattern_step [] "Similar smoking status + BMI range"
                  (filter (fun row =>
                             cell_eq (h_smoking_status row) (smoking_status customer)
                             && Qlt_bool (Qabs (h_bmi row - bmi customer)) 3) cohort)
                  cohort 0 (filter_incl_length _ _) (le_n 0) (Forall_nil _)) as [L1 F1].
    cbv zeta in L1, F1.
    set (p1 := if (10 <? _)%nat then _ else _) in *.
    pose proof (sub_pattern_step p1 "Same occupation class + chronic condition status"
                  (filter (fun row =>
                             cell_eq (h_occupation_class row) (occupation_class customer)
                             && cell_eq (h_chronic_conditions row)
                                  (chronic_conditions customer)) cohort)
                  cohort 1 (filter_incl_length _ _) L1 F1) as [L2 F2].
    cbv zeta in L2, F2.
    set (p2 := if (10 <? _)%nat then p1 ++ _ else p1) in *.
    pose proof (sub_pattern_step p2 "Similar exercise level + BMI"
                  (filter (fun row =>
                             cell_eq (h_exercise_frequency row)
                               (exercise_frequency customer)
                             && Qlt_bool (Qabs (h_bmi row - bmi customer)) 5) cohort)
                  cohort 2 (filter_incl_length _ _) L2 F2) as [L3 F3].
    cbv zeta in L3, F3.
    set (p3 := if (10 <? _)%nat then p2 ++ _ else p2) in *.
    pose proof (sub_pattern_step p3 "Age + smoking + cholesterol triple match"
                  (filter (fun row =>
                             Qlt_bool (Qabs (h_age row - age customer)) 5
                             && cell_eq (h_smoking_status row) (smoking_status customer)
                             && (Z.abs (h_total_cholesterol row
                                        - total_cholesterol customer) <? 30)%Z) cohort)
                  cohort 3 (filter_incl_length _ _) L3 F3) as [L4 F4].
    cbv zeta in L4, F4.
    split; [exact L4 | exact F4]. }
  destruct H as [Hlen Hall]. split; [exact Hlen|]. split; [exact Hall|].
  intro Hsmall.
  destruct (PatternAnalyzer._find_sub_patterns cohort customer) as [|p ps];
    [reflexivity|].
  inversion Hall as [|? ? Hp _]. lia.
Qed.

(** ** Scores with and without a historical table *)

(** X27. A historical table never changes a score or a price.  Two engines
    that both return a result for an applicant return the same final risk
    score, the same low, calculated, recommended and high prices, the same
    confidence level and the same risk, weight and weighted score in every
    step; and a call that succeeds with a table succeeds without one. *)
Theorem history_never_changes_a_score today self1 self2 raw :
  (forall r1 r2,
     score_customer today self1 raw = Ok r1 ->
     score_customer today self2 raw = Ok r2 ->
     score_and_prices r1 = score_and_prices r2 /\ history_free r1 = history_free r2) /\
  (historical_data self2 = None ->
   forall r1,
     score_customer today self1 raw = Ok r1 ->
     exists r2, score_customer today self2 raw = Ok r2).
Proof.
  split.
  - intros r1 r2 H1 H2.
    pose proof (history_free_engine _ _ _ _ _ _ H1 H2) as H.
    split; [|exact H]. unfold history_free in H. congruence.
  - intros Hnone r1 H1.
    destruct (no_history_outcome today self2 raw Hnone) as [Hok | (key & _ & Hany)];
      [exact Hok|].
    rewrite (Hany self1) in H1. discriminate H1.
Qed.

Lemma history_never_changes_a_score_witness :
  exists r1 r2,
    score_customer 20000 Sample.one_policy Sample.healthy = Ok r1 /\
    score_customer 20000 Sample.no_history Sample.healthy = Ok r2 /\
    score_and_prices r1 = score_and_prices r2.
Proof.
  destruct (score_customer 20000 Sample.one_policy Sample.healthy) as [r1|e] eqn:E1;
    [|vm_compute in E1; discriminate E1].
  destruct (score_customer 20000 Sample.no_history Sample.healthy) as [r2|e] eqn:E2;
    [|vm_compute in E2; discriminate E2].
  exists r1, r2. split; [reflexivity|]. split; [reflexivity|].
  apply (proj1 (history_never_changes_a_score 20000 Sample.one_policy
                  Sample.no_history Sample.healthy) r1 r2 E1 E2).
Defined.

(** ** Instances *)

Lemma final_risk_score_range_witness :
  exists r,
    score_customer 20000 Sample.no_history Sample.healthy = Ok r /\
    0.1725 <= final_risk_score r <= 0.9465.
Proof.
  eexists. split; [vm_compute; reflexivity|].
  apply (final_risk_score_range 20000 Sample.no_history Sample.healthy).
  vm_compute. reflexivity.
Defined.

Lemma step_risk_range_witness :
  exists r,
    score_customer 20000 Sample.no_history Sample.high_risk = Ok r /\
    Forall (fun step =>
              0.1 <= risk_contribution step <= 0.95 /\
              0 < weighted_score step < weight step)
      (scoring_steps r).
Proof.
  eexists. split; [vm_compute; reflexivity|].
  apply (step_risk_range 20000 Sample.no_history Sample.high_risk).
  vm_compute. reflexivity.
Defined.

Lemma missing_category_fields_witness :
  occupation_class Scenario.no_occupation_class = PyNaN /\
  score_customer 20000 Sample.no_history Scenario.no_occupation_class
  = Raise (KeyError "None").
Proof.
  split; [reflexivity|].
  apply (proj1 (missing_category_fields 20000 Sample.no_history
                  Scenario.no_occupation_class)).
  right. left. reflexivity.
Defined.

Lemma endpoint_recommendation_within_band_witness :
  exists r body,
    score_customer 20000 Sample.no_history Sample.healthy = Ok r /\
    Api.score_customer 20000 Sample.no_history (Some Scenario.insight) Sample.healthy
    = Reply body /\
    final_risk_score body = final_risk_score r /\
    annual_premium_low r <= annual_premium_recommended body <= annual_premium_high r.
Proof.
  destruct (score_customer 20000 Sample.no_history Sample.healthy) as [r|e] eqn:E;
    [|vm_compute in E; discriminate E].
  destruct (endpoint_recommendation_within_band 20000 Sample.no_history
              (Some Scenario.insight) Sample.healthy r E)
    as (body & H1 & _ & H2 & _ & _ & _ & _ & _ & _ & _ & H3 & _).
  exists r, body. split; [reflexivity|]. split; [exact H1|]. split; [exact H2|].
  apply H3. vm_compute. discriminate.
Defined.

Lemma sub_patterns_need_eleven_rows_witness :
  PatternAnalyzer._find_sub_patterns
    [Sample.past_policy 27 "Class I (Low Risk)" (Some 19000%Z)]
    (normalize_customer_inputs Sample.healthy) = [].
Proof.
  apply (sub_patterns_need_eleven_rows
           [Sample.past_policy 27 "Class I (Low Risk)" (Some 19000%Z)]
           (normalize_customer_inputs Sample.healthy)).
  cbn [List.length]. lia.
Defined.

(** The endpoint with an insight suggesting 70% of the band. *)
Example endpoint_applies_suggestion :
  match Api.score_customer 20000 Sample.no_history (Some Scenario.insight)
          Sample.healthy with
  | Reply body =>
      Qeq_bool (annual_premium_low body) 259.46 &&
      Qeq_bool (annual_premium_recommended body) 344.93 &&
      Qeq_bool (annual_premium_calculated body) 308.30 &&
      Qeq_bool (annual_premium_high body) 381.56
  | Failed _ => false
  end = true.
Proof. vm_compute. reflexivity. Qed.
